(** * QR member login: signed tokens, sessions and the credential store

    A shallow embedding of [app.py] and [database.py].  The Flask handlers
    become state-passing functions over a [world] (the SQLite tables and the
    client's session cookie); the signed-token serializer the application
    builds at start-up ([URLSafeSerializer(SECRET_TOKEN_KEY)]) is embedded
    down to its HMAC-SHA1 signature, so that tokens can be computed. *)

From Stdlib Require Import ZArith List String Ascii Bool Lia.
From stdpp Require Import base decidable option list strings pretty gmap.
From stdpp Require Import sorting.

Local Open Scope Z_scope.

(** Python [bytes]: Rocq's [ascii] is an octet. *)
Abbreviation bytes := (list ascii).

Definition b (s : string) : bytes := list_ascii_of_string s.

(* ===================================================================== *)
(** ** Url-safe base64, as [itsdangerous.encoding] uses it                *)
(* ===================================================================== *)

Module Base64.

(** The eight bits of an octet, most significant first. *)
Definition bits_of_byte (c : ascii) : list bool :=
  let '(Ascii b0 b1 b2 b3 b4 b5 b6 b7) := c in [b7; b6; b5; b4; b3; b2; b1; b0].

Definition byte_of_bits (l : list bool) : ascii :=
  match l with
  | [b7; b6; b5; b4; b3; b2; b1; b0] => Ascii b0 b1 b2 b3 b4 b5 b6 b7
  | _ => zero
  end.

(** A base64 digit is six bits, most significant first. *)
Definition index_of_bits (l : list bool) : nat :=
  fold_left (fun n (x : bool) => (2 * n + if x then 1 else 0)%nat) l 0%nat.

Fixpoint bits_of_index (width n : nat) : list bool :=
  match width with
  | O => []
  | S w => bits_of_index w (n / 2) ++ [Nat.odd n]
  end.

Definition alphabet : bytes :=
  b "ABCDEFGHIJKLMNOPQRSTUVWXYZabcdefghijklmnopqrstuvwxyz0123456789-_".

Definition pad : ascii := "="%char.

Definition digit (l : list bool) : ascii := nth (index_of_bits l) alphabet pad.

Fixpoint find_index (c : ascii) (l : bytes) : option nat :=
  match l with
  | [] => None
  | x :: l' => if Ascii.eqb x c then Some O else S <$> find_index c l'
  end.

(** [urlsafe_b64decode] first maps [-] to [+] and [_] to [/] and then reads
    the standard alphabet, so [+] and [/] are digits as well. *)
Definition digit_value (c : ascii) : option (list bool) :=
  let c' := if Ascii.eqb c "+" then "-"%char
            else if Ascii.eqb c "/" then "_"%char else c in
  bits_of_index 6 <$> find_index c' alphabet.

(** [base64.urlsafe_b64encode]: three octets give four digits, the last
    group is padded with [=]. *)
Fixpoint urlsafe_b64encode (s : bytes) : bytes :=
  match s with
  | [] => []
  | [x] =>
      let l := bits_of_byte x in
      [digit (take 6 l); digit (drop 6 l ++ [false; false; false; false]); pad; pad]
  | [x; y] =>
      let l := bits_of_byte x ++ bits_of_byte y in
      [digit (take 6 l); digit (take 6 (drop 6 l));
       digit (drop 12 l ++ [false; false]); pad]
  | x :: y :: z :: s' =>
      let l := bits_of_byte x ++ bits_of_byte y ++ bits_of_byte z in
      digit (take 6 l) :: digit (take 6 (drop 6 l)) ::
      digit (take 6 (drop 12 l)) :: digit (drop 18 l) :: urlsafe_b64encode s'
  end.

(** [binascii.a2b_base64] without [strict_mode]: characters outside the
    alphabet are skipped, a sufficient run of [=] ends the input, bits left
    over in the last group are dropped, and an incomplete group that is not
    closed by padding is an error ([None]). *)
Fixpoint a2b_base64 (s : bytes) (quad_pos pads : nat) (leftchar : list bool)
  : option bytes :=
  match s with
  | [] => if decide (quad_pos = 0%nat) then Some [] else None
  | c :: s' =>
      if Ascii.eqb c pad then
        if decide (2 <= quad_pos)%nat then
          if decide (4 <= quad_pos + S pads)%nat then Some []
          else a2b_base64 s' quad_pos (S pads) leftchar
        else a2b_base64 s' quad_pos pads leftchar
      else
        match digit_value c with
        | None => a2b_base64 s' quad_pos pads leftchar
        | Some v =>
            let acc := leftchar ++ v in
            let quad_pos' := ((quad_pos + 1) mod 4)%nat in
            if decide (8 <= length acc)%nat then
              cons (byte_of_bits (take 8 acc)) <$>
                a2b_base64 s' quad_pos' 0%nat (drop 8 acc)
            else a2b_base64 s' quad_pos' 0%nat acc
        end
  end.

Definition urlsafe_b64decode (s : bytes) : option bytes :=
  a2b_base64 s 0%nat 0%nat [].

(** Python's [bytes.rstrip] for a single character. *)
Fixpoint lstrip (c : ascii) (s : bytes) : bytes :=
  match s with
  | x :: s' => if Ascii.eqb x c then lstrip c s' else s
  | [] => []
  end.

Definition rstrip (c : ascii) (s : bytes) : bytes := rev (lstrip c (rev s)).

End Base64.

(* ===================================================================== *)
(** ** SHA-1 and HMAC (FIPS 180-4, RFC 2104), on 32-bit words held in [Z]  *)
(* ===================================================================== *)

Module SHA1.

Definition mask32 : Z := 0xFFFFFFFF.

Definition add32 (x y : Z) : Z := Z.land (x + y) mask32.

Definition not32 (x : Z) : Z := Z.lxor x mask32.

Definition rotl (n x : Z) : Z :=
  Z.land (Z.lor (Z.shiftl x n) (Z.shiftr x (32 - n))) mask32.

Definition byte_val (c : ascii) : Z := Z.of_N (N_of_ascii c).

Definition byte_of (x : Z) : ascii := ascii_of_N (Z.to_N (Z.land x 0xFF)).

(** Big-endian words. *)
Definition word_bytes (x : Z) : bytes :=
  [byte_of (Z.shiftr x 24); byte_of (Z.shiftr x 16); byte_of (Z.shiftr x 8); byte_of x].

Fixpoint words_of (n : nat) (s : list Z) : list Z :=
  match n, s with
  | S n', x0 :: x1 :: x2 :: x3 :: s' =>
      Z.lor (Z.shiftl x0 24) (Z.lor (Z.shiftl x1 16) (Z.lor (Z.shiftl x2 8) x3))
      :: words_of n' s'
  | _, _ => []
  end.

(** The message followed by [0x80], zeros up to 56 modulo 64, and its length
    in bits as a 64-bit big-endian number. *)
Definition padding (s : bytes) : list Z :=
  let len := Z.of_nat (length s) in
  let zeros := Z.to_nat ((55 - len) mod 64) in
  let bitlen := 8 * len in
  map byte_val s ++ 0x80 :: repeat 0 zeros ++
  map (fun i => Z.land (Z.shiftr bitlen (8 * i)) 0xFF) [7; 6; 5; 4; 3; 2; 1; 0].

(** The message schedule, newest word first. *)
Fixpoint schedule (n : nat) (w : list Z) : list Z :=
  match n with
  | O => w
  | S n' =>
      let x := Z.lxor (Z.lxor (nth 2 w 0) (nth 7 w 0)) (Z.lxor (nth 13 w 0) (nth 15 w 0)) in
      schedule n' (rotl 1 x :: w)
  end.

Definition state : Type := Z * Z * Z * Z * Z.

Definition round (t : nat) (st : state) (w : Z) : state :=
  let '(a, b0, c, d, e) := st in
  let '(f, k) :=
    if decide (t < 20)%nat then
      (Z.lor (Z.land b0 c) (Z.land (not32 b0) d), 0x5A827999)
    else if decide (t < 40)%nat then
      (Z.lxor (Z.lxor b0 c) d, 0x6ED9EBA1)
    else if decide (t < 60)%nat then
      (Z.lor (Z.lor (Z.land b0 c) (Z.land b0 d)) (Z.land c d), 0x8F1BBCDC)
    else (Z.lxor (Z.lxor b0 c) d, 0xCA62C1D6) in
  (add32 (add32 (add32 (add32 (rotl 5 a) f) e) k) w, a, rotl 30 b0, c, d).

Fixpoint rounds (t : nat) (ws : list Z) (st : state) : state :=
  match ws with
  | [] => st
  | w :: ws' => rounds (S t) ws' (round t st w)
  end.

Definition compress (st : state) (block : list Z) : state :=
  let w := rev (schedule 64 (rev (words_of 16 block))) in
  let '(a, b0, c, d, e) := rounds 0 w st in
  let '(h0, h1, h2, h3, h4) := st in
  (add32 h0 a, add32 h1 b0, add32 h2 c, add32 h3 d, add32 h4 e).

Fixpoint blocks (n : nat) (s : list Z) (st : state) : state :=
  match n with
  | O => st
  | S n' => blocks n' (drop 64 s) (compress st (take 64 s))
  end.

Definition initial : state :=
  (0x67452301, 0xEFCDAB89, 0x98BADCFE, 0x10325476, 0xC3D2E1F0).

Definition sha1 (s : bytes) : bytes :=
  let m := padding s in
  let '(h0, h1, h2, h3, h4) := blocks (length m / 64) m initial in
  word_bytes h0 ++ word_bytes h1 ++ word_bytes h2 ++ word_bytes h3 ++ word_bytes h4.

Definition xor_byte (x y : ascii) : ascii :=
  let '(Ascii x0 x1 x2 x3 x4 x5 x6 x7) := x in
  let '(Ascii y0 y1 y2 y3 y4 y5 y6 y7) := y in
  Ascii (xorb x0 y0) (xorb x1 y1) (xorb x2 y2) (xorb x3 y3)
        (xorb x4 y4) (xorb x5 y5) (xorb x6 y6) (xorb x7 y7).

(** [hmac.new(key, msg, hashlib.sha1).digest()] *)
Definition hmac (key msg : bytes) : bytes :=
  let key1 := if decide (64 < length key)%nat then sha1 key else key in
  let key2 := key1 ++ repeat zero (64 - length key1) in
  sha1 (map (xor_byte "\"%char) key2 ++ sha1 (map (xor_byte "6"%char) key2 ++ msg)).

End SHA1.

(* ===================================================================== *)
(** ** The token codec: [itsdangerous.URLSafeSerializer]                   *)
(* ===================================================================== *)

Inductive result (E A : Type) : Type :=
| Ok (x : A)
| Err (e : E).
Arguments Ok {E A} x.
Arguments Err {E A} e.

(** What [serializer.loads] raises. *)
Inductive bad_data : Type :=
| BadSignature
| BadPayload.

(** The object a token carries.  [serializer.dumps] is only applied to
    [{'member_id': member_id}] with a string identifier; the model keeps the
    dictionaries whose values are strings or [None], in insertion order, and
    lumps every value that is not a dictionary (it has no [.get]) together. *)
Inductive payload : Type :=
| PDict (d : list (string * option string))
| PNotDict.

(** The two standard-library codecs the serializer calls and that are not
    part of the repository: compact [json] and [zlib]. *)
Record payload_codec : Type := {
  json_dumps : payload -> bytes;
  json_loads : bytes -> option payload;
  zlib_compress : bytes -> bytes;
  zlib_decompress : bytes -> option bytes
}.

Module Signer.

Definition sep : ascii := "."%char.
Definition salt : bytes := b "itsdangerous".

(** [itsdangerous.encoding.base64_encode] and [base64_decode] *)
Definition base64_encode (s : bytes) : bytes :=
  Base64.rstrip Base64.pad (Base64.urlsafe_b64encode s).

Definition base64_decode (s : bytes) : option bytes :=
  Base64.urlsafe_b64decode
    (s ++ repeat Base64.pad ((4 - length s mod 4) mod 4)%nat).

(** key derivation [django-concat] *)
Definition derive_key (secret_key : string) : bytes :=
  SHA1.sha1 (salt ++ b "signer" ++ b secret_key).

Definition raw_signature (secret_key : string) (value : bytes) : bytes :=
  SHA1.hmac (derive_key secret_key) value.

Definition get_signature (secret_key : string) (value : bytes) : bytes :=
  base64_encode (raw_signature secret_key value).

Definition verify_signature (secret_key : string) (value sig : bytes) : bool :=
  match base64_decode sig with
  | None => false
  | Some raw => bool_decide (raw = raw_signature secret_key value)
  end.

Definition sign (secret_key : string) (value : bytes) : bytes :=
  value ++ sep :: get_signature secret_key value.

(** [signed_value.rsplit(sep, 1)], [None] when [sep] does not occur. *)
Fixpoint rsplit (c : ascii) (s : bytes) : option (bytes * bytes) :=
  match s with
  | [] => None
  | x :: s' =>
      match rsplit c s' with
      | Some (v, sig) => Some (x :: v, sig)
      | None => if Ascii.eqb x c then Some ([], s') else None
      end
  end.

Definition unsign (secret_key : string) (signed_value : bytes) : result bad_data bytes :=
  match rsplit sep signed_value with
  | None => Err BadSignature
  | Some (value, sig) =>
      if verify_signature secret_key value sig then Ok value else Err BadSignature
  end.

End Signer.

Module URLSafeSerializer.
Section with_codec.
Context (codec : payload_codec).

Definition dump_payload (obj : payload) : bytes :=
  let json := json_dumps codec obj in
  let compressed := zlib_compress codec json in
  if decide (Z.of_nat (length compressed) < Z.of_nat (length json) - 1)
  then Signer.sep :: Signer.base64_encode compressed
  else Signer.base64_encode json.

Definition load_payload (p : bytes) : result bad_data payload :=
  let '(p', decompress) :=
    match p with
    | c :: rest => if Ascii.eqb c Signer.sep then (rest, true) else (p, false)
    | [] => (p, false)
    end in
  match Signer.base64_decode p' with
  | None => Err BadPayload
  | Some json =>
      match (if decompress then zlib_decompress codec json else Some json) with
      | None => Err BadPayload
      | Some json' =>
          match json_loads codec json' with
          | None => Err BadPayload
          | Some obj => Ok obj
          end
      end
  end.

Definition dumps (secret_key : string) (obj : payload) : string :=
  string_of_list_ascii (Signer.sign secret_key (dump_payload obj)).

Definition loads (secret_key : string) (s : string) : result bad_data payload :=
  match Signer.unsign secret_key (b s) with
  | Err e => Err e
  | Ok value => load_payload value
  end.

End with_codec.
End URLSafeSerializer.

(* ===================================================================== *)
(** ** The credential store: [database.py]                                 *)
(* ===================================================================== *)

(** A Python [dict] with string keys, in insertion order. *)
Abbreviation dict V := (list (string * V)).

Fixpoint dict_get {V} (k : string) (d : dict V) : option V :=
  match d with
  | [] => None
  | (k', v) :: d' => if String.eqb k' k then Some v else dict_get k d'
  end.

(** [d[k] = v]: an existing key keeps its place. *)
Fixpoint dict_set {V} (k : string) (v : V) (d : dict V) : dict V :=
  match d with
  | [] => [(k, v)]
  | (k', v') :: d' => if String.eqb k' k then (k, v) :: d' else (k', v') :: dict_set k v d'
  end.

(** Truth value of an optional string: [None] and [''] are false. *)
Definition nonempty (s : option string) : bool :=
  match s with
  | Some s' => negb (String.eqb s' "")
  | None => false
  end.

(** [len] of a [str] counts code points: the octets of its UTF-8 encoding
    that are not continuation octets. *)
Definition py_len (s : string) : nat :=
  length (filter (fun c : ascii => negb (Nat.leb 128 (nat_of_ascii c) && Nat.ltb (nat_of_ascii c) 192))
                 (b s)).

(** A row of table [users]; [member_id], the primary key, is the key of the
    map below, and [name] is declared NOT NULL. *)
Record user_row : Type := {
  name : string;
  date_of_birth : option string;
  address : option string;
  blood_group : option string;
  phone : option string;
  image_path : option string;
  membership_type : option string;
  membership_joining_date : option string;
  membership_renewal_date : option string;
  password : option string;
  created_at : option string;
  updated_at : option string
}.

(** A row of table [login_logs]. *)
Record login_log : Type := {
  log_member_id : option string;
  login_time : string;
  success : bool
}.

Record database : Type := {
  users : gmap string user_row;
  login_logs : list login_log;
  CURRENT_TIMESTAMP : string
}.

(** Values kept in the session cookie. *)
Inductive sval : Type :=
| VNone
| VBool (x : bool)
| VStr (s : string)
| VFlashes (l : list (string * string)).

#[export] Instance sval_eq_dec : EqDecision sval.
Proof. solve_decision. Defined.

(** The methods of [UserDB] that the handlers call, as recorded in the
    history of a run. *)
Inductive db_call : Type :=
| call_get_user_by_id (member_id : option string)
| call_verify_password (member_id : option string) (password : string)
| call_log_login_attempt (member_id : option string) (success : bool)
| call_change_user_password (member_id : option string) (new_password : string)
| call_change_own_password (member_id : option string) (current_password new_password : string)
| call_bulk_update_users (updates_data : dict (dict (option string)))
| call_convert_google_drive_url (url : option string).

(** The state a request runs against: the tables, the client's session, and
    the history of calls into the store. *)
Record world : Type := {
  db : database;
  session : gmap string sval;
  calls : list db_call
}.

Definition M (A : Type) : Type := world -> A * world.

Definition ret {A} (x : A) : M A := fun w => (x, w).
Definition bind {A B} (m : M A) (f : A -> M B) : M B :=
  fun w => let '(x, w') := m w in f x w'.

Declare Scope M_scope.
Delimit Scope M_scope with M.
Bind Scope M_scope with M.
Notation "x ← y ; z" := (bind y (fun x => z))
  (at level 20, y at level 100, z at level 200, only parsing) : M_scope.
Notation "x ;; z" := (bind x (fun _ => z))
  (at level 100, z at level 200, only parsing, right associativity) : M_scope.
Local Open Scope M_scope.

Definition get_db : M database := fun w => (db w, w).
Definition put_db (d : database) : M unit :=
  fun w => (tt, {| db := d; session := session w; calls := calls w |}).
Definition called (c : db_call) : M unit :=
  fun w => (tt, {| db := db w; session := session w; calls := calls w ++ [c] |}).

Definition set_password (p u : option string) (r : user_row) : user_row :=
  {| name := name r; date_of_birth := date_of_birth r; address := address r;
     blood_group := blood_group r; phone := phone r; image_path := image_path r;
     membership_type := membership_type r;
     membership_joining_date := membership_joining_date r;
     membership_renewal_date := membership_renewal_date r;
     password := p; created_at := created_at r; updated_at := u |}.

(** [SET field = ?] for the columns [bulk_update_users] lets through, and
    [updated_at].  [None] for [name] stands for the NOT NULL violation.  The
    three columns declared [DATE] have numeric affinity: a text that reads
    as a number is stored as that number, and [numeric_affinity s] is the
    text of the value that is stored. *)
Definition set_column (numeric_affinity : string -> string) (field : string)
    (v : option string) (r : user_row) : option user_row :=
  let upd nm dob adr bg ph img mt mj mr ua :=
    {| name := nm; date_of_birth := dob; address := adr; blood_group := bg; phone := ph;
       image_path := img; membership_type := mt; membership_joining_date := mj;
       membership_renewal_date := mr; password := password r;
       created_at := created_at r; updated_at := ua |} in
  let keep f := f (name r) (date_of_birth r) (address r) (blood_group r) (phone r)
                  (image_path r) (membership_type r) (membership_joining_date r)
                  (membership_renewal_date r) (updated_at r) in
  if String.eqb field "name" then
    match v with
    | Some nm => Some (keep (fun _ dob adr bg ph img mt mj mr ua => upd nm dob adr bg ph img mt mj mr ua))
    | None => None
    end
  else if String.eqb field "date_of_birth" then
    Some (keep (fun nm _ adr bg ph img mt mj mr ua =>
                  upd nm (numeric_affinity <$> v) adr bg ph img mt mj mr ua))
  else if String.eqb field "address" then
    Some (keep (fun nm dob _ bg ph img mt mj mr ua => upd nm dob v bg ph img mt mj mr ua))
  else if String.eqb field "blood_group" then
    Some (keep (fun nm dob adr _ ph img mt mj mr ua => upd nm dob adr v ph img mt mj mr ua))
  else if String.eqb field "phone" then
    Some (keep (fun nm dob adr bg _ img mt mj mr ua => upd nm dob adr bg v img mt mj mr ua))
  else if String.eqb field "image_path" then
    Some (keep (fun nm dob adr bg ph _ mt mj mr ua => upd nm dob adr bg ph v mt mj mr ua))
  else if String.eqb field "membership_type" then
    Some (keep (fun nm dob adr bg ph img _ mj mr ua => upd nm dob adr bg ph img v mj mr ua))
  else if String.eqb field "membership_joining_date" then
    Some (keep (fun nm dob adr bg ph img mt _ mr ua =>
                  upd nm dob adr bg ph img mt (numeric_affinity <$> v) mr ua))
  else if String.eqb field "membership_renewal_date" then
    Some (keep (fun nm dob adr bg ph img mt mj _ ua =>
                  upd nm dob adr bg ph img mt mj (numeric_affinity <$> v) ua))
  else if String.eqb field "updated_at" then
    Some (keep (fun nm dob adr bg ph img mt mj mr _ => upd nm dob adr bg ph img mt mj mr v))
  else Some r.

(** The assignments of one UPDATE statement, applied left to right (SQLite
    keeps the rightmost assignment to a column). *)
Fixpoint apply_set_clause (numeric_affinity : string -> string)
    (sets : list (string * option string)) (r : user_row) : option user_row :=
  match sets with
  | [] => Some r
  | (field, v) :: sets' =>
      match set_column numeric_affinity field v r with
      | Some r' => apply_set_clause numeric_affinity sets' r'
      | None => None
      end
  end.

(** [dict(user)] for the columns [get_user_by_id] selects. *)
Definition user_dict (member_id : string) (r : user_row) : dict (option string) :=
  [("member_id", Some member_id); ("name", Some (name r));
   ("date_of_birth", date_of_birth r); ("address", address r);
   ("blood_group", blood_group r); ("phone", phone r); ("image_path", image_path r);
   ("membership_type", membership_type r);
   ("membership_joining_date", membership_joining_date r);
   ("membership_renewal_date", membership_renewal_date r);
   ("created_at", created_at r)]%string.

(** [WHERE member_id = ?]: a NULL parameter matches no row. *)
Definition find_user (d : database) (member_id : option string) : option user_row :=
  match member_id with
  | Some m => users d !! m
  | None => None
  end.

Module UserDB.

Definition get_user_by_id (member_id : option string) : M (option (dict (option string))) :=
  called (call_get_user_by_id member_id);;
  d ← get_db;
  ret (match member_id with
        | Some m => user_dict m <$> users d !! m
        | None => None
        end).

(** [None]: the INSERT raises [sqlite3.IntegrityError], because foreign keys
    are enforced and [member_id] is neither NULL nor the key of a user. *)
Definition log_login_attempt (member_id : option string) (ok : bool) : M (option unit) :=
  called (call_log_login_attempt member_id ok);;
  d ← get_db;
  if bool_decide (member_id = None ∨ is_Some (find_user d member_id)) then
    put_db {| users := users d;
              login_logs := login_logs d ++
                [{| log_member_id := member_id; login_time := CURRENT_TIMESTAMP d;
                    success := ok |}];
              CURRENT_TIMESTAMP := CURRENT_TIMESTAMP d |};;
    ret (Some tt)
  else ret None.

Definition verify_password (member_id : option string) (pw : string) : M bool :=
  called (call_verify_password member_id pw);;
  d ← get_db;
  match find_user d member_id with
  | Some r =>
      if bool_decide (password r = Some pw) then
        logged ← log_login_attempt member_id true;
        ret (match logged with Some _ => true | None => false end)
      else
        log_login_attempt member_id false;; ret false
  | None =>
      log_login_attempt member_id false;; ret false
  end.

Definition change_user_password (member_id : option string) (new_password : string)
  : M (bool * string) :=
  called (call_change_user_password member_id new_password);;
  d ← get_db;
  match member_id, find_user d member_id with
  | Some m, Some r =>
      put_db {| users := <[m := set_password (Some new_password)
                                   (Some (CURRENT_TIMESTAMP d)) r]> (users d);
                login_logs := login_logs d;
                CURRENT_TIMESTAMP := CURRENT_TIMESTAMP d |};;
      ret (true, "Password changed successfully!"%string)
  | _, _ => ret (false, "User not found!"%string)
  end.

Definition change_own_password (member_id : option string)
    (current_password new_password : string) : M (bool * string) :=
  called (call_change_own_password member_id current_password new_password);;
  verified ← verify_password member_id current_password;
  if verified then change_user_password member_id new_password
  else ret (false, "Current password is incorrect!"%string).

(** [s.split(sep)[0]] and [s.split(sep)[1]], the latter for a string that
    contains [sep]. *)
Definition split_0 (sep s : string) : string :=
  match String.index 0 sep s with
  | Some i => String.substring 0 i s
  | None => s
  end.

Definition split_1 (sep s : string) : string :=
  match String.index 0 sep s with
  | Some i =>
      let n := (i + String.length sep)%nat in
      split_0 sep (String.substring n (String.length s - n) s)
  | None => ""%string
  end.

Definition contains (sep s : string) : bool :=
  match String.index 0 sep s with Some _ => true | None => false end.

Definition convert_google_drive_url (url : option string) : M (option string) :=
  called (call_convert_google_drive_url url);;
  ret (match url with
       | None => None
       | Some u =>
           if String.eqb u "" then None
           else
             let file_id :=
               if contains "/file/d/" u then Some (split_0 "/" (split_1 "/file/d/" u))
               else if contains "id=" u then Some (split_0 "&" (split_1 "id=" u))
               else if contains "/open?id=" u then Some (split_0 "&" (split_1 "/open?id=" u))
               else None in
             match file_id with
             | Some f =>
                 if String.eqb f "" then Some u
                 else Some ("https://drive.google.com/thumbnail?id=" +:+ f +:+ "&sz=w400")%string
             | None => Some u
             end
       end).

Section bulk.
(** [datetime.strptime(d, '%Y-%m-%d')], one year added, printed back;
    [None] when that raises; and the numeric affinity of the [DATE]
    columns. *)
Context (one_year_later : string -> option string) (numeric_affinity : string -> string).

Definition updatable : list string :=
  ["name"; "date_of_birth"; "address"; "blood_group"; "phone"; "image_path";
   "membership_type"; "membership_joining_date"; "membership_renewal_date"]%string.

(** The assignments [bulk_update_users] builds for one record. *)
Definition set_clause (d : database) (member_id : string)
    (update_data : dict (option string)) : list (string * option string) :=
  filter (fun fv => bool_decide (fv.1 ∈ updatable)) update_data ++
  match dict_get "membership_type" update_data with
  | Some mt =>
      if bool_decide (mt = Some "lifetime"%string) then
        [("membership_renewal_date", Some "2099-12-31")]%string
      else
        match users d !! member_id ≫= membership_joining_date with
        | Some joining_date =>
            if String.eqb joining_date "" then []
            else match one_year_later joining_date with
                 | Some renewal => [("membership_renewal_date"%string, Some renewal)]
                 | None => []
                 end
        | None => []
        end
  | None => []
  end ++
  [("updated_at"%string, Some (CURRENT_TIMESTAMP d))].

(** The body of the loop: the UPDATE and what it adds to [success_count]
    and [errors]. *)
Definition update_one (member_id : string) (update_data : dict (option string))
    (acc : database * nat * list string) : database * nat * list string :=
  let '(d, success_count, errors) := acc in
  match users d !! member_id with
  | None => (d, success_count, errors)
  | Some r =>
      match apply_set_clause numeric_affinity (set_clause d member_id update_data) r with
      | Some r' =>
          ({| users := <[member_id := r']> (users d); login_logs := login_logs d;
              CURRENT_TIMESTAMP := CURRENT_TIMESTAMP d |},
           S success_count, errors)
      | None =>
          (d, success_count,
           errors ++ ["Error updating " +:+ member_id +:+
                      ": NOT NULL constraint failed: users.name"]%string)
      end
  end.

Fixpoint update_all (updates_data : dict (dict (option string)))
    (acc : database * nat * list string) : database * nat * list string :=
  match updates_data with
  | [] => acc
  | (member_id, update_data) :: rest =>
      update_all rest (update_one member_id update_data acc)
  end.

(** The second definition of [bulk_update_users] in the class, which is
    the one Python keeps. *)
Definition bulk_update_users (updates_data : dict (dict (option string)))
  : M (nat * list string) :=
  called (call_bulk_update_users updates_data);;
  d ← get_db;
  let '(d', success_count, errors) := update_all updates_data (d, 0%nat, []) in
  put_db d';;
  ret (success_count, errors).

End bulk.

(** *** The other methods of [UserDB]

    The history of calls above records the methods the logins go through;
    the methods below leave it alone. *)

Section records.
(** [datetime] as for the bulk update, and what becomes of a text bound to
    one of the columns declared [DATE]: SQLite gives them numeric affinity
    and stores a text that reads as a number as that number;
    [numeric_affinity s] is the text of the value that is stored. *)
Context (one_year_later : string -> option string) (numeric_affinity : string -> string).

(** [user_data.get(k, dflt)]: a key that is present with the value [None]
    gives [None]. *)
Definition get_or (k dflt : string) (user_data : dict (option string)) : option string :=
  match dict_get k user_data with
  | Some v => v
  | None => Some dflt
  end.

(** The renewal date [add_user] and [update_user] work out ahead of their
    statement; [otherwise] is what is left when there is no joining date a
    year can be added to. *)
Definition renewal_date (otherwise : option string) (user_data : dict (option string))
  : option string :=
  if bool_decide (dict_get "membership_type" user_data = Some (Some "lifetime"%string)) then
    Some "2099-12-31"%string
  else
    let joining_date := mjoin (dict_get "membership_joining_date" user_data) in
    if nonempty joining_date then
      match one_year_later (default ""%string joining_date) with
      | Some renewal => Some renewal
      | None => otherwise
      end
    else otherwise.

(** The row the INSERT of [add_user] stores under a name that is not NULL;
    the two timestamps take their default. *)
Definition inserted_row (d : database) (nm : string) (user_data : dict (option string))
  : user_row :=
  {| name := nm;
     date_of_birth := numeric_affinity <$> get_or "date_of_birth" "" user_data;
     address := get_or "address" "" user_data;
     blood_group := get_or "blood_group" "" user_data;
     phone := get_or "phone" "" user_data;
     image_path := get_or "image_path" "" user_data;
     membership_type := get_or "membership_type" "annually" user_data;
     membership_joining_date :=
       numeric_affinity <$> get_or "membership_joining_date" "" user_data;
     membership_renewal_date :=
       numeric_affinity <$> renewal_date (Some ""%string) user_data;
     password := get_or "password" "123456" user_data;
     created_at := Some (CURRENT_TIMESTAMP d);
     updated_at := Some (CURRENT_TIMESTAMP d) |}.

(** A missing key raises [KeyError] before the statement runs; a NULL name
    and a [member_id] that is taken both raise [sqlite3.IntegrityError].
    The result is [None] when the statement stores a row whose [member_id]
    is NULL: SQLite accepts that for a primary key that is not an integer
    and [add_user] reports success, but the table of the model, keyed by
    [member_id], has no place for the row, so that [None] marks a run the
    model does not follow any further. *)
Definition add_user (user_data : dict (option string)) : M (option (bool * string)) :=
  d ← get_db;
  match dict_get "member_id" user_data, dict_get "name" user_data with
  | None, _ => ret (Some (false, "Error adding user: 'member_id'"%string))
  | Some _, None => ret (Some (false, "Error adding user: 'name'"%string))
  | Some _, Some None => ret (Some (false, "Member ID already exists!"%string))
  | Some None, Some (Some _) => ret None
  | Some (Some member_id), Some (Some nm) =>
      match users d !! member_id with
      | Some _ => ret (Some (false, "Member ID already exists!"%string))
      | None =>
          put_db {| users := <[member_id := inserted_row d nm user_data]> (users d);
                    login_logs := login_logs d;
                    CURRENT_TIMESTAMP := CURRENT_TIMESTAMP d |};;
          ret (Some (true, "User added successfully!"%string))
      end
  end.

(** The row the UPDATE of [update_user] leaves in the place of [r]. *)
Definition rewritten_row (d : database) (nm : string) (user_data : dict (option string))
    (r : user_row) : user_row :=
  {| name := nm;
     date_of_birth := numeric_affinity <$> get_or "date_of_birth" "" user_data;
     address := get_or "address" "" user_data;
     blood_group := get_or "blood_group" "" user_data;
     phone := get_or "phone" "" user_data;
     image_path := get_or "image_path" "" user_data;
     membership_type := get_or "membership_type" "annually" user_data;
     membership_joining_date :=
       numeric_affinity <$> get_or "membership_joining_date" "" user_data;
     membership_renewal_date :=
       numeric_affinity <$>
         renewal_date (get_or "membership_renewal_date" "" user_data) user_data;
     password := password r;
     created_at := created_at r;
     updated_at := Some (CURRENT_TIMESTAMP d) |}.

(** The constraint on [name] is only checked on a row that the WHERE
    clause selects. *)
Definition update_user (member_id : option string) (user_data : dict (option string))
  : M (bool * string) :=
  d ← get_db;
  match dict_get "name" user_data with
  | None => ret (false, "Error updating user: 'name'"%string)
  | Some nm =>
      match member_id, find_user d member_id with
      | Some m, Some r =>
          match nm with
          | None =>
              ret (false, "Error updating user: NOT NULL constraint failed: users.name"%string)
          | Some nm =>
              put_db {| users := <[m := rewritten_row d nm user_data r]> (users d);
                        login_logs := login_logs d;
                        CURRENT_TIMESTAMP := CURRENT_TIMESTAMP d |};;
              ret (true, "User updated successfully!"%string)
          end
      | _, _ => ret (false, "User not found!"%string)
      end
  end.

End records.

(** The member's rows of [login_logs] go first, then the member; the answer
    is read off the second DELETE. *)
Definition delete_user (member_id : option string) : M (bool * string) :=
  d ← get_db;
  match member_id with
  | Some m =>
      let logs := filter (fun l => log_member_id l <> Some m) (login_logs d) in
      match users d !! m with
      | Some _ =>
          put_db {| users := delete m (users d); login_logs := logs;
                    CURRENT_TIMESTAMP := CURRENT_TIMESTAMP d |};;
          ret (true, "User deleted successfully!"%string)
      | None =>
          put_db {| users := users d; login_logs := logs;
                    CURRENT_TIMESTAMP := CURRENT_TIMESTAMP d |};;
          ret (false, "User not found!"%string)
      end
  | None => ret (false, "User not found!"%string)
  end.

(** [UPDATE users SET password = ?], with no WHERE clause. *)
Definition reset_all_passwords (new_password : string) : M bool :=
  d ← get_db;
  put_db {| users := (fun r => set_password (Some new_password) (updated_at r) r) <$> users d;
            login_logs := login_logs d;
            CURRENT_TIMESTAMP := CURRENT_TIMESTAMP d |};;
  ret true.

(** The loop calls [self.get_image_from_url] and [self.update_user_image],
    and [UserDB] has neither method: its first turn raises [AttributeError],
    which is the result [None]. *)
Definition reload_all_images : M (option nat) :=
  d ← get_db;
  let users_with_images :=
    filter (fun mr => nonempty (image_path mr.2) = true) (map_to_list (users d)) in
  ret (match users_with_images with
       | [] => Some 0%nat
       | _ :: _ => None
       end).

Section admins.
(** Table [admin_users], the passwords by user name.  Once [init_database]
    has put the row of [admin] in, nothing writes to it. *)
Context (admin_users : gmap string string).

(** [result and result[0] == password]: [None] when no row is found. *)
Definition verify_admin (username password : option string) : option bool :=
  match username with
  | Some u => (fun p => bool_decide (Some p = password)) <$> admin_users !! u
  | None => None
  end.

End admins.

(** SQLite's [LIKE] as [patternCompare] computes it when no escape character
    is given: [%] stands for any run of characters, [_] for one character,
    letters of ASCII match whatever their case, and both texts end at their
    first NUL. *)
Fixpoint c_string (s : bytes) : bytes :=
  match s with
  | [] => []
  | c :: s' => if Ascii.eqb c "000" then [] else c :: c_string s'
  end.

Fixpoint skip_continuation (s : bytes) : bytes :=
  match s with
  | c :: s' =>
      if Nat.leb 128 (nat_of_ascii c) && Nat.ltb (nat_of_ascii c) 192
      then skip_continuation s' else s
  | [] => []
  end.

(** [sqlite3Utf8Read]: the text after its first character. *)
Definition utf8_next (s : bytes) : bytes :=
  match s with
  | c :: s' => if Nat.leb 192 (nat_of_ascii c) then skip_continuation s' else s'
  | [] => []
  end.

Definition tolower (c : ascii) : ascii :=
  let n := nat_of_ascii c in
  if Nat.leb 65 n && Nat.leb n 90 then ascii_of_nat (n + 32) else c.

(** [k] holds of the text or of what is left of it after some characters. *)
Fixpoint after_some (k : bytes -> bool) (fuel : nat) (s : bytes) : bool :=
  k s ||
  match fuel, s with
  | S fuel', _ :: _ => after_some k fuel' (utf8_next s)
  | _, _ => false
  end.

Fixpoint pattern_compare (p s : bytes) {struct p} : bool :=
  match p with
  | [] => match s with [] => true | _ :: _ => false end
  | c :: p' =>
      if Ascii.eqb c "%" then after_some (pattern_compare p') (length s) s
      else if Ascii.eqb c "_" then
        match s with
        | _ :: _ => pattern_compare p' (utf8_next s)
        | [] => false
        end
      else
        match s with
        | c2 :: s' => Ascii.eqb (tolower c) (tolower c2) && pattern_compare p' s'
        | [] => false
        end
  end.

Definition like (text pattern : string) : bool :=
  pattern_compare (c_string (b pattern)) (c_string (b text)).

Section queries.
(** [ORDER BY name] over the table: the rows in the order of their names,
    rows of equal names in an order SQLite leaves open. *)
Context (order_by_name : gmap string user_row -> list (string * user_row)).

Definition get_all_users : M (list (dict (option string))) :=
  d ← get_db;
  ret ((fun mr => user_dict mr.1 mr.2) <$> order_by_name (users d)).

(** [None]: SQLite refuses a pattern of more than 50000 octets with
    "LIKE or GLOB pattern too complex" as soon as there is a row to try it
    on.  A NULL [phone] matches nothing. *)
Definition search_users (search_term : string) : M (option (list (dict (option string)))) :=
  d ← get_db;
  let search_pattern := ("%" +:+ search_term +:+ "%")%string in
  let rows := order_by_name (users d) in
  match rows with
  | _ :: _ =>
      if bool_decide (50000 < Z.of_nat (String.length search_pattern)) then ret None
      else
        ret (Some ((fun mr => user_dict mr.1 mr.2) <$>
                     filter (fun mr => like (name mr.2) search_pattern
                                       || like mr.1 search_pattern
                                       || from_option (fun p => like p search_pattern)
                                            false (phone mr.2) = true) rows))
  | [] => ret (Some [])
  end.

End queries.

End UserDB.

(* ===================================================================== *)
(** ** The request handlers: [app.py]                                      *)
(* ===================================================================== *)

(** What the application takes from outside the repository: the process
    environment, the codecs of the serializer, the QR renderer ([qrcode],
    PIL and base64, [None] when it raises) and [datetime]. *)
Record environment : Type := {
  TOKEN_SECRET : option string;
  codec : payload_codec;
  qr_png_base64 : string -> option string;
  one_year_later : string -> option string
}.

Inductive http_method : Type := GET | POST.

Record request : Type := {
  method : http_method;
  form : list (string * string);
  args : list (string * string);
  host_url : string
}.

Inductive endpoint : Type :=
| ep_home
| ep_admin_login
| ep_admin_users
| ep_admin_bulk_edit
| ep_login (member_id : string)
| ep_user_profile (member_id : string).

Inductive template : Type :=
| error_html (error : string)
| login_html (user : dict (option string)) (error : option string)
| user_profile_html (user : dict (option string)) (qr_code : option string)
    (login_url : string) (image_path : option string) (is_admin_view : bool)
| admin_bulk_edit_html (users : list (dict (option string))) (search_term : string).

Inductive response : Type :=
| render_template (t : template) (status : nat)
| redirect (target : endpoint)
| internal_server_error.

(** [redirect(url_for(endpoint, member_id=member_id))]: building the URL
    raises when [member_id] is [None], which ends the request with a 500. *)
Definition redirect_for (ep : string -> endpoint) (member_id : option string) : response :=
  match member_id with
  | Some m => redirect (ep m)
  | None => internal_server_error
  end.

Definition truthy (v : option sval) : bool :=
  match v with
  | Some (VBool x) => x
  | Some (VStr s) => negb (String.eqb s "")
  | Some (VFlashes l) => match l with [] => false | _ => true end
  | Some VNone | None => false
  end.

Definition sval_of (s : option string) : sval :=
  match s with Some s' => VStr s' | None => VNone end.

Definition str_of (v : option sval) : option string :=
  match v with Some (VStr s) => Some s | _ => None end.

Definition with_session (f : gmap string sval -> gmap string sval) : M unit :=
  fun w => (tt, {| db := db w; session := f (session w); calls := calls w |}).

Definition session_get (k : string) : M (option sval) := fun w => (session w !! k, w).
Definition session_set (k : string) (v : sval) : M unit := with_session (insert k v).
Definition session_clear : M unit := with_session (fun _ => ∅).

(** [flask.flash]: the messages queue up under ['_flashes'] in the session. *)
Definition flash (message category : string) : M unit :=
  with_session (fun s =>
    let flashes := match s !! "_flashes"%string with
                   | Some (VFlashes l) => l
                   | _ => []
                   end in
    <["_flashes"%string := VFlashes (flashes ++ [(category, message)])]> s).

Fixpoint flash_all (messages : list string) (category : string) : M unit :=
  match messages with
  | [] => ret tt
  | m :: rest => flash m category;; flash_all rest category
  end.

Definition form_get (k : string) (req : request) : option string := dict_get k (form req).
Definition form_getlist (k : string) (req : request) : list string :=
  (filter (fun kv => bool_decide (kv.1 = k)) (form req)).*2.

(** The endpoints and pages of user management that the handlers of logins
    and profiles have no use for. *)
Inductive management_endpoint : Type :=
| ep_admin_dashboard
| ep_admin_reset_passwords.

(** An entry of the page of QR codes. *)
Record qr_code_entry : Type := {
  qr_member_id : option string;
  qr_name : option string;
  qr_code : string;
  qr_login_url : option string
}.

Inductive management_template : Type :=
| admin_login_html (error : option string)
| admin_users_html (users : list (dict (option string))) (search_term : string)
| admin_add_user_html
| admin_edit_user_html (user : dict (option string))
| admin_reset_passwords_html (users : list (dict (option string)))
| generate_qr_html (qr_codes : list qr_code_entry) (error : option string)
    (search_term blood_filter membership_filter : string).

Inductive management_response : Type :=
| plain (r : response)
| page (t : management_template)
| go (target : management_endpoint).

(** [session.pop(k, None)] *)
Definition session_pop (k : string) : M unit := with_session (delete k).

Module App.
Section with_environment.
Context (env : environment).

Definition SECRET_TOKEN_KEY : string :=
  default "super-secret-key-change-this"%string (TOKEN_SECRET env).

Definition serializer_dumps : payload -> string :=
  URLSafeSerializer.dumps (codec env) SECRET_TOKEN_KEY.
Definition serializer_loads : string -> result bad_data payload :=
  URLSafeSerializer.loads (codec env) SECRET_TOKEN_KEY.

Definition generate_qr_code (member_id base_url : string) : option string * option string :=
  if String.eqb member_id "" then (None, None)
  else
    let token := serializer_dumps (PDict [("member_id"%string, Some member_id)]) in
    let login_url := (base_url +:+ "secure-login/" +:+ token)%string in
    match qr_png_base64 env login_url with
    | Some qr_base64 => (Some qr_base64, Some login_url)
    | None => (None, None)
    end.

(** [@app.before_request]: runs ahead of every view function. *)
Definition make_session_permanent : M unit := session_set "_permanent" (VBool true).

(** A request as Flask serves it: the hook, then the view function. *)
Definition serve (view : M response) : M response := make_session_permanent;; view.

Definition admin_required (f : M response) : M response :=
  is_admin ← session_get "is_admin";
  if truthy is_admin then f else ret (redirect ep_admin_login).

Definition login (member_id : option string) (req : request) : M response :=
  user ← UserDB.get_user_by_id member_id;
  match user with
  | None =>
      ret (render_template (error_html "User not found! Please check your QR code.") 404)
  | Some user =>
      session_clear;;
      match method req with
      | POST =>
          let password := default ""%string (form_get "password" req) in
          if String.eqb password "" then
            ret (render_template (login_html user (Some "❌ Password is required!"%string)) 200)
          else
            password_valid ← UserDB.verify_password member_id password;
            if password_valid then
              session_set "member_id" (sval_of member_id);;
              session_set "logged_in" (VBool true);;
              session_set "_permanent" (VBool true);;
              ret (redirect_for ep_user_profile member_id)
            else
              ret (render_template
                     (login_html user (Some "❌ Invalid password! Please try again."%string)) 200)
      | GET => ret (render_template (login_html user None) 200)
      end
  end.

Definition secure_login (token : string) (req : request) : M response :=
  match serializer_loads token with
  | Ok (PDict data) => login (mjoin (dict_get "member_id" data)) req
  | Ok PNotDict | Err _ =>
      ret (render_template (error_html "Invalid or expired QR code!") 403)
  end.

(** The tail shared by [user_profile] and [admin_view_profile]. *)
Definition show_profile (member_id : string) (user : dict (option string))
    (req : request) (is_admin_view : bool) : M response :=
  let image_path := mjoin (dict_get "image_path" user) in
  image_path ← (if nonempty image_path then UserDB.convert_google_drive_url image_path
                else ret None);
  let base_url := host_url req in
  let '(qr_code_data, login_url) := generate_qr_code member_id base_url in
  ret (render_template
         (user_profile_html user qr_code_data
            (if nonempty login_url then default ""%string login_url
             else (base_url +:+ "login/" +:+ member_id)%string)
            image_path is_admin_view) 200).

Definition user_profile (member_id : string) (req : request) : M response :=
  logged_in ← session_get "logged_in";
  sid ← session_get "member_id";
  if negb (truthy logged_in) || negb (bool_decide (sid = Some (VStr member_id))) then
    ret (redirect (ep_login member_id))
  else
    user ← UserDB.get_user_by_id (Some member_id);
    match user with
    | None => ret (render_template (error_html "User not found!") 404)
    | Some user => show_profile member_id user req false
    end.

Definition admin_view_profile (member_id : string) (req : request) : M response :=
  admin_required (
    user ← UserDB.get_user_by_id (Some member_id);
    match user with
    | None => flash "❌ User not found!" "error";; ret (redirect ep_admin_users)
    | Some user => show_profile member_id user req true
    end).

Definition change_own_password (req : request) : M response :=
  logged_in ← session_get "logged_in";
  if negb (truthy logged_in) then
    flash "❌ Please login first!" "error";; ret (redirect ep_home)
  else
    sid ← session_get "member_id";
    let member_id := str_of sid in
    let current_password := form_get "current_password" req in
    let new_password := form_get "new_password" req in
    let confirm_password := form_get "confirm_password" req in
    if negb (nonempty current_password && nonempty new_password && nonempty confirm_password) then
      flash "❌ All fields are required!" "error";;
      ret (redirect_for ep_user_profile member_id)
    else if negb (bool_decide (new_password = confirm_password)) then
      flash "❌ New password and confirmation do not match!" "error";;
      ret (redirect_for ep_user_profile member_id)
    else if decide (py_len (default ""%string new_password) < 6)%nat then
      flash "❌ Password must be at least 6 characters long!" "error";;
      ret (redirect_for ep_user_profile member_id)
    else
      res ← UserDB.change_own_password member_id
              (default ""%string current_password) (default ""%string new_password);
      if res.1 then
        flash "✅ Password changed successfully!" "success";;
        session_clear;;
        flash "🔒 Please login with your new password" "info";;
        ret (redirect_for ep_login member_id)
      else
        flash ("❌ " +:+ res.2) "error";;
        ret (redirect_for ep_user_profile member_id).

(** [db.search_users(search_term) if search_term else db.get_all_users()],
    with the order in which SQLite lists the rows by name; [None] when the
    search raises. *)
Definition listed_users (order_by_name : gmap string user_row -> list (string * user_row))
    (search_term : string) : M (option (list (dict (option string)))) :=
  if String.eqb search_term "" then
    users ← UserDB.get_all_users order_by_name; ret (Some users)
  else UserDB.search_users order_by_name search_term.

(** The update is given the numeric affinity of the [DATE] columns. *)
Definition admin_bulk_edit (numeric_affinity : string -> string)
    (order_by_name : gmap string user_row -> list (string * user_row))
    (req : request) : M response :=
  admin_required (
    match method req with
    | POST =>
        let member_ids := form_getlist "member_ids" req in
        let field := form_get "field" req in
        let value := form_get "value" req in
        match member_ids, nonempty field && nonempty value with
        | _ :: _, true =>
            let updates_data :=
              fold_left (fun d member_id =>
                           dict_set member_id [(default ""%string field, value)] d)
                        member_ids [] in
            res ← UserDB.bulk_update_users (one_year_later env) numeric_affinity updates_data;
            let '(success_count, errors) := res in
            (if decide (0 < success_count)%nat then
               flash ("✅ Successfully updated " +:+ pretty success_count +:+ " users!") "success"
             else ret tt);;
            flash_all ((fun e => "❌ " +:+ e)%string <$> take 5 errors) "error";;
            (if decide (5 < length errors)%nat then
               flash ("❌ ... and " +:+ pretty (length errors - 5)%nat +:+ " more errors") "error"
             else ret tt);;
            ret (redirect ep_admin_bulk_edit)
        | _, _ =>
            flash "❌ Please select users, field, and provide a value!" "error";;
            ret (redirect ep_admin_bulk_edit)
        end
    | GET =>
        let search_term := default ""%string (dict_get "search" (args req)) in
        users ← listed_users order_by_name search_term;
        match users with
        | None => ret internal_server_error
        | Some users => ret (render_template (admin_bulk_edit_html users search_term) 200)
        end
    end).

(** *** The other view functions *)

Definition home : M response := ret (redirect ep_admin_login).

Definition logout : M response :=
  member_id ← session_get "member_id";
  session_clear;;
  ret (redirect_for ep_login (str_of member_id)).

Definition admin_logout : M response :=
  session_pop "is_admin";;
  session_pop "admin_username";;
  flash "✅ Admin logged out successfully!" "success";;
  ret (redirect ep_admin_login).

(** [secrets.token_hex(16)] is the argument [token_hex]. *)
Definition generate_csrf_token (token_hex : string) : M sval :=
  token ← session_get "_csrf_token";
  match token with
  | Some token => ret token
  | None => session_set "_csrf_token" (VStr token_hex);; ret (VStr token_hex)
  end.

Definition verify_csrf_token (token : option string) : M bool :=
  expected ← session_get "_csrf_token";
  ret (bool_decide (sval_of token = default VNone expected)).

(** [admin_required] at the type of the view function it decorates. *)
Definition admin_area {R} (of_response : response -> R) (f : M R) : M R :=
  is_admin ← session_get "is_admin";
  if truthy is_admin then f else ret (of_response (redirect ep_admin_login)).

Definition admin_delete_user (member_id : string) : M response :=
  admin_required (
    res ← UserDB.delete_user (Some member_id);
    (if res.1 then flash ("✅ " +:+ res.2) "success" else flash ("❌ " +:+ res.2) "error");;
    ret (redirect ep_admin_users)).

Definition admin_reload_images : M response :=
  admin_required (
    reloaded_count ← UserDB.reload_all_images;
    match reloaded_count with
    | None => ret internal_server_error
    | Some n =>
        flash ("✅ Reloaded " +:+ pretty n +:+ " user images") "success";;
        ret (redirect ep_admin_users)
    end).

Definition admin_bulk_reset_passwords (req : request) : M management_response :=
  admin_area plain (
    valid ← verify_csrf_token (form_get "csrf_token" req);
    if negb valid then
      flash "❌ Security token invalid!" "error";; ret (go ep_admin_reset_passwords)
    else
      let default_password := default "123456"%string (form_get "default_password" req) in
      if String.eqb default_password "" || Nat.ltb (py_len default_password) 4 then
        flash "❌ Password must be at least 4 characters long!" "error";;
        ret (go ep_admin_reset_passwords)
      else
        success ← UserDB.reset_all_passwords default_password;
        (if success : bool then
           flash ("✅ All passwords reset to: " +:+ default_password) "success"
         else flash "❌ Failed to reset passwords" "error");;
        ret (go ep_admin_reset_passwords)).

Definition admin_reset_single_password (req : request) : M management_response :=
  admin_area plain (
    valid ← verify_csrf_token (form_get "csrf_token" req);
    if negb valid then
      flash "❌ Security token invalid!" "error";; ret (go ep_admin_reset_passwords)
    else
      let member_id := form_get "member_id" req in
      let new_password := form_get "new_password" req in
      if negb (nonempty member_id) || negb (nonempty new_password) then
        flash "❌ Member ID and new password are required!" "error";;
        ret (go ep_admin_reset_passwords)
      else if Nat.ltb (py_len (default ""%string new_password)) 4 then
        flash "❌ Password must be at least 4 characters long!" "error";;
        ret (go ep_admin_reset_passwords)
      else
        res ← UserDB.change_user_password member_id (default ""%string new_password);
        (if res.1 then
           flash ("✅ Password reset for user " +:+ default ""%string member_id) "success"
         else flash ("❌ " +:+ res.2) "error");;
        ret (go ep_admin_reset_passwords)).

Section management.
(** What user management takes from outside in addition: the table of
    administrators, the numeric affinity of the [DATE] columns and the
    order in which SQLite lists the rows by name. *)
Context (admin_users_table : gmap string string)
        (numeric_affinity : string -> string)
        (order_by_name : gmap string user_row -> list (string * user_row)).

Definition admin_login (req : request) : M management_response :=
  is_admin ← session_get "is_admin";
  if truthy is_admin then ret (go ep_admin_dashboard)
  else
    match method req with
    | POST =>
        let username := form_get "username" req in
        let password := form_get "password" req in
        if default false (UserDB.verify_admin admin_users_table username password) then
          session_set "is_admin" (VBool true);;
          session_set "admin_username" (sval_of username);;
          flash "✅ Admin login successful!" "success";;
          ret (go ep_admin_dashboard)
        else ret (page (admin_login_html (Some "❌ Invalid admin credentials!"%string)))
    | GET => ret (page (admin_login_html None))
    end.

Definition generate_qr_codes (req : request) : M management_response :=
  let search_term := default ""%string (dict_get "search" (args req)) in
  let blood_filter := default ""%string (dict_get "blood_group" (args req)) in
  let membership_filter := default ""%string (dict_get "membership_type" (args req)) in
  users ← listed_users order_by_name search_term;
  match users with
  | None => ret (plain internal_server_error)
  | Some users =>
      let passes (k filter_value : string) (user : dict (option string)) : bool :=
        String.eqb filter_value ""
        || bool_decide (mjoin (dict_get k user) = Some filter_value) in
      let filtered_users :=
        filter (fun user => passes "blood_group" blood_filter user
                            && passes "membership_type" membership_filter user = true)
               users in
      match filtered_users with
      | [] =>
          ret (page (generate_qr_html [] (Some "No users found matching your criteria!"%string)
                       search_term blood_filter membership_filter))
      | _ :: _ =>
          let base_url := host_url req in
          let qr_codes :=
            omap (fun user : dict (option string) =>
                    let member_id := mjoin (dict_get "member_id" user) in
                    let '(qr_code_data, login_url) :=
                      generate_qr_code (default ""%string member_id) base_url in
                    if nonempty qr_code_data then
                      Some {| qr_member_id := member_id;
                              qr_name := mjoin (dict_get "name" user);
                              qr_code := default ""%string qr_code_data;
                              qr_login_url := login_url |}
                    else None) filtered_users in
          ret (page (generate_qr_html qr_codes None
                       search_term blood_filter membership_filter))
      end
  end.

Definition admin_users (req : request) : M management_response :=
  admin_area plain (
    let search_term := default ""%string (dict_get "search" (args req)) in
    users ← listed_users order_by_name search_term;
    match users with
    | None => ret (plain internal_server_error)
    | Some users => ret (page (admin_users_html users search_term))
    end).

Definition admin_reset_passwords : M management_response :=
  admin_area plain (
    users ← UserDB.get_all_users order_by_name;
    ret (page (admin_reset_passwords_html users))).

(** [None] when [add_user] stores a row under a NULL [member_id]. *)
Definition admin_add_user (req : request) : M (option management_response) :=
  admin_area (fun r => Some (plain r)) (
    match method req with
    | POST =>
        let user_data :=
          [("member_id", form_get "member_id" req);
           ("name", form_get "name" req);
           ("date_of_birth", form_get "date_of_birth" req);
           ("address", form_get "address" req);
           ("blood_group", form_get "blood_group" req);
           ("phone", form_get "phone" req);
           ("image_path", form_get "image_path" req);
           ("membership_type", form_get "membership_type" req);
           ("membership_joining_date", form_get "membership_joining_date" req);
           ("password", Some (default "123456" (form_get "password" req)))]%string in
        res ← UserDB.add_user (one_year_later env) numeric_affinity user_data;
        match res with
        | None => ret None
        | Some (true, message) =>
            flash ("✅ " +:+ message) "success";;
            ret (Some (plain (redirect ep_admin_users)))
        | Some (false, message) =>
            flash ("❌ " +:+ message) "error";;
            ret (Some (page admin_add_user_html))
        end
    | GET => ret (Some (page admin_add_user_html))
    end).

Definition admin_edit_user (member_id : string) (req : request) : M management_response :=
  admin_area plain (
    user ← UserDB.get_user_by_id (Some member_id);
    match user with
    | None =>
        flash "❌ User not found!" "error";; ret (plain (redirect ep_admin_users))
    | Some user =>
        match method req with
        | POST =>
            let user_data :=
              [("name", form_get "name" req);
               ("date_of_birth", form_get "date_of_birth" req);
               ("address", form_get "address" req);
               ("blood_group", form_get "blood_group" req);
               ("phone", form_get "phone" req);
               ("image_path", form_get "image_path" req);
               ("membership_type", form_get "membership_type" req);
               ("membership_joining_date", form_get "membership_joining_date" req)]%string in
            res ← UserDB.update_user (one_year_later env) numeric_affinity
                    (Some member_id) user_data;
            if res.1 then
              flash ("✅ " +:+ res.2) "success";;
              ret (plain (redirect ep_admin_users))
            else
              flash ("❌ " +:+ res.2) "error";;
              ret (page (admin_edit_user_html user))
        | GET => ret (page (admin_edit_user_html user))
        end
    end).

End management.

End with_environment.
End App.

(* ===================================================================== *)
(** ** A reference environment, to run the handlers on concrete requests   *)
(* ===================================================================== *)

(** The order of [ORDER BY name]: the collation BINARY compares the texts
    octet by octet. *)
Definition by_name (x y : string * user_row) : Prop :=
  String.leb (name x.2) (name y.2) = true.

#[export] Instance by_name_dec x y : Decision (by_name x y).
Proof. unfold by_name. apply _. Defined.

Module Reference.

Definition dq : ascii := "034"%char.
Definition backslash : ascii := "092"%char.

Definition hex_digit (n : nat) : ascii := nth n (b "0123456789abcdef") "0"%char.

Definition hex_value (c : ascii) : option nat :=
  Base64.find_index c (b "0123456789abcdef").

(** [json.dumps(..., separators=(',', ':'), ensure_ascii=False)] on
    strings: quotes, backslashes and control characters are escaped. *)
Definition escape (c : ascii) : bytes :=
  let n := nat_of_ascii c in
  if Ascii.eqb c dq then [backslash; dq]
  else if Ascii.eqb c backslash then [backslash; backslash]
  else if Nat.eqb n 8 then [backslash; "b"%char]
  else if Nat.eqb n 9 then [backslash; "t"%char]
  else if Nat.eqb n 10 then [backslash; "n"%char]
  else if Nat.eqb n 12 then [backslash; "f"%char]
  else if Nat.eqb n 13 then [backslash; "r"%char]
  else if Nat.ltb n 32 then
    [backslash; "u"%char; "0"%char; "0"%char; hex_digit (n / 16); hex_digit (n mod 16)]
  else [c].

Definition json_string (s : string) : bytes := dq :: flat_map escape (b s) ++ [dq].

Definition json_value (v : option string) : bytes :=
  match v with Some s => json_string s | None => b "null" end.

Fixpoint json_members (d : dict (option string)) : bytes :=
  match d with
  | [] => []
  | [(k, v)] => json_string k ++ ":"%char :: json_value v
  | (k, v) :: d' => json_string k ++ ":"%char :: json_value v ++ ","%char :: json_members d'
  end.

Definition json_dumps (p : payload) : bytes :=
  match p with
  | PDict d => "{"%char :: json_members d ++ ["}"%char]
  | PNotDict => b "null"
  end.

(** The text of a string literal after its opening quote, and the rest. *)
Fixpoint parse_string (s : bytes) : option (bytes * bytes) :=
  match s with
  | [] => None
  | c :: s1 =>
      if Ascii.eqb c dq then Some ([], s1)
      else if Ascii.eqb c backslash then
        match s1 with
        | e :: s2 =>
            let simple x := (fun r => (x :: r.1, r.2)) <$> parse_string s2 in
            if Ascii.eqb e "u" then
              match s2 with
              | h1 :: h2 :: h3 :: h4 :: s3 =>
                  match hex_value h1, hex_value h2, hex_value h3, hex_value h4 with
                  | Some 0%nat, Some 0%nat, Some x, Some y =>
                      if Nat.ltb (16 * x + y) 128 then
                        (fun r => (ascii_of_nat (16 * x + y) :: r.1, r.2)) <$> parse_string s3
                      else None
                  | _, _, _, _ => None
                  end
              | _ => None
              end
            else if Ascii.eqb e "b" then simple (ascii_of_nat 8)
            else if Ascii.eqb e "t" then simple (ascii_of_nat 9)
            else if Ascii.eqb e "n" then simple (ascii_of_nat 10)
            else if Ascii.eqb e "f" then simple (ascii_of_nat 12)
            else if Ascii.eqb e "r" then simple (ascii_of_nat 13)
            else if Ascii.eqb e dq || Ascii.eqb e backslash || Ascii.eqb e "/" then simple e
            else None
        | [] => None
        end
      else (fun r => (c :: r.1, r.2)) <$> parse_string s1
  end.

Definition parse_value (s : bytes) : option (option string * bytes) :=
  match s with
  | "n"%char :: "u"%char :: "l"%char :: "l"%char :: s1 => Some (None, s1)
  | c :: s1 =>
      if Ascii.eqb c dq then
        (fun r => (Some (string_of_list_ascii r.1), r.2)) <$> parse_string s1
      else None
  | [] => None
  end.

(** The members of an object, from a key to the closing brace; a key that
    comes again replaces the earlier value. *)
Fixpoint parse_members (fuel : nat) (s : bytes) (d : dict (option string))
  : option (dict (option string) * bytes) :=
  match fuel, s with
  | S fuel', c :: s1 =>
      if Ascii.eqb c dq then
        match parse_string s1 with
        | Some (k, ":"%char :: s2) =>
            match parse_value s2 with
            | Some (v, c' :: s3) =>
                let d' := dict_set (string_of_list_ascii k) v d in
                if Ascii.eqb c' "," then parse_members fuel' s3 d'
                else if Ascii.eqb c' "}" then Some (d', s3)
                else None
            | _ => None
            end
        | _ => None
        end
      else None
  | _, _ => None
  end.

Definition json_loads (s : bytes) : option payload :=
  match s with
  | ["{"%char; "}"%char] => Some (PDict [])
  | "{"%char :: s1 =>
      match parse_members (length s1) s1 [] with
      | Some (d, []) => Some (PDict d)
      | _ => None
      end
  | ["n"%char; "u"%char; "l"%char; "l"%char] => Some PNotDict
  | _ => None
  end.

(** A zlib stream made of stored blocks: what [zlib.compress] gives at
    level 0, and a stream [zlib.decompress] reads. *)
Definition adler32 (s : bytes) : bytes :=
  let '(x, y) :=
    fold_left (fun xy c => let x' := (xy.1 + SHA1.byte_val c) mod 65521 in
                           (x', (xy.2 + x') mod 65521)) s (1, 0) in
  SHA1.word_bytes (Z.lor (Z.shiftl y 16) x).

Definition block_limit : nat := Z.to_nat 65535.

Fixpoint stored_blocks (fuel : nat) (s : bytes) : bytes :=
  match fuel with
  | O => []
  | S fuel' =>
      let chunk := take block_limit s in
      let rest := drop block_limit s in
      let n := Z.of_nat (length chunk) in
      let final := match rest with [] => true | _ => false end in
      SHA1.byte_of (if final then 1 else 0) ::
      SHA1.byte_of n :: SHA1.byte_of (Z.shiftr n 8) ::
      SHA1.byte_of (Z.lxor n 0xFFFF) :: SHA1.byte_of (Z.shiftr (Z.lxor n 0xFFFF) 8) ::
      chunk ++ (if final then [] else stored_blocks fuel' rest)
  end.

Definition zlib_compress (s : bytes) : bytes :=
  SHA1.byte_of 0x78 :: SHA1.byte_of 0x01 :: stored_blocks (S (length s)) s ++ adler32 s.

Fixpoint read_blocks (fuel : nat) (s : bytes) : option (bytes * bytes) :=
  match fuel, s with
  | S fuel', h :: l0 :: l1 :: n0 :: n1 :: s1 =>
      let n := SHA1.byte_val l0 + 256 * SHA1.byte_val l1 in
      let m := SHA1.byte_val n0 + 256 * SHA1.byte_val n1 in
      if bool_decide (Z.lxor n 0xFFFF = m ∧ (Z.to_nat n <= length s1)%nat) then
        let chunk := take (Z.to_nat n) s1 in
        let rest := drop (Z.to_nat n) s1 in
        if bool_decide (SHA1.byte_val h = 1) then Some (chunk, rest)
        else if bool_decide (SHA1.byte_val h = 0) then
          (fun r => (chunk ++ r.1, r.2)) <$> read_blocks fuel' rest
        else None
      else None
  | _, _ => None
  end.

Definition zlib_decompress (s : bytes) : option bytes :=
  match s with
  | cmf :: flg :: s1 =>
      if bool_decide (SHA1.byte_val cmf = 0x78 ∧ (256 * 0x78 + SHA1.byte_val flg) mod 31 = 0
                      ∧ Z.land (SHA1.byte_val flg) 0x20 = 0) then
        match read_blocks (length s1) s1 with
        | Some (data, trailer) =>
            if bool_decide (trailer = adler32 data) then Some data else None
        | None => None
        end
      else None
  | _ => None
  end.

Definition codec : payload_codec :=
  Build_payload_codec json_dumps json_loads zlib_compress zlib_decompress.

(** The picture is kept as the text it encodes; a QR code of version 40
    and error correction L holds at most 2953 octets. *)
Definition qr_png_base64 (data : string) : option string :=
  if decide (String.length data <= Z.to_nat 2953)%nat then Some data else None.

Definition decimal_value (c : ascii) : option nat := Base64.find_index c (b "0123456789").

Definition number (s : bytes) : option nat :=
  fold_left (fun acc c => match acc, decimal_value c with
                          | Some n, Some d => Some (10 * n + d)%nat
                          | _, _ => None
                          end) s (Some 0%nat).

Definition pad_left (width : nat) (s : string) : string :=
  string_of_list_ascii (repeat "0"%char (width - String.length s)) +:+ s.

(** Dates written [YYYY-MM-DD]; 29 February has no successor a year on. *)
Definition one_year_later (d : string) : option string :=
  match b d with
  | [y1; y2; y3; y4; "-"%char; m1; m2; "-"%char; d1; d2] =>
      match number [y1; y2; y3; y4], number [m1; m2], number [d1; d2] with
      | Some y, Some m, Some dd =>
          let leap := (Nat.eqb (y mod 4) 0 && negb (Nat.eqb (y mod 100) 0))
                      || Nat.eqb (y mod 400) 0 in
          let days := nth m [0; 31; if leap then 29 else 28; 31; 30; 31; 30;
                             31; 31; 30; 31; 30; 31]%nat 0%nat in
          if (Nat.leb 1 y && Nat.leb 1 dd && Nat.leb dd days && Nat.ltb y (Z.to_nat 9999)
              && negb (Nat.eqb m 2 && Nat.eqb dd 29))%bool then
            Some (pad_left 4 (pretty (S y)) +:+ "-" +:+ string_of_list_ascii [m1; m2] +:+ "-"
                  +:+ string_of_list_ascii [d1; d2])%string
          else None
      | _, _, _ => None
      end
  | _ => None
  end.

Definition env (secret : option string) : environment :=
  Build_environment secret codec qr_png_base64 one_year_later.

(** The table as [init_database] creates it. *)
Definition admin_users : gmap string string := {["admin"%string := "admin123"%string]}.

(** The texts of the examples do not read as numbers: they are stored as
    they are. *)
Definition numeric_affinity (s : string) : string := s.

(** The rows by name; rows of equal names in the order of the map. *)
Definition order_by_name (u : gmap string user_row) : list (string * user_row) :=
  merge_sort by_name (map_to_list u).

End Reference.


(* ===================================================================== *)
(** ** Vocabulary of the statements                                        *)
(* ===================================================================== *)

(** The number of positions at which two strings of equal length differ. *)
Fixpoint hamming (s t : bytes) : option nat :=
  match s, t with
  | [], [] => Some 0%nat
  | x :: s', y :: t' => (if Ascii.eqb x y then id else S) <$> hamming s' t'
  | _, _ => None
  end.

Definition one_character_altered (s t : string) : Prop := hamming (b s) (b t) = Some 1%nat.

(** The session [login] leaves behind after a correct password. *)
Definition member_session (member_id : string) : gmap string sval :=
  <["_permanent"%string := VBool true]>
    (<["logged_in"%string := VBool true]>
       (<["member_id"%string := VStr member_id]> ∅)).

Definition with_session_of (s : gmap string sval) (w : world) : world :=
  {| db := db w; session := s; calls := calls w |}.

Definition with_users_of (u : gmap string user_row) (w : world) : world :=
  {| db := {| users := u; login_logs := login_logs (db w);
              CURRENT_TIMESTAMP := CURRENT_TIMESTAMP (db w) |};
     session := session w; calls := calls w |}.

(** The calls a handler added to the history. *)
Definition new_calls (before after : world) : list db_call :=
  drop (length (calls before)) (calls after).

Definition is_verify_password (c : db_call) : bool :=
  match c with call_verify_password _ _ => true | _ => false end.

Definition member_payload (member_id : string) : payload :=
  PDict [("member_id"%string, Some member_id)].

(** The serializer keeps the compressed form of an object's JSON text when
    it is shorter by more than one octet. *)
Definition compresses (codec : payload_codec) (obj : payload) : Prop :=
  Z.of_nat (length (zlib_compress codec (json_dumps codec obj)))
  < Z.of_nat (length (json_dumps codec obj)) - 1.

(** What the serializer needs from its codecs for an object: JSON reads back
    the text it wrote, and so does zlib when the compressed form is kept. *)
Definition reads_back (codec : payload_codec) (obj : payload) : Prop :=
  json_loads codec (json_dumps codec obj) = Some obj
  /\ (compresses codec obj ->
      zlib_decompress codec (zlib_compress codec (json_dumps codec obj))
      = Some (json_dumps codec obj)).

Definition post_form (fields : list (string * string)) : request :=
  {| method := POST; form := fields; args := []; host_url := "http://localhost:8080/" |}.

Definition get_page : request :=
  {| method := GET; form := []; args := []; host_url := "http://localhost:8080/" |}.

(** The forms of the login page, of the password change and of the bulk edit. *)
Definition password_form (pw : string) : request := post_form [("password"%string, pw)].

Definition change_form (current_password new_password : string) : request :=
  post_form [("current_password", current_password); ("new_password", new_password);
             ("confirm_password", new_password)]%string.

Definition bulk_form (member_ids : list string) (field value : string) : request :=
  post_form (((fun m => ("member_ids"%string, m)) <$> member_ids) ++
             [("field", field); ("value", value)]%string).

Definition lifetime (member_ids : list string) : dict (dict (option string)) :=
  (fun m => (m, [("membership_type", Some "lifetime")]%string)) <$> member_ids.

(** A bulk update with a record for an unknown member and one that violates
    the NOT NULL constraint. *)
Definition sample_updates : dict (dict (option string)) :=
  [("M042", [("membership_type", Some "lifetime")]);
   ("M404", [("membership_type", Some "lifetime")]);
   ("M043", [("name", None); ("phone", Some "555-0100")])]%string.

(** The tables after one more row in [login_logs]. *)
Definition log_attempt (member_id : option string) (ok : bool) (d : database) : database :=
  {| users := users d;
     login_logs := login_logs d ++
       [{| log_member_id := member_id; login_time := CURRENT_TIMESTAMP d; success := ok |}];
     CURRENT_TIMESTAMP := CURRENT_TIMESTAMP d |}.

(** An UPDATE fails on the NOT NULL column when it assigns NULL to it. *)
Definition sets_null_name (update_data : dict (option string)) : Prop :=
  ("name"%string, None) ∈ update_data.

#[export] Instance sets_null_name_dec (update_data : dict (option string)) :
  Decision (sets_null_name update_data).
Proof. unfold sets_null_name. apply _. Defined.

Definition constraint_error (member_id : string) : string :=
  ("Error updating " +:+ member_id +:+ ": NOT NULL constraint failed: users.name")%string.

(** Sample data for the concrete runs. *)
Definition sample_row (pw : string) : user_row :=
  {| name := "Asha Rao"; date_of_birth := Some "1990-04-12"%string;
     address := None; blood_group := Some "O+"%string; phone := None;
     image_path := Some "https://drive.google.com/file/d/1AbC/view"%string;
     membership_type := Some "annually"%string;
     membership_joining_date := Some "2024-01-15"%string;
     membership_renewal_date := Some "2025-01-15"%string;
     password := Some pw; created_at := None; updated_at := None |}.

Definition sample_db : database :=
  {| users := <["M043"%string := sample_row "123456"]> {["M042"%string := sample_row "secret1"]};
     login_logs := []; CURRENT_TIMESTAMP := "2025-06-01 12:00:00" |}.

Definition sample_world (s : gmap string sval) : world :=
  {| db := sample_db; session := s; calls := [] |}.

Definition admin_session : gmap string sval :=
  <["admin_username"%string := VStr "admin"]> {["is_admin"%string := VBool true]}.

(** The tables after [change_user_password] has rewritten [m]'s row. *)
Definition password_changed (m : string) (r : user_row) (new_password : string)
    (d : database) : database :=
  {| users := <[m := set_password (Some new_password) (Some (CURRENT_TIMESTAMP d)) r]> (users d);
     login_logs := login_logs d; CURRENT_TIMESTAMP := CURRENT_TIMESTAMP d |}.

(** The row an UPDATE of [bulk_update_users] leaves: the assignments applied,
    or the old row when the statement fails. *)
Definition updated_row (one_year_later : string -> option string)
    (numeric_affinity : string -> string) (d : database)
    (member_id : string) (update_data : dict (option string)) (r : user_row) : user_row :=
  default r (apply_set_clause numeric_affinity
               (UserDB.set_clause one_year_later d member_id update_data) r).

(** The records of a bulk update that change a row, and those that fail. *)
Definition matched (d : database) (mu : string * dict (option string)) : Prop :=
  is_Some (users d !! mu.1) /\ ~ sets_null_name mu.2.

Definition failing (d : database) (mu : string * dict (option string)) : Prop :=
  is_Some (users d !! mu.1) /\ sets_null_name mu.2.

#[export] Instance matched_dec d mu : Decision (matched d mu).
Proof. unfold matched. apply _. Defined.

#[export] Instance failing_dec d mu : Decision (failing d mu).
Proof. unfold failing. apply _. Defined.

(** A character that is neither the signer's separator nor padding. *)
Definition clean (c : ascii) : Prop :=
  Ascii.eqb c Signer.sep = false /\ Ascii.eqb c Base64.pad = false.

(** Every row of [login_logs] names no member or a member of [users]: the
    foreign key of the table. *)
Definition foreign_keys_hold (d : database) : Prop :=
  Forall (fun l => log_member_id l = None \/ is_Some (find_user d (log_member_id l)))
         (login_logs d).

#[export] Instance foreign_keys_hold_dec (d : database) : Decision (foreign_keys_hold d).
Proof. unfold foreign_keys_hold. apply _. Defined.

(** The form of a new annual member, with no password field. *)
Definition new_member_data : dict (option string) :=
  [("member_id", Some "M100"); ("name", Some "Bo Lin");
   ("membership_type", Some "annually");
   ("membership_joining_date", Some "2024-03-01")]%string.

(** The form carries the name and the password of a row of [admin_users]. *)
Definition admin_credentials (admin_users : gmap string string) (req : request) : Prop :=
  exists u p, form_get "username" req = Some u /\ form_get "password" req = Some p
              /\ admin_users !! u = Some p.

(** The messages queued for the next page. *)
Definition flashes (s : gmap string sval) : list (string * string) :=
  match s !! "_flashes"%string with
  | Some (VFlashes l) => l
  | _ => []
  end.

(** The token of the form is the token of the session; a form without the
    field and a session without a token agree as well. *)
Definition csrf_accepted (req : request) (w : world) : Prop :=
  sval_of (form_get "csrf_token" req) = default VNone (session w !! "_csrf_token"%string).

#[export] Instance csrf_accepted_dec req w : Decision (csrf_accepted req w).
Proof. unfold csrf_accepted. apply _. Defined.

(** The tables after [reset_all_passwords]. *)
Definition passwords_reset (new_password : string) (d : database) : database :=
  {| users := (fun r => set_password (Some new_password) (updated_at r) r) <$> users d;
     login_logs := login_logs d; CURRENT_TIMESTAMP := CURRENT_TIMESTAMP d |}.

(** The form of the admin login. *)
Definition login_form (username password : string) : request :=
  post_form [("username", username); ("password", password)]%string.

(** The form an administrator fills in for a new member, the password left
    out. *)
Definition add_user_form : request :=
  post_form [("member_id", "M100"); ("name", "Bo Lin"); ("membership_type", "lifetime")]%string.

(** The form of an edit that only carries a name. *)
Definition rename_form (nm : string) : request := post_form [("name"%string, nm)].

(** The characters a token is made of: the digits of the url-safe alphabet
    and the separator of the signer. *)
Definition url_safe (c : ascii) : Prop := c ∈ Base64.alphabet \/ c = Signer.sep.

(** What [ORDER BY name] gives: the rows of the table, each once, in the
    order of their names. *)
Definition lists_by_name (order_by_name : gmap string user_row -> list (string * user_row))
  : Prop :=
  forall u, order_by_name u ≡ₚ map_to_list u /\ Sorted by_name (order_by_name u).

(** What the page of QR codes says of a member: the name, and the address
    that carries the member's token. *)
Definition entry_of (env : environment) (base_url : string) (d : database)
    (e : qr_code_entry) (m : string) (r : user_row) : Prop :=
  qr_member_id e = Some m /\ users d !! m = Some r /\ qr_name e = Some (name r)
  /\ qr_login_url e
     = Some (base_url +:+ "secure-login/" +:+ App.serializer_dumps env (member_payload m))%string.





(** The signature part of the token minted for an object. *)
Definition token_signature (codec : payload_codec) (secret_key : string) (obj : payload)
  : bytes :=
  Signer.get_signature secret_key (URLSafeSerializer.dump_payload codec obj).

(** The character [c] stands for the same bits as the digit [d], as far as
    decoding uses them: all six, or the first four for the last digit of a
    signature, whose two low bits are dropped. *)
Definition same_octets (last : bool) (c d : ascii) : bool :=
  match Base64.digit_value c, Base64.digit_value d with
  | Some v', Some v =>
      if last then bool_decide (take 4 v' = take 4 v) else bool_decide (v' = v)
  | _, _ => false
  end.

(** The 256 octets, the texts of a given length, and secrets without
    number. *)
Definition all_octets : bytes := ascii_of_nat <$> seq 0 256.

Fixpoint all_texts (n : nat) : list bytes :=
  match n with
  | O => [[]]
  | S n' => all_octets ≫= (fun c => cons c <$> all_texts n')
  end.

Definition secret_of (i : nat) : string := string_of_list_ascii (replicate i "a"%char).

(* ===================================================================== *)
(** * Properties of the token codec                                        *)
(* ===================================================================== *)

Module Base64Facts.
Import Base64.

Lemma digit_facts (v : list bool) :
  length v = 6%nat ->
  digit_value (digit v) = Some v /\ Ascii.eqb (digit v) pad = false
  /\ Ascii.eqb (digit v) Signer.sep = false.
Proof.
  intros Hv.
  destruct v as [|v5 [|v4 [|v3 [|v2 [|v1 [|v0 [|? ?]]]]]]]; try discriminate Hv.
  destruct v5, v4, v3, v2, v1, v0; vm_compute; auto.
Qed.

Lemma a2b_cons c s q p l :
  a2b_base64 (c :: s) q p l =
  if Ascii.eqb c pad then
    if decide (2 <= q)%nat then
      if decide (4 <= q + S p)%nat then Some [] else a2b_base64 s q (S p) l
    else a2b_base64 s q p l
  else
    match digit_value c with
    | None => a2b_base64 s q p l
    | Some v =>
        let acc := l ++ v in
        let q' := ((q + 1) mod 4)%nat in
        if decide (8 <= length acc)%nat then
          cons (byte_of_bits (take 8 acc)) <$> a2b_base64 s q' 0%nat (drop 8 acc)
        else a2b_base64 s q' 0%nat acc
    end.
Proof. reflexivity. Qed.

Lemma a2b_digit v s q p l :
  length v = 6%nat ->
  a2b_base64 (digit v :: s) q p l =
  if decide (8 <= length (l ++ v))%nat then
    cons (byte_of_bits (take 8 (l ++ v))) <$>
      a2b_base64 s ((q + 1) mod 4)%nat 0%nat (drop 8 (l ++ v))
  else a2b_base64 s ((q + 1) mod 4)%nat 0%nat (l ++ v).
Proof.
  intros Hv. destruct (digit_facts v Hv) as (Hd & Hp & _).
  rewrite a2b_cons, Hp, Hd. reflexivity.
Qed.

(** A full group of three octets is read back and leaves the decoder in its
    initial state. *)
Lemma a2b_group x y z rest :
  a2b_base64 (urlsafe_b64encode [x; y; z] ++ rest) 0 0 [] =
  (fun r => x :: y :: z :: r) <$> a2b_base64 rest 0 0 [].
Proof.
  destruct x as [x0 x1 x2 x3 x4 x5 x6 x7], y as [y0 y1 y2 y3 y4 y5 y6 y7],
    z as [z0 z1 z2 z3 z4 z5 z6 z7].
  cbn [urlsafe_b64encode bits_of_byte app take drop].
  rewrite !a2b_digit by reflexivity. cbn.
  destruct (a2b_base64 rest 0 0 []); reflexivity.
Qed.

Lemma list_ind3 {A} (P : list A -> Prop) :
  P [] -> (forall x, P [x]) -> (forall x y, P [x; y]) ->
  (forall x y z l, P l -> P (x :: y :: z :: l)) ->
  forall l, P l.
Proof.
  intros H0 H1 H2 H3.
  assert (H : forall l, P l /\ (forall x, P (x :: l)) /\ (forall x y, P (x :: y :: l))).
  { induction l as [|a l (IH0 & IH1 & IH2)]; repeat split; auto. }
  intros l. apply H.
Qed.

Lemma lstrip_snoc c a t :
  Ascii.eqb a c = false -> lstrip c (t ++ [a]) = lstrip c t ++ [a].
Proof.
  intros Ha. induction t as [|x t IH]; cbn.
  - rewrite Ha. reflexivity.
  - destruct (Ascii.eqb x c); [exact IH | reflexivity].
Qed.

Lemma rstrip_cons c a l :
  Ascii.eqb a c = false -> rstrip c (a :: l) = a :: rstrip c l.
Proof.
  intros Ha. unfold rstrip. cbn [rev].
  rewrite lstrip_snoc by exact Ha. rewrite rev_app_distr. reflexivity.
Qed.

Lemma rstrip_digit v l :
  length v = 6%nat -> rstrip pad (digit v :: l) = digit v :: rstrip pad l.
Proof. intros Hv. apply rstrip_cons, (digit_facts v Hv). Qed.

(** [base64_encode] group by group. *)
Lemma base64_encode_group x y z s :
  Signer.base64_encode (x :: y :: z :: s) =
  Signer.base64_encode [x; y; z] ++ Signer.base64_encode s.
Proof.
  unfold Signer.base64_encode.
  destruct x as [x0 x1 x2 x3 x4 x5 x6 x7], y as [y0 y1 y2 y3 y4 y5 y6 y7],
    z as [z0 z1 z2 z3 z4 z5 z6 z7].
  cbn [urlsafe_b64encode bits_of_byte app take drop].
  rewrite !rstrip_digit by reflexivity. reflexivity.
Qed.

Lemma base64_encode_3 x y z :
  Signer.base64_encode [x; y; z] = urlsafe_b64encode [x; y; z].
Proof.
  unfold Signer.base64_encode.
  destruct x as [x0 x1 x2 x3 x4 x5 x6 x7], y as [y0 y1 y2 y3 y4 y5 y6 y7],
    z as [z0 z1 z2 z3 z4 z5 z6 z7].
  cbn [urlsafe_b64encode bits_of_byte app take drop].
  rewrite !rstrip_digit by reflexivity. reflexivity.
Qed.

Lemma base64_encode_2 x y :
  Signer.base64_encode [x; y] ++ [pad] = urlsafe_b64encode [x; y].
Proof.
  unfold Signer.base64_encode.
  destruct x as [x0 x1 x2 x3 x4 x5 x6 x7], y as [y0 y1 y2 y3 y4 y5 y6 y7].
  cbn [urlsafe_b64encode bits_of_byte app take drop].
  rewrite !rstrip_digit by reflexivity. reflexivity.
Qed.

Lemma base64_encode_1 x :
  Signer.base64_encode [x] ++ [pad; pad] = urlsafe_b64encode [x].
Proof.
  unfold Signer.base64_encode.
  destruct x as [x0 x1 x2 x3 x4 x5 x6 x7].
  cbn [urlsafe_b64encode bits_of_byte app take drop].
  rewrite !rstrip_digit by reflexivity. reflexivity.
Qed.

Lemma base64_encode_length_small s :
  (length s < 3)%nat -> length (Signer.base64_encode s) = (length s + Nat.min 1 (length s))%nat.
Proof.
  destruct s as [|x [|y [|z s]]]; cbn [length]; intros H; try lia.
  - reflexivity.
  - pose proof (f_equal (@length ascii) (base64_encode_1 x)) as E.
    rewrite length_app in E. cbn in E. cbn. lia.
  - pose proof (f_equal (@length ascii) (base64_encode_2 x y)) as E.
    rewrite length_app in E. cbn in E. cbn. lia.
Qed.

(** Neither the separator of the signer nor the padding occurs in an
    encoded string. *)
Lemma base64_encode_chars s :
  Forall (fun c => Ascii.eqb c Signer.sep = false /\ Ascii.eqb c pad = false)
         (Signer.base64_encode s).
Proof.
  induction s as [| x | x y | x y z s IH] using list_ind3.
  - constructor.
  - destruct x as [x0 x1 x2 x3 x4 x5 x6 x7]. unfold Signer.base64_encode.
    cbn [urlsafe_b64encode bits_of_byte app take drop].
    rewrite !rstrip_digit by reflexivity.
    repeat (constructor; [split; apply digit_facts; reflexivity|]). constructor.
  - destruct x as [x0 x1 x2 x3 x4 x5 x6 x7], y as [y0 y1 y2 y3 y4 y5 y6 y7].
    unfold Signer.base64_encode.
    cbn [urlsafe_b64encode bits_of_byte app take drop].
    rewrite !rstrip_digit by reflexivity.
    repeat (constructor; [split; apply digit_facts; reflexivity|]). constructor.
  - rewrite base64_encode_group, base64_encode_3. apply Forall_app. split; [|exact IH].
    destruct x as [x0 x1 x2 x3 x4 x5 x6 x7], y as [y0 y1 y2 y3 y4 y5 y6 y7],
      z as [z0 z1 z2 z3 z4 z5 z6 z7].
    cbn [urlsafe_b64encode bits_of_byte app take drop].
    repeat (constructor; [split; apply digit_facts; reflexivity|]). constructor.
Qed.

Lemma a2b_tail_2 x y :
  urlsafe_b64decode (urlsafe_b64encode [x; y]) = Some [x; y].
Proof.
  unfold urlsafe_b64decode.
  destruct x as [x0 x1 x2 x3 x4 x5 x6 x7], y as [y0 y1 y2 y3 y4 y5 y6 y7].
  cbn [urlsafe_b64encode bits_of_byte app take drop].
  rewrite !a2b_digit by reflexivity. reflexivity.
Qed.

Lemma a2b_tail_1 x :
  urlsafe_b64decode (urlsafe_b64encode [x]) = Some [x].
Proof.
  unfold urlsafe_b64decode.
  destruct x as [x0 x1 x2 x3 x4 x5 x6 x7].
  cbn [urlsafe_b64encode bits_of_byte app take drop].
  rewrite !a2b_digit by reflexivity. reflexivity.
Qed.

(** [base64_decode] undoes [base64_encode]: the padding that was stripped
    is put back before decoding. *)
Theorem base64_decode_encode s :
  Signer.base64_decode (Signer.base64_encode s) = Some s.
Proof.
  unfold Signer.base64_decode.
  induction s as [| x | x y | x y z s IH] using list_ind3.
  - reflexivity.
  - rewrite (base64_encode_length_small [x]) by (cbn; lia).
    cbn [length Nat.min Nat.add Nat.modulo Nat.divmod Nat.sub fst snd repeat].
    change (Signer.base64_encode [x] ++ repeat pad ((4 - 2 mod 4) mod 4))
      with (Signer.base64_encode [x] ++ [pad; pad]).
    rewrite base64_encode_1. apply a2b_tail_1.
  - rewrite (base64_encode_length_small [x; y]) by (cbn; lia).
    change (Signer.base64_encode [x; y] ++ _)
      with (Signer.base64_encode [x; y] ++ [pad]).
    rewrite base64_encode_2. apply a2b_tail_2.
  - rewrite base64_encode_group, base64_encode_3.
    rewrite length_app.
    replace (length (urlsafe_b64encode [x; y; z])) with 4%nat by reflexivity.
    replace ((4 + length (Signer.base64_encode s)) mod 4)%nat
      with (length (Signer.base64_encode s) mod 4)%nat.
    2:{ replace (4 + length (Signer.base64_encode s))%nat
          with (length (Signer.base64_encode s) + 1 * 4)%nat by lia.
        symmetry. apply Nat.Div0.mod_add. }
    rewrite <- app_assoc. unfold urlsafe_b64decode.
    rewrite a2b_group. unfold urlsafe_b64decode in IH. rewrite IH. reflexivity.
Qed.

End Base64Facts.

Module SignerFacts.
Import Signer.

Lemma rsplit_absent c s :
  Forall (fun x => Ascii.eqb x c = false) s -> rsplit c s = None.
Proof.
  induction 1 as [|x s Hx _ IH]; cbn; [reflexivity|].
  rewrite IH, Hx. reflexivity.
Qed.

(** Splitting at the last separator: the part after it has none. *)
Lemma rsplit_app c v s :
  Forall (fun x => Ascii.eqb x c = false) s ->
  rsplit c (v ++ c :: s) = Some (v, s).
Proof.
  intros Hs. induction v as [|x v IH]; cbn.
  - rewrite (rsplit_absent c s Hs), Ascii.eqb_refl. reflexivity.
  - rewrite IH. reflexivity.
Qed.

Lemma signature_has_no_sep secret_key value :
  Forall (fun x => Ascii.eqb x sep = false) (get_signature secret_key value).
Proof.
  unfold get_signature.
  eapply Forall_impl; [apply Base64Facts.base64_encode_chars|].
  intros x [Hx _]. exact Hx.
Qed.

Lemma rsplit_sign secret_key value :
  rsplit sep (sign secret_key value) = Some (value, get_signature secret_key value).
Proof. apply rsplit_app, signature_has_no_sep. Qed.

Lemma verify_own_signature secret_key value :
  verify_signature secret_key value (get_signature secret_key value) = true.
Proof.
  unfold verify_signature, get_signature.
  rewrite Base64Facts.base64_decode_encode. apply bool_decide_eq_true. reflexivity.
Qed.

(** A signature made under another key, or for another value, is accepted
    exactly when the two HMACs coincide. *)
Lemma verify_other_signature k1 k2 value1 value2 :
  verify_signature k2 value2 (get_signature k1 value1)
  = bool_decide (raw_signature k1 value1 = raw_signature k2 value2).
Proof.
  unfold verify_signature, get_signature.
  rewrite Base64Facts.base64_decode_encode. reflexivity.
Qed.

(** The signer reproduces the token of the library's documentation,
    [URLSafeSerializer('secret-key').dumps([1, 2, 3, 4])]. *)
Example documented_token :
  sign "secret-key" (b "WzEsMiwzLDRd") = b "WzEsMiwzLDRd.wSPHqC0gR7VUqivlSukJ0IeTDgo"
  /\ base64_encode (b "[1,2,3,4]") = b "WzEsMiwzLDRd".
Proof. split; vm_compute; reflexivity. Qed.

Theorem unsign_sign secret_key value :
  unsign secret_key (sign secret_key value) = Ok value.
Proof.
  unfold unsign. rewrite rsplit_sign, verify_own_signature. reflexivity.
Qed.

End SignerFacts.

Module SerializerFacts.
Import URLSafeSerializer.

Lemma b_string_of_list (s : bytes) : b (string_of_list_ascii s) = s.
Proof. apply list_ascii_of_string_of_list_ascii. Qed.

Section with_codec.
Context (codec : payload_codec).

(** The payload is read back whenever the two codecs read back what they
    wrote for it. *)
Lemma load_dump_payload obj :
  reads_back codec obj -> load_payload codec (dump_payload codec obj) = Ok obj.
Proof.
  intros [Hjson Hzlib]. unfold dump_payload, load_payload.
  destruct (decide _) as [Hshort|_].
  - rewrite Ascii.eqb_refl, Base64Facts.base64_decode_encode, (Hzlib Hshort), Hjson.
    reflexivity.
  - pose proof (Base64Facts.base64_encode_chars (json_dumps codec obj)) as Hc.
    destruct (Signer.base64_encode (json_dumps codec obj)) as [|c rest] eqn:E.
    + rewrite <- E, Base64Facts.base64_decode_encode, Hjson. reflexivity.
    + inversion Hc as [|? ? [Hsep _] _]; subst. rewrite Hsep.
      rewrite <- E, Base64Facts.base64_decode_encode, Hjson. reflexivity.
Qed.

Lemma loads_sign secret_key value :
  loads codec secret_key (string_of_list_ascii (Signer.sign secret_key value))
  = load_payload codec value.
Proof.
  unfold loads. rewrite b_string_of_list, SignerFacts.unsign_sign. reflexivity.
Qed.

Theorem loads_dumps secret_key obj :
  reads_back codec obj -> loads codec secret_key (dumps codec secret_key obj) = Ok obj.
Proof.
  intros Hcodec. unfold dumps. rewrite loads_sign.
  apply load_dump_payload; assumption.
Qed.

(** What [loads] does with a value and a signature that has no
    separator in it. *)
Lemma loads_value_sig secret_key value sig :
  Forall (fun x => Ascii.eqb x Signer.sep = false) sig ->
  loads codec secret_key (string_of_list_ascii (value ++ Signer.sep :: sig))
  = if Signer.verify_signature secret_key value sig
    then load_payload codec value else Err BadSignature.
Proof.
  intros Hsig. unfold loads, Signer.unsign.
  rewrite b_string_of_list, (SignerFacts.rsplit_app _ _ _ Hsig).
  destruct (Signer.verify_signature secret_key value sig); reflexivity.
Qed.

End with_codec.
End SerializerFacts.

(** The last digit of a signature is not fully used: a digest of twenty
    octets ends in a group of two, whose third digit carries two spare bits
    that decoding drops. *)
Module Malleability.
Import Base64.

Lemma sha1_length (s : bytes) : length (SHA1.sha1 s) = 20%nat.
Proof.
  unfold SHA1.sha1.
  destruct (SHA1.blocks _ _ _) as [[[[h0 h1] h2] h3] h4]. reflexivity.
Qed.

Lemma raw_signature_length (secret_key : string) (value : bytes) :
  length (Signer.raw_signature secret_key value) = 20%nat.
Proof. apply sha1_length. Qed.

Lemma hamming_refl (s : bytes) : hamming s s = Some 0%nat.
Proof.
  induction s as [|x s IH]; [reflexivity|]. cbn. rewrite Ascii.eqb_refl, IH. reflexivity.
Qed.

Lemma hamming_app (p s t : bytes) : hamming (p ++ s) (p ++ t) = hamming s t.
Proof.
  induction p as [|x p IH]; [reflexivity|]. cbn. rewrite Ascii.eqb_refl, IH.
  destruct (hamming s t); reflexivity.
Qed.

Lemma digit_injective (v v' : list bool) :
  length v = 6%nat -> length v' = 6%nat -> digit v = digit v' -> v = v'.
Proof.
  intros Hv Hv' E.
  destruct (Base64Facts.digit_facts v Hv) as [H1 _].
  destruct (Base64Facts.digit_facts v' Hv') as [H2 _].
  rewrite E in H1. congruence.
Qed.

(** For octets whose number is 2 modulo 3 there is a second string of
    digits, different in its last character only, that decodes to them. *)
Lemma other_encoding (s : bytes) :
  (length s mod 3 = 2)%nat ->
  exists e, hamming (Signer.base64_encode s) e = Some 1%nat
            /\ Forall clean e
            /\ Signer.base64_decode e = Some s.
Proof.
  induction s as [| x | x y | x y z s IH] using Base64Facts.list_ind3; intros Hlen.
  - discriminate Hlen.
  - discriminate Hlen.
  - clear Hlen.
    destruct x as [x0 x1 x2 x3 x4 x5 x6 x7], y as [y0 y1 y2 y3 y4 y5 y6 y7].
    exists [digit [x7; x6; x5; x4; x3; x2]; digit [x1; x0; y7; y6; y5; y4];
            digit [y3; y2; y1; y0; false; true]].
    split; [|split].
    + unfold Signer.base64_encode.
      cbn [urlsafe_b64encode bits_of_byte app take drop].
      rewrite !Base64Facts.rstrip_digit by reflexivity.
      cbn [hamming]. rewrite !Ascii.eqb_refl.
      destruct (Ascii.eqb (digit [y3; y2; y1; y0; false; false])
                          (digit [y3; y2; y1; y0; false; true])) eqn:E; [|reflexivity].
      apply Ascii.eqb_eq, digit_injective in E; [discriminate E | reflexivity..].
    + repeat (constructor; [split; apply Base64Facts.digit_facts; reflexivity|]).
      constructor.
    + unfold Signer.base64_decode, urlsafe_b64decode. cbn [length app repeat].
      change ((4 - 3 mod 4) mod 4)%nat with 1%nat. cbn [repeat app].
      rewrite !Base64Facts.a2b_digit by reflexivity. reflexivity.
  - assert (Hlen' : (length s mod 3 = 2)%nat).
    { cbn [length] in Hlen.
      replace (S (S (S (length s)))) with (length s + 1 * 3)%nat in Hlen by lia.
      rewrite Nat.Div0.mod_add in Hlen. exact Hlen. }
    destruct (IH Hlen') as (e & Hham & Hclean & Hdec).
    exists (urlsafe_b64encode [x; y; z] ++ e). split; [|split].
    + rewrite Base64Facts.base64_encode_group, Base64Facts.base64_encode_3.
      rewrite hamming_app. exact Hham.
    + apply Forall_app. split; [|exact Hclean].
      rewrite <- Base64Facts.base64_encode_3.
      apply Base64Facts.base64_encode_chars.
    + unfold Signer.base64_decode in *. rewrite length_app.
      replace (length (urlsafe_b64encode [x; y; z])) with 4%nat by reflexivity.
      replace ((4 + length e) mod 4)%nat with (length e mod 4)%nat.
      2:{ replace (4 + length e)%nat with (length e + 1 * 4)%nat by lia.
          symmetry. apply Nat.Div0.mod_add. }
      rewrite <- app_assoc. unfold urlsafe_b64decode in *.
      rewrite Base64Facts.a2b_group, Hdec. reflexivity.
Qed.

(** Every minted token has a neighbour, one character away, that the
    serializer accepts with the same result. *)
Theorem every_token_has_an_accepted_neighbour (codec : payload_codec)
    (secret_key : string) (obj : payload) :
  exists altered,
    one_character_altered (URLSafeSerializer.dumps codec secret_key obj) altered
    /\ URLSafeSerializer.loads codec secret_key altered
       = URLSafeSerializer.loads codec secret_key (URLSafeSerializer.dumps codec secret_key obj).
Proof.
  set (value := URLSafeSerializer.dump_payload codec obj).
  destruct (other_encoding (Signer.raw_signature secret_key value)) as (e & Hham & Hclean & Hdec).
  { rewrite raw_signature_length. reflexivity. }
  exists (string_of_list_ascii (value ++ Signer.sep :: e)). split.
  - unfold one_character_altered, URLSafeSerializer.dumps, Signer.sign. fold value.
    rewrite !SerializerFacts.b_string_of_list.
    change (value ++ Signer.sep :: ?l) with (value ++ [Signer.sep] ++ l).
    rewrite !app_assoc, hamming_app. exact Hham.
  - unfold URLSafeSerializer.dumps. fold value. rewrite SerializerFacts.loads_sign.
    rewrite SerializerFacts.loads_value_sig.
    + unfold Signer.verify_signature. rewrite Hdec.
      rewrite bool_decide_eq_true_2 by reflexivity. reflexivity.
    + eapply Forall_impl; [exact Hclean|]. intros c [H _]. exact H.
Qed.

End Malleability.

(** What decoding makes of a text of digits, and of a signature in which
    one character was replaced. *)
Module DecodingFacts.
Import Base64.

Lemma bits_of_index_length (width n : nat) : length (bits_of_index width n) = width.
Proof.
  revert n. induction width as [|w IH]; intros n; [reflexivity|].
  cbn [bits_of_index]. rewrite length_app, IH. cbn. lia.
Qed.

Lemma digit_value_length (c : ascii) (v : list bool) :
  digit_value c = Some v -> length v = 6%nat.
Proof.
  unfold digit_value. destruct (find_index _ alphabet); [|discriminate].
  intros [= <-]. reflexivity.
Qed.

Lemma digit_value_not_pad (c : ascii) (v : list bool) :
  digit_value c = Some v -> Ascii.eqb c pad = false.
Proof.
  intros H. destruct (Ascii.eqb c pad) eqn:E; [|reflexivity].
  apply Ascii.eqb_eq in E. subst c. vm_compute in H. discriminate H.
Qed.

(** One step of the decoder on a character that is a digit. *)
Lemma a2b_char (c : ascii) (v : list bool) (s : bytes) (q p : nat) (l : list bool) :
  digit_value c = Some v ->
  a2b_base64 (c :: s) q p l =
  if decide (8 <= length (l ++ v))%nat then
    cons (byte_of_bits (take 8 (l ++ v))) <$>
      a2b_base64 s ((q + 1) mod 4)%nat 0%nat (drop 8 (l ++ v))
  else a2b_base64 s ((q + 1) mod 4)%nat 0%nat (l ++ v).
Proof.
  intros H. rewrite Base64Facts.a2b_cons, (digit_value_not_pad c v H), H. reflexivity.
Qed.

(** Decoding gives at most six bits for each digit it reads. *)
Lemma a2b_length (s : bytes) : forall (q p : nat) (l : list bool) (out : bytes),
  a2b_base64 s q p l = Some out ->
  (8 * length out <= length l + 6 * length (filter (fun c => is_Some (digit_value c)) s))%nat.
Proof.
  induction s as [|c s IH]; intros q p l out.
  - cbn. destruct (decide _); [|discriminate]. intros [= <-]. cbn. lia.
  - rewrite Base64Facts.a2b_cons.
    destruct (Ascii.eqb c pad) eqn:Epad.
    + apply Ascii.eqb_eq in Epad. subst c.
      rewrite filter_cons_False by (intros [v H]; vm_compute in H; discriminate H).
      destruct (decide _); [destruct (decide _)|].
      * intros [= <-]. cbn. lia.
      * apply IH.
      * apply IH.
    + destruct (digit_value c) as [v|] eqn:Ec.
      * rewrite filter_cons_True by (rewrite Ec; eauto). cbn [length].
        pose proof (digit_value_length c v Ec) as Hv. cbv zeta.
        destruct (decide _) as [Hfull|Hfull].
        -- destruct (a2b_base64 s _ _ _) as [out'|] eqn:E; [|discriminate].
           intros [= <-]. apply IH in E. rewrite length_drop, length_app in E.
           rewrite length_app in Hfull. cbn [length]. lia.
        -- intros E. apply IH in E. rewrite length_app in E. lia.
      * rewrite filter_cons_False by (rewrite Ec; intros [v H]; discriminate H). apply IH.
Qed.

Lemma digits_le_length (s : bytes) :
  (length (filter (fun c => is_Some (digit_value c)) s) <= length s)%nat.
Proof. apply length_filter. Qed.

Lemma digits_repeat_pad (n : nat) :
  filter (fun c => is_Some (digit_value c)) (repeat pad n) = [].
Proof.
  induction n as [|n IH]; [reflexivity|]. cbn [repeat].
  rewrite filter_cons_False; [exact IH|]. intros [v H]. vm_compute in H. discriminate H.
Qed.

(** Fewer than 27 digits do not make the twenty octets of a digest. *)
Lemma base64_decode_short (s : bytes) (out : bytes) :
  (length (filter (fun c => is_Some (digit_value c)) s) <= 26)%nat ->
  Signer.base64_decode s = Some out -> (length out <= 19)%nat.
Proof.
  intros Hs H. unfold Signer.base64_decode, urlsafe_b64decode in H.
  apply a2b_length in H. rewrite filter_app, digits_repeat_pad, app_nil_r in H.
  cbn [length] in H. lia.
Qed.

End DecodingFacts.

Module AlteredDigits.
Import Base64 DecodingFacts.

Lemma pad_count_quad (n : nat) :
  ((4 - S (S (S (S n))) mod 4) mod 4 = (4 - n mod 4) mod 4)%nat.
Proof.
  replace (S (S (S (S n)))) with (n + 1 * 4)%nat by lia.
  rewrite Nat.Div0.mod_add. reflexivity.
Qed.

(** Four digits give three octets and leave the decoder as it was. *)
Lemma decode_quad (c0 c1 c2 c3 : ascii) (v0 v1 v2 v3 : list bool) (e : bytes) :
  digit_value c0 = Some v0 -> digit_value c1 = Some v1 ->
  digit_value c2 = Some v2 -> digit_value c3 = Some v3 ->
  Signer.base64_decode (c0 :: c1 :: c2 :: c3 :: e)
  = (fun r => byte_of_bits (take 8 (v0 ++ v1 ++ v2 ++ v3))
              :: byte_of_bits (take 8 (drop 8 (v0 ++ v1 ++ v2 ++ v3)))
              :: byte_of_bits (drop 16 (v0 ++ v1 ++ v2 ++ v3)) :: r)
    <$> Signer.base64_decode e.
Proof.
  intros H0 H1 H2 H3.
  pose proof (digit_value_length _ _ H0) as L0. pose proof (digit_value_length _ _ H1) as L1.
  pose proof (digit_value_length _ _ H2) as L2. pose proof (digit_value_length _ _ H3) as L3.
  destruct v0 as [|a0 [|a1 [|a2 [|a3 [|a4 [|a5 [|]]]]]]]; try discriminate L0.
  destruct v1 as [|b0 [|b1 [|b2 [|b3 [|b4 [|b5 [|]]]]]]]; try discriminate L1.
  destruct v2 as [|d0 [|d1 [|d2 [|d3 [|d4 [|d5 [|]]]]]]]; try discriminate L2.
  destruct v3 as [|e0 [|e1 [|e2 [|e3 [|e4 [|e5 [|]]]]]]]; try discriminate L3.
  unfold Signer.base64_decode, urlsafe_b64decode. cbn [length]. rewrite pad_count_quad.
  cbn [app].
  rewrite (a2b_char c0 _ _ _ _ _ H0). cbn [app length decide].
  rewrite decide_False by (cbn; lia).
  rewrite (a2b_char c1 _ _ _ _ _ H1). rewrite decide_True by (cbn; lia).
  rewrite (a2b_char c2 _ _ _ _ _ H2). rewrite decide_True by (cbn; lia).
  rewrite (a2b_char c3 _ _ _ _ _ H3). rewrite decide_True by (cbn; lia).
  cbn [app take drop Nat.add Nat.modulo Nat.divmod fst snd Nat.sub].
  destruct (a2b_base64 _ 0 0 []); reflexivity.
Qed.

(** Three digits at the end give two octets; the last two bits are
    dropped. *)
Lemma decode_tail (c0 c1 c2 : ascii) (v0 v1 v2 : list bool) :
  digit_value c0 = Some v0 -> digit_value c1 = Some v1 -> digit_value c2 = Some v2 ->
  Signer.base64_decode [c0; c1; c2]
  = Some [byte_of_bits (take 8 (v0 ++ v1 ++ v2));
          byte_of_bits (take 8 (drop 8 (v0 ++ v1 ++ v2)))].
Proof.
  intros H0 H1 H2.
  pose proof (digit_value_length _ _ H0) as L0. pose proof (digit_value_length _ _ H1) as L1.
  pose proof (digit_value_length _ _ H2) as L2.
  destruct v0 as [|a0 [|a1 [|a2 [|a3 [|a4 [|a5 [|]]]]]]]; try discriminate L0.
  destruct v1 as [|b0 [|b1 [|b2 [|b3 [|b4 [|b5 [|]]]]]]]; try discriminate L1.
  destruct v2 as [|d0 [|d1 [|d2 [|d3 [|d4 [|d5 [|]]]]]]]; try discriminate L2.
  unfold Signer.base64_decode, urlsafe_b64decode. cbn [length].
  change ((4 - 3 mod 4) mod 4)%nat with 1%nat. cbn [repeat app].
  rewrite (a2b_char c0 _ _ _ _ _ H0). rewrite decide_False by (cbn; lia).
  rewrite (a2b_char c1 _ _ _ _ _ H1). rewrite decide_True by (cbn; lia).
  rewrite (a2b_char c2 _ _ _ _ _ H2). rewrite decide_True by (cbn; lia).
  reflexivity.
Qed.

Lemma base64_encode_pair (x0 x1 x2 x3 x4 x5 x6 x7 y0 y1 y2 y3 y4 y5 y6 y7 : bool) :
  Signer.base64_encode [Ascii x0 x1 x2 x3 x4 x5 x6 x7; Ascii y0 y1 y2 y3 y4 y5 y6 y7]
  = [digit [x7; x6; x5; x4; x3; x2]; digit [x1; x0; y7; y6; y5; y4];
     digit [y3; y2; y1; y0; false; false]].
Proof.
  unfold Signer.base64_encode. cbn [urlsafe_b64encode bits_of_byte app take drop].
  rewrite !Base64Facts.rstrip_digit by reflexivity. reflexivity.
Qed.

Lemma base64_encode_triple
    (x0 x1 x2 x3 x4 x5 x6 x7 y0 y1 y2 y3 y4 y5 y6 y7 z0 z1 z2 z3 z4 z5 z6 z7 : bool)
    (s : bytes) :
  Signer.base64_encode (Ascii x0 x1 x2 x3 x4 x5 x6 x7 :: Ascii y0 y1 y2 y3 y4 y5 y6 y7
                        :: Ascii z0 z1 z2 z3 z4 z5 z6 z7 :: s)
  = digit [x7; x6; x5; x4; x3; x2] :: digit [x1; x0; y7; y6; y5; y4]
    :: digit [y3; y2; y1; y0; z7; z6] :: digit [z5; z4; z3; z2; z1; z0]
    :: Signer.base64_encode s.
Proof.
  rewrite Base64Facts.base64_encode_group, Base64Facts.base64_encode_3. reflexivity.
Qed.

Lemma digit_value_digit (v : list bool) : length v = 6%nat -> digit_value (digit v) = Some v.
Proof. intros Hv. apply (Base64Facts.digit_facts v Hv). Qed.

Lemma base64_encode_length (s : bytes) :
  length (Signer.base64_encode s) = ((4 * length s + 2) / 3)%nat.
Proof.
  induction s as [| x | x y | x y z s IH] using Base64Facts.list_ind3.
  - reflexivity.
  - rewrite (Base64Facts.base64_encode_length_small [x]) by (cbn; lia). reflexivity.
  - rewrite (Base64Facts.base64_encode_length_small [x; y]) by (cbn; lia). reflexivity.
  - rewrite Base64Facts.base64_encode_group, Base64Facts.base64_encode_3, length_app, IH.
    replace (length (urlsafe_b64encode [x; y; z])) with 4%nat by reflexivity.
    cbn [length].
    replace (4 * S (S (S (length s))) + 2)%nat with ((4 * length s + 2) + 4 * 3)%nat by lia.
    rewrite Nat.div_add by discriminate. lia.
Qed.

(** Every character of an encoded text is a digit of the alphabet. *)
Lemma base64_encode_digits (s : bytes) :
  Forall (fun c => exists v, length v = 6%nat /\ c = digit v) (Signer.base64_encode s).
Proof.
  induction s as [| x | x y | x y z s IH] using Base64Facts.list_ind3.
  - constructor.
  - destruct x as [x0 x1 x2 x3 x4 x5 x6 x7]. unfold Signer.base64_encode.
    cbn [urlsafe_b64encode bits_of_byte app take drop].
    rewrite !Base64Facts.rstrip_digit by reflexivity.
    repeat (constructor; [eexists; split; [|reflexivity]; reflexivity|]). constructor.
  - destruct x as [x0 x1 x2 x3 x4 x5 x6 x7], y as [y0 y1 y2 y3 y4 y5 y6 y7].
    rewrite base64_encode_pair.
    repeat (constructor; [eexists; split; [|reflexivity]; reflexivity|]). constructor.
  - destruct x as [x0 x1 x2 x3 x4 x5 x6 x7], y as [y0 y1 y2 y3 y4 y5 y6 y7],
      z as [z0 z1 z2 z3 z4 z5 z6 z7].
    rewrite base64_encode_triple.
    repeat (constructor; [eexists; split; [|reflexivity]; reflexivity|]). exact IH.
Qed.

Ltac digit_values := first [eassumption | apply digit_value_digit; reflexivity].

(** One digit of an encoded text replaced by another digit: the text still
    decodes to the same octets exactly when the new digit has the bits of
    the old one, of which the last digit only contributes four. *)
Lemma altered_digit (s : bytes) :
  (length s mod 3 = 2)%nat ->
  forall (i : nat) (c : ascii) (v' : list bool),
    digit_value c = Some v' -> (i < length (Signer.base64_encode s))%nat ->
    Signer.base64_decode (<[i := c]> (Signer.base64_encode s)) = Some s
    <-> same_octets (bool_decide (i = length (Signer.base64_encode s) - 1)%nat) c
          (nth i (Signer.base64_encode s) pad) = true.
Proof.
  induction s as [| x | x y | x y z s IH] using Base64Facts.list_ind3; intros Hlen.
  - discriminate Hlen.
  - discriminate Hlen.
  - clear Hlen. intros i c v' Hc Hi.
    destruct x as [x0 x1 x2 x3 x4 x5 x6 x7], y as [y0 y1 y2 y3 y4 y5 y6 y7].
    rewrite base64_encode_pair in *. cbn [length] in Hi.
    pose proof (digit_value_length c v' Hc) as Hv.
    destruct v' as [|a0 [|a1 [|a2 [|a3 [|a4 [|a5 [|]]]]]]]; try discriminate Hv.
    unfold same_octets. rewrite Hc.
    destruct i as [|[|[|i]]]; [| | |lia]; cbn [insert list_insert nth length Nat.sub];
      rewrite digit_value_digit by reflexivity.
    + erewrite decode_tail by digit_values.
      rewrite bool_decide_eq_false_2 by discriminate. rewrite bool_decide_eq_true.
      cbn. split; intros H; inversion H; subst; reflexivity.
    + erewrite decode_tail by digit_values.
      rewrite bool_decide_eq_false_2 by discriminate. rewrite bool_decide_eq_true.
      cbn. split; intros H; inversion H; subst; reflexivity.
    + erewrite decode_tail by digit_values.
      rewrite bool_decide_eq_true_2 by reflexivity. rewrite bool_decide_eq_true.
      cbn. split; intros H; inversion H; subst; reflexivity.
  - intros i c v' Hc Hi.
    assert (Hlen' : (length s mod 3 = 2)%nat).
    { cbn [length] in Hlen.
      replace (S (S (S (length s)))) with (length s + 1 * 3)%nat in Hlen by lia.
      rewrite Nat.Div0.mod_add in Hlen. exact Hlen. }
    assert (Hpos : (0 < length (Signer.base64_encode s))%nat).
    { rewrite base64_encode_length.
      assert (2 <= length s)%nat.
      { destruct s as [|? [|? ?]]; [discriminate Hlen'|discriminate Hlen'|cbn; lia]. }
      apply Nat.div_str_pos. lia. }
    specialize (IH Hlen').
    destruct x as [x0 x1 x2 x3 x4 x5 x6 x7], y as [y0 y1 y2 y3 y4 y5 y6 y7],
      z as [z0 z1 z2 z3 z4 z5 z6 z7].
    rewrite base64_encode_triple in *. cbn [length] in Hi |- *.
    pose proof (digit_value_length c v' Hc) as Hv.
    destruct v' as [|a0 [|a1 [|a2 [|a3 [|a4 [|a5 [|]]]]]]]; try discriminate Hv.
    destruct i as [|[|[|[|j]]]]; cbn [insert list_insert nth].
    + unfold same_octets. rewrite Hc, digit_value_digit by reflexivity.
      erewrite decode_quad by digit_values.
      rewrite Base64Facts.base64_decode_encode.
      rewrite bool_decide_eq_false_2 by lia. rewrite bool_decide_eq_true.
      cbn. split; intros H; inversion H; subst; reflexivity.
    + unfold same_octets. rewrite Hc, digit_value_digit by reflexivity.
      erewrite decode_quad by digit_values.
      rewrite Base64Facts.base64_decode_encode.
      rewrite bool_decide_eq_false_2 by lia. rewrite bool_decide_eq_true.
      cbn. split; intros H; inversion H; subst; reflexivity.
    + unfold same_octets. rewrite Hc, digit_value_digit by reflexivity.
      erewrite decode_quad by digit_values.
      rewrite Base64Facts.base64_decode_encode.
      rewrite bool_decide_eq_false_2 by lia. rewrite bool_decide_eq_true.
      cbn. split; intros H; inversion H; subst; reflexivity.
    + unfold same_octets. rewrite Hc, digit_value_digit by reflexivity.
      erewrite decode_quad by digit_values.
      rewrite Base64Facts.base64_decode_encode.
      rewrite bool_decide_eq_false_2 by lia. rewrite bool_decide_eq_true.
      cbn. split; intros H; inversion H; subst; reflexivity.
    + erewrite decode_quad by digit_values.
      match goal with
      | |- context [bool_decide ?P] =>
          rewrite (bool_decide_ext P (j = length (Signer.base64_encode s) - 1)%nat) by lia
      end.
      rewrite <- (IH j c _ Hc) by lia.
      cbn. destruct (Signer.base64_decode (<[j:=c]> (Signer.base64_encode s))) as [r|]; cbn.
      * split; intros H; inversion H; subst; reflexivity.
      * split; intros H; discriminate H.
Qed.

End AlteredDigits.

(** Counting: signatures are twenty octets. *)
Module Collisions.

(** The 256 octets. *)
Lemma elem_of_all_octets (c : ascii) : c ∈ all_octets.
Proof.
  unfold all_octets. apply list_elem_of_fmap. exists (nat_of_ascii c). split.
  - symmetry. apply ascii_nat_embedding.
  - apply elem_of_seq. pose proof (nat_ascii_bounded c). lia.
Qed.

Lemma elem_of_all_texts (n : nat) (s : bytes) : length s = n -> s ∈ all_texts n.
Proof.
  revert s. induction n as [|n IH]; intros [|c s] Hs; try discriminate Hs.
  - apply list_elem_of_here.
  - cbn [all_texts]. apply list_elem_of_bind. exists c. split; [|apply elem_of_all_octets].
    apply list_elem_of_fmap. exists s. split; [reflexivity|]. apply IH. cbn in Hs. lia.
Qed.

(** Two arguments of a function share a value when the values of a list
    without repetition are not all different. *)
Lemma repeated_value {A B} `{EqDecision B} (f : A -> B) (l : list A) :
  NoDup l -> ~ NoDup (f <$> l) -> exists x y, x <> y /\ f x = f y.
Proof.
  induction l as [|x l IH]; intros Hl Hfl.
  - contradiction Hfl. constructor.
  - apply NoDup_cons in Hl as [Hx Hl]. cbn [fmap list_fmap] in Hfl.
    destruct (decide (f x ∈ f <$> l)) as [Hin|Hout].
    + apply list_elem_of_fmap in Hin as (y & Hxy & Hy). exists x, y. split; [|exact Hxy].
      intros ->. contradiction.
    + apply IH; [exact Hl|]. intros Hnd. apply Hfl. apply NoDup_cons. split; assumption.
Qed.

(** A function from the numbers to the texts of one length takes some
    value twice: there are only so many texts of that length. *)
Lemma pigeonhole (n : nat) (f : nat -> bytes) :
  (forall i, length (f i) = n) -> exists i j, i <> j /\ f i = f j.
Proof.
  intros Hf.
  apply (repeated_value f (seq 0 (S (length (all_texts n))))); [apply NoDup_seq|].
  intros Hnd.
  assert (Hsub : f <$> seq 0 (S (length (all_texts n))) ⊆+ all_texts n).
  { apply NoDup_submseteq; [exact Hnd|]. intros s Hs.
    apply list_elem_of_fmap in Hs as (i & -> & _). apply elem_of_all_texts, Hf. }
  apply submseteq_length in Hsub. rewrite length_fmap, length_seq in Hsub. lia.
Qed.

Lemma secret_of_injective (i j : nat) : secret_of i = secret_of j -> i = j.
Proof.
  unfold secret_of. intros H. apply (f_equal b) in H.
  rewrite !SerializerFacts.b_string_of_list in H.
  apply (f_equal (@length ascii)) in H. rewrite !length_replicate in H. exact H.
Qed.

(** Signatures are twenty octets, secrets are without number: two
    different secrets sign a value alike. *)
Theorem two_secrets_sign_alike (value : bytes) :
  exists k1 k2 : string,
    k1 <> k2 /\ Signer.raw_signature k1 value = Signer.raw_signature k2 value.
Proof.
  destruct (pigeonhole 20 (fun i => Signer.raw_signature (secret_of i) value))
    as (i & j & Hij & E).
  { intros i. apply Malleability.raw_signature_length. }
  exists (secret_of i), (secret_of j). split; [|exact E].
  intros H. apply Hij, secret_of_injective, H.
Qed.

End Collisions.

Module TokenAlterations.
Import Base64 DecodingFacts AlteredDigits.

Lemma signature_length (secret_key : string) (value : bytes) :
  length (Signer.get_signature secret_key value) = 27%nat.
Proof.
  unfold Signer.get_signature.
  rewrite base64_encode_length, Malleability.raw_signature_length. reflexivity.
Qed.

Lemma digits_insert_non_digit (s : bytes) (i : nat) (c : ascii) :
  (i < length s)%nat -> digit_value c = None ->
  (S (length (filter (fun x => is_Some (digit_value x)) (<[i := c]> s))) <= length s)%nat.
Proof.
  intros Hi Hc. rewrite insert_take_drop by exact Hi.
  rewrite filter_app, filter_cons_False by (rewrite Hc; intros [v H]; discriminate H).
  rewrite length_app.
  pose proof (digits_le_length (take i s)) as H1.
  pose proof (digits_le_length (drop (S i) s)) as H2.
  rewrite length_take in H1. rewrite length_drop in H2. lia.
Qed.

(** The signature with one character replaced passes the check exactly
    when the new character is a digit with the bits of the old one that
    decoding uses. *)
Lemma verify_altered_signature (secret_key : string) (value : bytes) (i : nat) (c : ascii) :
  (i < 27)%nat ->
  Signer.verify_signature secret_key value (<[i := c]> (Signer.get_signature secret_key value))
  = same_octets (bool_decide (i = 26%nat)) c (nth i (Signer.get_signature secret_key value) pad).
Proof.
  intros Hi. pose proof (signature_length secret_key value) as Hlen.
  pose proof (Malleability.raw_signature_length secret_key value) as Hraw.
  unfold Signer.verify_signature.
  destruct (digit_value c) as [v'|] eqn:Hc.
  - assert (Hmod : (length (Signer.raw_signature secret_key value) mod 3 = 2)%nat)
      by (rewrite Hraw; reflexivity).
    pose proof (altered_digit _ Hmod i c v' Hc) as H.
    fold (Signer.get_signature secret_key value) in H. rewrite Hlen in H.
    specialize (H Hi). cbn [Nat.sub] in H.
    apply eq_true_iff_eq. rewrite <- H.
    destruct (Signer.base64_decode _) as [raw|].
    + rewrite bool_decide_eq_true. split; congruence.
    + split; discriminate.
  - unfold same_octets. rewrite Hc.
    destruct (Signer.base64_decode _) as [raw|] eqn:E; [|reflexivity].
    apply bool_decide_eq_false_2. intros ->.
    apply base64_decode_short in E; [lia|].
    pose proof (digits_insert_non_digit (Signer.get_signature secret_key value) i c) as H.
    rewrite Hlen in H. specialize (H Hi Hc). lia.
Qed.

Lemma no_sep_in_signature_part (secret_key : string) (value : bytes) (n : nat) :
  Forall (fun x => Ascii.eqb x Signer.sep = false)
         (drop n (Signer.get_signature secret_key value)).
Proof. apply Forall_drop, SignerFacts.signature_has_no_sep. Qed.

(** What [loads] returns for a token whose signature had one character
    replaced. *)
Lemma loads_altered_signature (codec : payload_codec) (secret_key : string) (value : bytes)
    (i : nat) (c : ascii) :
  (i < 27)%nat ->
  URLSafeSerializer.loads codec secret_key
    (string_of_list_ascii
       (value ++ Signer.sep :: <[i := c]> (Signer.get_signature secret_key value)))
  = if same_octets (bool_decide (i = 26%nat)) c
         (nth i (Signer.get_signature secret_key value) pad)
    then URLSafeSerializer.load_payload codec value else Err BadSignature.
Proof.
  intros Hi. pose proof (signature_length secret_key value) as Hlen.
  destruct (Ascii.eqb c Signer.sep) eqn:Esep.
  - apply Ascii.eqb_eq in Esep. subst c.
    assert (Hno : same_octets (bool_decide (i = 26%nat)) Signer.sep
                    (nth i (Signer.get_signature secret_key value) pad) = false)
      by reflexivity.
    rewrite Hno. rewrite insert_take_drop by lia.
    replace (value ++ Signer.sep :: take i (Signer.get_signature secret_key value)
             ++ Signer.sep :: drop (S i) (Signer.get_signature secret_key value))
      with ((value ++ Signer.sep :: take i (Signer.get_signature secret_key value))
            ++ Signer.sep :: drop (S i) (Signer.get_signature secret_key value))
      by (rewrite <- app_assoc; reflexivity).
    rewrite SerializerFacts.loads_value_sig by apply no_sep_in_signature_part.
    unfold Signer.verify_signature.
    destruct (Signer.base64_decode _) as [raw|] eqn:E; [|reflexivity].
    rewrite bool_decide_eq_false_2; [reflexivity|]. intros ->.
    apply base64_decode_short in E.
    + rewrite Malleability.raw_signature_length in E. lia.
    + etransitivity; [apply digits_le_length|]. rewrite length_drop. lia.
  - rewrite SerializerFacts.loads_value_sig.
    + rewrite verify_altered_signature by exact Hi. reflexivity.
    + apply Forall_insert; [apply SignerFacts.signature_has_no_sep | exact Esep].
Qed.

(** A token whose separator was replaced is not read. *)
Lemma loads_altered_separator (codec : payload_codec) (secret_key : string) (obj : payload)
    (c : ascii) :
  c <> Signer.sep -> json_loads codec [] = None ->
  exists e,
    URLSafeSerializer.loads codec secret_key
      (string_of_list_ascii
         (URLSafeSerializer.dump_payload codec obj
          ++ c :: Signer.get_signature secret_key (URLSafeSerializer.dump_payload codec obj)))
    = Err e.
Proof.
  intros Hc Hjson. apply Ascii.eqb_neq in Hc.
  set (sig := Signer.get_signature secret_key (URLSafeSerializer.dump_payload codec obj)).
  assert (Hsig : Forall (fun x => Ascii.eqb x Signer.sep = false) sig)
    by apply SignerFacts.signature_has_no_sep.
  assert (Henc : forall s, Forall (fun x => Ascii.eqb x Signer.sep = false)
                             (Signer.base64_encode s ++ c :: sig)).
  { intros s. apply Forall_app. split; [|constructor; assumption].
    eapply Forall_impl; [apply Base64Facts.base64_encode_chars|]. intros x [H _]. exact H. }
  unfold URLSafeSerializer.loads, Signer.unsign. rewrite SerializerFacts.b_string_of_list.
  unfold URLSafeSerializer.dump_payload. destruct (decide _) as [Hshort|_].
  - change ((Signer.sep :: ?e) ++ ?t) with ([] ++ Signer.sep :: e ++ t).
    rewrite (SignerFacts.rsplit_app _ _ _ (Henc _)).
    destruct (Signer.verify_signature secret_key [] _); [|eexists; reflexivity].
    change (URLSafeSerializer.load_payload codec [])
      with (match json_loads codec [] with
            | None => @Err bad_data payload BadPayload
            | Some obj => Ok obj
            end).
    rewrite Hjson. eexists. reflexivity.
  - rewrite (SignerFacts.rsplit_absent _ _ (Henc _)). eexists. reflexivity.
Qed.

Lemma hamming_zero (s t : bytes) : hamming s t = Some 0%nat -> s = t.
Proof.
  revert t. induction s as [|x s IH]; intros [|y t]; cbn; try discriminate; [reflexivity|].
  destruct (Ascii.eqb x y) eqn:E; destruct (hamming s t) as [n|] eqn:Eh; cbn;
    try discriminate.
  intros [= ->]. apply Ascii.eqb_eq in E. subst y. f_equal. apply IH, Eh.
Qed.

(** Two texts at distance one: one place of the first holds another
    character in the second. *)
Lemma hamming_one (s t : bytes) :
  hamming s t = Some 1%nat ->
  exists i c, (i < length s)%nat /\ s !! i <> Some c /\ t = <[i := c]> s.
Proof.
  revert t. induction s as [|x s IH]; intros [|y t]; cbn; try discriminate.
  destruct (Ascii.eqb x y) eqn:E; destruct (hamming s t) as [n|] eqn:Eh; cbn;
    try discriminate.
  - intros [= ->]. apply Ascii.eqb_eq in E. subst y.
    destruct (IH t Eh) as (i & c & Hi & Hne & ->).
    exists (S i), c. split; [lia|]. split; [exact Hne|reflexivity].
  - intros [= ->]. apply hamming_zero in Eh. subst t. apply Ascii.eqb_neq in E.
    exists 0%nat, y. split; [lia|]. split; [cbn; congruence|reflexivity].
Qed.

(** A one-character alteration of a token falls into its signature, on its
    separator or into its payload. *)
Lemma alteration_cases (value sig : bytes) (altered : bytes) :
  hamming (value ++ Signer.sep :: sig) altered = Some 1%nat ->
  (exists i c, (i < length sig)%nat /\ altered = value ++ Signer.sep :: <[i := c]> sig)
  \/ (exists c, c <> Signer.sep /\ altered = value ++ c :: sig)
  \/ (exists i c, (i < length value)%nat /\ altered = <[i := c]> value ++ Signer.sep :: sig).
Proof.
  intros H. apply hamming_one in H as (i & c & Hi & Hne & ->).
  rewrite length_app in Hi. cbn [length] in Hi.
  destruct (lt_eq_lt_dec i (length value)) as [[Hlt|Heq]|Hgt].
  - right. right. exists i, c. split; [exact Hlt|]. apply insert_app_l, Hlt.
  - right. left. exists c. subst i. split.
    + intros ->. apply Hne. rewrite lookup_app_r by lia.
      rewrite Nat.sub_diag. reflexivity.
    + rewrite insert_app_r_alt by lia. rewrite Nat.sub_diag. reflexivity.
  - left. exists (i - S (length value))%nat, c. split; [lia|].
    rewrite insert_app_r_alt by lia.
    replace (i - length value)%nat with (S (i - S (length value))) by lia. reflexivity.
Qed.

End TokenAlterations.

Module Twins.
Import Base64 DecodingFacts AlteredDigits.

Lemma octets_forall (P : ascii -> Prop) : Forall P all_octets -> forall c, P c.
Proof. intros H c. rewrite Forall_forall in H. apply H, Collisions.elem_of_all_octets. Qed.

(** Besides the digit of the alphabet only its twin of the standard
    alphabet stands for six given bits. *)
Lemma twin_digits (v : list bool) (c : ascii) :
  length v = 6%nat -> c <> digit v ->
  digit_value c = Some v
  <-> (digit v = "-"%char /\ c = "+"%char) \/ (digit v = "_"%char /\ c = "/"%char).
Proof.
  intros Hv. revert c.
  destruct v as [|b1 [|b2 [|b3 [|b4 [|b5 [|b6 [|]]]]]]]; try discriminate Hv.
  destruct b1, b2, b3, b4, b5, b6;
    match goal with |- forall c, @?P c => apply (octets_forall P) end;
    apply (bool_decide_unpack _); vm_compute; exact I.
Qed.

Lemma same_octets_twin (sig : bytes) (i : nat) (c : ascii) :
  Forall (fun x => exists v, length v = 6%nat /\ x = digit v) sig ->
  (i < length sig)%nat -> c <> nth i sig pad ->
  same_octets false c (nth i sig pad) = true
  <-> (nth i sig pad = "-"%char /\ c = "+"%char) \/ (nth i sig pad = "_"%char /\ c = "/"%char).
Proof.
  intros Hsig Hi Hc.
  destruct (proj1 (Forall_nth _ pad sig) Hsig i Hi) as (v & Hv & E).
  rewrite E in *. rewrite <- (twin_digits v c Hv Hc).
  unfold same_octets. rewrite (digit_value_digit v Hv).
  destruct (digit_value c) as [v'|].
  - rewrite bool_decide_eq_true. split; congruence.
  - split; discriminate.
Qed.

End Twins.

(** Some other secret reads the token as its own secret does. *)
Lemma another_secret_reads (codec : payload_codec) (obj : payload) :
  exists k k' : string,
    k <> k'
    /\ URLSafeSerializer.loads codec k' (URLSafeSerializer.dumps codec k obj)
       = URLSafeSerializer.loads codec k (URLSafeSerializer.dumps codec k obj).
Proof.
  destruct (Collisions.two_secrets_sign_alike (URLSafeSerializer.dump_payload codec obj))
    as (k & k' & Hne & E).
  exists k, k'. split; [exact Hne|].
  unfold URLSafeSerializer.dumps. rewrite SerializerFacts.loads_sign. unfold Signer.sign.
  rewrite SerializerFacts.loads_value_sig by apply SignerFacts.signature_has_no_sep.
  rewrite SignerFacts.verify_other_signature, bool_decide_eq_true_2 by exact E.
  reflexivity.
Qed.


(** The codecs of the reference environment read back every member payload,
    so that the round trip holds there for every identifier. *)
Module ReferenceFacts.

Lemma parse_escape (c : ascii) (t : bytes) :
  Reference.parse_string (Reference.escape c ++ t)
  = (fun r => (c :: r.1, r.2)) <$> Reference.parse_string t.
Proof.
  destruct c as [[] [] [] [] [] [] [] []]; reflexivity.
Qed.

Lemma parse_json_string (s rest : bytes) :
  Reference.parse_string (flat_map Reference.escape s ++ Reference.dq :: rest) = Some (s, rest).
Proof.
  induction s as [|c s IH]; [reflexivity|].
  cbn [flat_map]. rewrite <- app_assoc, parse_escape, IH. reflexivity.
Qed.

Lemma string_of_b (s : string) : string_of_list_ascii (b s) = s.
Proof. apply string_of_list_ascii_of_string. Qed.

Lemma json_loads_object (s : bytes) :
  Reference.json_loads ("{"%char :: Reference.dq :: s)
  = match Reference.parse_members (S (length s)) (Reference.dq :: s) [] with
    | Some (d, []) => Some (PDict d)
    | _ => None
    end.
Proof. reflexivity. Qed.

Lemma parse_members_step (fuel : nat) (s : bytes) (d : dict (option string)) :
  Reference.parse_members (S fuel) (Reference.dq :: s) d
  = match Reference.parse_string s with
    | Some (k, ":"%char :: s2) =>
        match Reference.parse_value s2 with
        | Some (v, c' :: s3) =>
            if Ascii.eqb c' "," then
              Reference.parse_members fuel s3 (dict_set (string_of_list_ascii k) v d)
            else if Ascii.eqb c' "}" then
              Some (dict_set (string_of_list_ascii k) v d, s3)
            else None
        | _ => None
        end
    | _ => None
    end.
Proof. reflexivity. Qed.

Lemma parse_value_string (s : bytes) :
  Reference.parse_value (Reference.dq :: s)
  = (fun r => (Some (string_of_list_ascii r.1), r.2)) <$> Reference.parse_string s.
Proof. reflexivity. Qed.

Lemma json_dumps_member (m : string) :
  Reference.json_dumps (member_payload m)
  = "{"%char :: Reference.dq :: flat_map Reference.escape (b "member_id") ++
      Reference.dq :: ":"%char :: Reference.dq :: flat_map Reference.escape (b m) ++ [Reference.dq; "}"%char].
Proof.
  unfold member_payload, Reference.json_dumps, Reference.json_members, Reference.json_value,
    Reference.json_string.
  cbn [app]. rewrite <- !app_assoc. cbn [app]. rewrite <- !app_assoc. reflexivity.
Qed.

Lemma json_reads_back (m : string) :
  Reference.json_loads (Reference.json_dumps (member_payload m)) = Some (member_payload m).
Proof.
  rewrite json_dumps_member, json_loads_object, parse_members_step, parse_json_string.
  rewrite parse_value_string, parse_json_string. cbn [fmap option_fmap option_map fst snd].
  rewrite !string_of_b. reflexivity.
Qed.

Lemma block_limit_pos : (0 < Reference.block_limit)%nat.
Proof. apply Nat.ltb_lt. vm_compute. reflexivity. Qed.

Lemma stored_blocks_length (fuel : nat) (s : bytes) :
  (length s <= fuel)%nat -> (length s <= length (Reference.stored_blocks fuel s))%nat.
Proof.
  revert s. induction fuel as [|fuel IH]; intros s Hs.
  - cbn. lia.
  - cbn [Reference.stored_blocks]. cbn [length]. rewrite length_app.
    pose proof (take_drop Reference.block_limit s) as Hsplit.
    apply (f_equal (@length ascii)) in Hsplit. rewrite length_app in Hsplit.
    destruct (drop Reference.block_limit s) as [|x rest] eqn:Hrest.
    + cbn [length] in *. lia.
    + assert (Hlen : (length (x :: rest) <= fuel)%nat).
      { rewrite <- Hrest, length_drop. pose proof block_limit_pos. lia. }
      specialize (IH (x :: rest) Hlen). lia.
Qed.

Lemma never_compresses (obj : payload) : ~ compresses Reference.codec obj.
Proof.
  unfold compresses, Reference.codec. cbn [zlib_compress json_dumps].
  unfold Reference.zlib_compress. cbn [length]. rewrite length_app.
  pose proof (stored_blocks_length (S (length (Reference.json_dumps obj)))
                (Reference.json_dumps obj) ltac:(lia)).
  lia.
Qed.

Theorem member_payload_reads_back (m : string) :
  reads_back Reference.codec (member_payload m).
Proof.
  split; [apply json_reads_back|].
  intros H. destruct (never_compresses _ H).
Qed.

(** In the reference environment the round trip of C1 holds for every
    secret and every member identifier. *)
Theorem reference_round_trip (secret : option string) (m : string) :
  App.serializer_loads (Reference.env secret)
    (App.serializer_dumps (Reference.env secret) (member_payload m))
  = Ok (member_payload m).
Proof. apply SerializerFacts.loads_dumps, member_payload_reads_back. Qed.

End ReferenceFacts.

(* ===================================================================== *)
(** * The token codec, as the application uses it                          *)
(* ===================================================================== *)

(** C1.  The token [generate_qr_code] mints for a member identifier [m] is
    [serializer.dumps({'member_id': m})] appended to the secure-login URL,
    [serializer.loads] under the same secret gives the payload back, and
    [secure_login] on that token is [login(m)].  The JSON and zlib codecs are
    taken to read back what they wrote for this payload. *)
Theorem token_round_trip (env : environment) (m : string) :
  reads_back (codec env) (member_payload m) ->
  App.serializer_loads env (App.serializer_dumps env (member_payload m)) = Ok (member_payload m)
  /\ (forall base_url qr login_url,
        App.generate_qr_code env m base_url = (Some qr, Some login_url) ->
        login_url = (base_url +:+ "secure-login/" +:+ App.serializer_dumps env (member_payload m))%string)
  /\ (forall req w,
        App.secure_login env (App.serializer_dumps env (member_payload m)) req w
        = App.login (Some m) req w).
Proof.
  intros Hcodec.
  assert (Hloads : App.serializer_loads env (App.serializer_dumps env (member_payload m))
                   = Ok (member_payload m)).
  { apply SerializerFacts.loads_dumps; assumption. }
  split; [exact Hloads|]. split.
  - intros base_url qr login_url. unfold App.generate_qr_code.
    destruct (String.eqb m ""); [discriminate|].
    fold (member_payload m).
    destruct (qr_png_base64 env _); [|discriminate].
    intros [= _ <-]. reflexivity.
  - intros req w. unfold App.secure_login. rewrite Hloads. reflexivity.
Qed.

(** C1 at the member M042 with the secret k1: the codecs of the reference
    environment read the payload back, and so does the serializer. *)
Lemma token_round_trip_witness :
  reads_back Reference.codec (member_payload "M042")
  /\ App.serializer_dumps (Reference.env (Some "k1"%string)) (member_payload "M042")
     = "eyJtZW1iZXJfaWQiOiJNMDQyIn0.aja-aOBpaQFDKPzR6Us6XKJBqck"%string
  /\ App.serializer_loads (Reference.env (Some "k1"%string))
       (App.serializer_dumps (Reference.env (Some "k1"%string)) (member_payload "M042"))
     = Ok (member_payload "M042").
Proof.
  assert (H : reads_back Reference.codec (member_payload "M042")).
  { split; [vm_compute; reflexivity|]. intros _. vm_compute. reflexivity. }
  split; [exact H|]. split; [vm_compute; reflexivity|].
  exact (proj1 (token_round_trip (Reference.env (Some "k1"%string)) "M042" H)).
Defined.

(** C2, as amended.  Under another secret the token is read as under its
    own when the two secrets sign its payload alike, and is rejected with
    [BadSignature] otherwise; signatures being twenty octets, there are two
    different secrets of which one reads the token of the other.  A token is
    its payload, the separator and a
    signature of 27 digits, and an alteration of one character falls into
    one of the three.  In the signature, the token is read as before when
    the new character is a digit with the bits of the old one that decoding
    uses (all six, but at the last digit only four), and is rejected with
    [BadSignature] otherwise; at the first 26 places the characters that
    pass are [+] where [-] stood and [/] where [_] stood.  With another
    character for the separator nothing is read, the JSON codec refusing
    the empty text.  With another payload before the old signature the
    token is rejected with [BadSignature] unless the two payloads are signed
    alike, and then the new payload is what is read. *)
Theorem loads_rejects_other_signatures (codec : payload_codec) (k1 k2 : string)
    (obj : payload) :
  b (URLSafeSerializer.dumps codec k1 obj)
  = URLSafeSerializer.dump_payload codec obj ++ Signer.sep :: token_signature codec k1 obj
  /\ length (token_signature codec k1 obj) = 27%nat
  /\ URLSafeSerializer.loads codec k2 (URLSafeSerializer.dumps codec k1 obj)
     = (if bool_decide (Signer.raw_signature k2 (URLSafeSerializer.dump_payload codec obj)
                        = Signer.raw_signature k1 (URLSafeSerializer.dump_payload codec obj))
        then URLSafeSerializer.loads codec k1 (URLSafeSerializer.dumps codec k1 obj)
        else Err BadSignature)
  /\ (forall altered,
        one_character_altered (URLSafeSerializer.dumps codec k1 obj) altered ->
        (exists i c, (i < 27)%nat
           /\ altered = string_of_list_ascii
                          (URLSafeSerializer.dump_payload codec obj
                           ++ Signer.sep :: <[i := c]> (token_signature codec k1 obj)))
        \/ (exists c, c <> Signer.sep
              /\ altered = string_of_list_ascii
                             (URLSafeSerializer.dump_payload codec obj
                              ++ c :: token_signature codec k1 obj))
        \/ (exists i c, (i < length (URLSafeSerializer.dump_payload codec obj))%nat
              /\ altered = string_of_list_ascii
                             (<[i := c]> (URLSafeSerializer.dump_payload codec obj)
                              ++ Signer.sep :: token_signature codec k1 obj)))
  /\ (forall i c, (i < 27)%nat ->
        URLSafeSerializer.loads codec k1
          (string_of_list_ascii
             (URLSafeSerializer.dump_payload codec obj
              ++ Signer.sep :: <[i := c]> (token_signature codec k1 obj)))
        = if same_octets (bool_decide (i = 26%nat)) c
               (nth i (token_signature codec k1 obj) Base64.pad)
          then URLSafeSerializer.loads codec k1 (URLSafeSerializer.dumps codec k1 obj)
          else Err BadSignature)
  /\ (forall i c, (i < 26)%nat -> c <> nth i (token_signature codec k1 obj) Base64.pad ->
        same_octets false c (nth i (token_signature codec k1 obj) Base64.pad) = true
        <-> (nth i (token_signature codec k1 obj) Base64.pad = "-"%char /\ c = "+"%char)
            \/ (nth i (token_signature codec k1 obj) Base64.pad = "_"%char /\ c = "/"%char))
  /\ (forall c, c <> Signer.sep -> json_loads codec [] = None ->
        exists e,
          URLSafeSerializer.loads codec k1
            (string_of_list_ascii
               (URLSafeSerializer.dump_payload codec obj ++ c :: token_signature codec k1 obj))
          = Err e)
  /\ (forall value',
        URLSafeSerializer.loads codec k1
          (string_of_list_ascii (value' ++ Signer.sep :: token_signature codec k1 obj))
        = if bool_decide (Signer.raw_signature k1 value'
                          = Signer.raw_signature k1 (URLSafeSerializer.dump_payload codec obj))
          then URLSafeSerializer.load_payload codec value' else Err BadSignature)
  /\ (exists k k' : string,
        k <> k'
        /\ URLSafeSerializer.loads codec k' (URLSafeSerializer.dumps codec k obj)
           = URLSafeSerializer.loads codec k (URLSafeSerializer.dumps codec k obj)).
Proof.
  unfold token_signature. set (value := URLSafeSerializer.dump_payload codec obj).
  pose proof (TokenAlterations.signature_length k1 value) as Hlen.
  assert (Htoken : b (URLSafeSerializer.dumps codec k1 obj)
                   = value ++ Signer.sep :: Signer.get_signature k1 value).
  { unfold URLSafeSerializer.dumps. rewrite SerializerFacts.b_string_of_list. reflexivity. }
  assert (Hown : URLSafeSerializer.loads codec k1 (URLSafeSerializer.dumps codec k1 obj)
                 = URLSafeSerializer.load_payload codec value).
  { unfold URLSafeSerializer.dumps. apply SerializerFacts.loads_sign. }
  split; [exact Htoken|]. split; [exact Hlen|].
  split; [|split; [|split; [|split; [|split; [|split; [|apply another_secret_reads]]]]]].
  - rewrite Hown. unfold URLSafeSerializer.dumps, Signer.sign. fold value.
    rewrite SerializerFacts.loads_value_sig by apply SignerFacts.signature_has_no_sep.
    rewrite SignerFacts.verify_other_signature.
    rewrite (bool_decide_ext (Signer.raw_signature k1 value = Signer.raw_signature k2 value)
               (Signer.raw_signature k2 value = Signer.raw_signature k1 value))
      by (split; intros E; symmetry; exact E).
    reflexivity.
  - intros altered Halt. unfold one_character_altered in Halt. rewrite Htoken in Halt.
    apply TokenAlterations.alteration_cases in Halt. rewrite Hlen in Halt.
    destruct Halt as [(i & c & Hi & E)|[(c & Hc & E)|(i & c & Hi & E)]].
    + left. exists i, c. split; [exact Hi|].
      rewrite <- E. symmetry. apply string_of_list_ascii_of_string.
    + right. left. exists c. split; [exact Hc|].
      rewrite <- E. symmetry. apply string_of_list_ascii_of_string.
    + right. right. exists i, c. split; [exact Hi|].
      rewrite <- E. symmetry. apply string_of_list_ascii_of_string.
  - intros i c Hi. rewrite Hown. apply TokenAlterations.loads_altered_signature, Hi.
  - intros i c Hi Hc. apply Twins.same_octets_twin; [|lia|exact Hc].
    apply AlteredDigits.base64_encode_digits.
  - intros c Hc Hjson. apply TokenAlterations.loads_altered_separator; assumption.
  - intros value'.
    rewrite SerializerFacts.loads_value_sig by apply SignerFacts.signature_has_no_sep.
    rewrite SignerFacts.verify_other_signature.
    rewrite (bool_decide_ext (Signer.raw_signature k1 value = Signer.raw_signature k1 value')
               (Signer.raw_signature k1 value' = Signer.raw_signature k1 value))
      by (split; intros E; symmetry; exact E).
    reflexivity.
Qed.

(** C2, as amended, on the token of M042 minted under k1: it is rejected
    under k2; with [g] for its last character [k] it is rejected, with [+]
    for its [-] it is read as before; with the payload of M043 before the
    signature it is rejected, and with a comma for the separator it is not
    read. *)
Lemma loads_rejects_other_signatures_witness :
  URLSafeSerializer.dumps Reference.codec "k1" (member_payload "M042")
  = "eyJtZW1iZXJfaWQiOiJNMDQyIn0.aja-aOBpaQFDKPzR6Us6XKJBqck"%string
  /\ URLSafeSerializer.loads Reference.codec "k2"
       (URLSafeSerializer.dumps Reference.codec "k1" (member_payload "M042"))
     = Err BadSignature
  /\ string_of_list_ascii
       (URLSafeSerializer.dump_payload Reference.codec (member_payload "M042")
        ++ Signer.sep :: <[26%nat := "g"%char]>
                           (token_signature Reference.codec "k1" (member_payload "M042")))
     = "eyJtZW1iZXJfaWQiOiJNMDQyIn0.aja-aOBpaQFDKPzR6Us6XKJBqcg"%string
  /\ URLSafeSerializer.loads Reference.codec "k1"
       (string_of_list_ascii
          (URLSafeSerializer.dump_payload Reference.codec (member_payload "M042")
           ++ Signer.sep :: <[26%nat := "g"%char]>
                              (token_signature Reference.codec "k1" (member_payload "M042"))))
     = Err BadSignature
  /\ string_of_list_ascii
       (URLSafeSerializer.dump_payload Reference.codec (member_payload "M042")
        ++ Signer.sep :: <[3%nat := "+"%char]>
                           (token_signature Reference.codec "k1" (member_payload "M042")))
     = "eyJtZW1iZXJfaWQiOiJNMDQyIn0.aja+aOBpaQFDKPzR6Us6XKJBqck"%string
  /\ URLSafeSerializer.loads Reference.codec "k1"
       (string_of_list_ascii
          (URLSafeSerializer.dump_payload Reference.codec (member_payload "M042")
           ++ Signer.sep :: <[3%nat := "+"%char]>
                              (token_signature Reference.codec "k1" (member_payload "M042"))))
     = Ok (member_payload "M042")
  /\ URLSafeSerializer.loads Reference.codec "k1"
       (string_of_list_ascii
          (b "eyJtZW1iZXJfaWQiOiJNMDQzIn0" ++ Signer.sep ::
           token_signature Reference.codec "k1" (member_payload "M042")))
     = Err BadSignature
  /\ (exists e,
        URLSafeSerializer.loads Reference.codec "k1"
          (string_of_list_ascii
             (URLSafeSerializer.dump_payload Reference.codec (member_payload "M042")
              ++ ","%char :: token_signature Reference.codec "k1" (member_payload "M042")))
        = Err e).
Proof.
  destruct (loads_rejects_other_signatures Reference.codec "k1" "k2" (member_payload "M042"))
    as (_ & _ & Hother & _ & Hsig & _ & Hsep & Hpay & _).
  assert (Hown : URLSafeSerializer.loads Reference.codec "k1"
                   (URLSafeSerializer.dumps Reference.codec "k1" (member_payload "M042"))
                 = Ok (member_payload "M042"))
    by (apply SerializerFacts.loads_dumps, ReferenceFacts.member_payload_reads_back).
  split; [vm_compute; reflexivity|]. split.
  { rewrite Hother. rewrite bool_decide_eq_false_2 by (vm_compute; discriminate). reflexivity. }
  split; [vm_compute; reflexivity|]. split.
  { rewrite (Hsig 26%nat "g"%char) by lia.
    replace (same_octets _ _ _) with false by (vm_compute; reflexivity). reflexivity. }
  split; [vm_compute; reflexivity|]. split.
  { rewrite (Hsig 3%nat "+"%char) by lia.
    replace (same_octets _ _ _) with true by (vm_compute; reflexivity). exact Hown. }
  split.
  { rewrite Hpay. rewrite bool_decide_eq_false_2 by (vm_compute; discriminate). reflexivity. }
  apply Hsep; [discriminate | reflexivity].
Defined.

(** C2 as stated fails: the last character of a signature carries two bits
    that the decoder drops, so the token minted for M042 under the default
    secret is still accepted, with the same payload, after its final [A] is
    replaced by [B]; [secure_login] then serves M042's login form.  Nor is
    the token of M042 rejected under every other secret: signatures are
    twenty octets, so two different secrets sign its payload alike, and one
    reads the token minted under the other. *)
Lemma altered_token_accepted :
  App.serializer_dumps (Reference.env None) (member_payload "M042")
    = "eyJtZW1iZXJfaWQiOiJNMDQyIn0.TDC2kKFmkAsWvbsT0dMouhig7QA"%string
  /\ one_character_altered "eyJtZW1iZXJfaWQiOiJNMDQyIn0.TDC2kKFmkAsWvbsT0dMouhig7QA"
       "eyJtZW1iZXJfaWQiOiJNMDQyIn0.TDC2kKFmkAsWvbsT0dMouhig7QB"
  /\ App.serializer_loads (Reference.env None)
       "eyJtZW1iZXJfaWQiOiJNMDQyIn0.TDC2kKFmkAsWvbsT0dMouhig7QB"
     = Ok (member_payload "M042")
  /\ (App.secure_login (Reference.env None)
        "eyJtZW1iZXJfaWQiOiJNMDQyIn0.TDC2kKFmkAsWvbsT0dMouhig7QB" get_page (sample_world ∅)).1
     = render_template (login_html (user_dict "M042" (sample_row "secret1")) None) 200
  /\ (exists k1 k2 : string,
        k1 <> k2
        /\ URLSafeSerializer.loads Reference.codec k2
             (URLSafeSerializer.dumps Reference.codec k1 (member_payload "M042"))
           = Ok (member_payload "M042")).
Proof.
  split; [vm_compute; reflexivity|]. split; [vm_compute; reflexivity|].
  split; [vm_compute; reflexivity|]. split; [vm_compute; reflexivity|].
  destruct (another_secret_reads Reference.codec (member_payload "M042"))
    as (k1 & k2 & Hne & E).
  exists k1, k2. split; [exact Hne|]. rewrite E.
  apply SerializerFacts.loads_dumps, ReferenceFacts.member_payload_reads_back.
Qed.

(* ===================================================================== *)
(** * The secure-login endpoint                                            *)
(* ===================================================================== *)

(** C3.  A token that [serializer.loads] rejects ends the request with the
    403 error page and leaves the world as it was: no login form, the session
    untouched, no call into the credential store.  With the hook that runs
    ahead of every view, the whole request changes nothing in the session but
    its permanence flag. *)
Theorem secure_login_rejects_bad_token (env : environment) (token : string)
    (e : bad_data) (req : request) (w : world) :
  App.serializer_loads env token = Err e ->
  App.secure_login env token req w
    = (render_template (error_html "Invalid or expired QR code!") 403, w)
  /\ session (App.secure_login env token req w).2 = session w
  /\ db (App.secure_login env token req w).2 = db w
  /\ new_calls w (App.secure_login env token req w).2 = []
  /\ App.serve (App.secure_login env token req) w
     = (render_template (error_html "Invalid or expired QR code!") 403,
        with_session_of (<["_permanent"%string := VBool true]> (session w)) w).
Proof.
  intros He.
  assert (E : forall w0, App.secure_login env token req w0
              = (render_template (error_html "Invalid or expired QR code!") 403, w0)).
  { intros w0. unfold App.secure_login. rewrite He. reflexivity. }
  rewrite (E w). repeat split.
  - unfold new_calls. cbn. apply drop_all.
  - unfold App.serve, App.make_session_permanent, session_set, with_session, bind.
    rewrite E. reflexivity.
Qed.

(** C3 on a string that is no token at all. *)
Lemma secure_login_rejects_bad_token_witness :
  App.serializer_loads (Reference.env None) "not-a-token" = Err BadSignature
  /\ App.secure_login (Reference.env None) "not-a-token" get_page (sample_world admin_session)
     = (render_template (error_html "Invalid or expired QR code!") 403,
        sample_world admin_session).
Proof.
  split; [vm_compute; reflexivity|].
  apply (secure_login_rejects_bad_token (Reference.env None) "not-a-token" BadSignature
           get_page (sample_world admin_session)).
  vm_compute; reflexivity.
Defined.

(** What [login] does once the member is known not to exist or to exist. *)
Lemma login_unknown (member_id : option string) (req : request) (w : world) :
  find_user (db w) member_id = None ->
  App.login member_id req w
  = (render_template (error_html "User not found! Please check your QR code.") 404,
     {| db := db w; session := session w;
        calls := calls w ++ [call_get_user_by_id member_id] |}).
Proof.
  intros Hm. unfold App.login, UserDB.get_user_by_id, bind, ret, called, get_db. cbn.
  destruct member_id as [m|]; cbn in Hm |- *; [rewrite Hm|]; reflexivity.
Qed.

Lemma login_get (m : string) (r : user_row) (req : request) (w : world) :
  users (db w) !! m = Some r -> method req = GET ->
  App.login (Some m) req w
  = (render_template (login_html (user_dict m r) None) 200,
     {| db := db w; session := ∅; calls := calls w ++ [call_get_user_by_id (Some m)] |}).
Proof.
  intros Hm Hget.
  unfold App.login, UserDB.get_user_by_id, bind, ret, called, get_db, session_clear,
    with_session. cbn.
  rewrite Hm, Hget. reflexivity.
Qed.

(** C4.  A token that decodes to a dictionary whose ['member_id'] is [m]
    is handled exactly as a direct request to [/login/m]: on GET the login
    form for [m]'s own record when [m] exists, the 404 page when not. *)
Theorem secure_login_valid_token (env : environment) (token : string)
    (data : dict (option string)) (m : string) (req : request) (w : world) :
  App.serializer_loads env token = Ok (PDict data) ->
  dict_get "member_id" data = Some (Some m) ->
  App.secure_login env token req w = App.login (Some m) req w
  /\ (forall r, users (db w) !! m = Some r -> method req = GET ->
        (App.secure_login env token req w).1
        = render_template (login_html (user_dict m r) None) 200
        /\ dict_get "member_id" (user_dict m r) = Some (Some m))
  /\ (users (db w) !! m = None ->
        (App.secure_login env token req w).1
        = render_template (error_html "User not found! Please check your QR code.") 404).
Proof.
  intros Hloads Hm.
  assert (E : App.secure_login env token req w = App.login (Some m) req w).
  { unfold App.secure_login. rewrite Hloads, Hm. reflexivity. }
  rewrite E. split; [reflexivity|]. split.
  - intros r Hr Hget. rewrite (login_get m r req w Hr Hget). split; reflexivity.
  - intros Hr. rewrite login_unknown by exact Hr. reflexivity.
Qed.

(** C10.  A correctly signed token whose payload is a dictionary without
    ['member_id'] is not answered with the 403 page: it reaches
    [login(None)], which finds no user and answers 404.  The tables and the
    session stay as they were; over the whole request the session only gets
    its permanence flag. *)
Theorem secure_login_payload_without_member_id (env : environment) (token : string)
    (data : dict (option string)) (req : request) (w : world) :
  App.serializer_loads env token = Ok (PDict data) ->
  dict_get "member_id" data = None ->
  App.secure_login env token req w
  = (render_template (error_html "User not found! Please check your QR code.") 404,
     {| db := db w; session := session w; calls := calls w ++ [call_get_user_by_id None] |})
  /\ App.serve (App.secure_login env token req) w
     = (render_template (error_html "User not found! Please check your QR code.") 404,
        {| db := db w; session := <["_permanent"%string := VBool true]> (session w);
           calls := calls w ++ [call_get_user_by_id None] |}).
Proof.
  intros Hloads Hm.
  assert (E : forall w0, App.secure_login env token req w0
              = (render_template (error_html "User not found! Please check your QR code.") 404,
                 {| db := db w0; session := session w0;
                    calls := calls w0 ++ [call_get_user_by_id None] |})).
  { intros w0. unfold App.secure_login. rewrite Hloads, Hm. apply login_unknown. reflexivity. }
  split; [apply E|].
  unfold App.serve, App.make_session_permanent, session_set, with_session, bind.
  rewrite E. reflexivity.
Qed.

(** C4 on the token of M042 under the default secret, against a table that
    has M042 and against an empty one. *)
Lemma secure_login_valid_token_witness :
  App.serializer_loads (Reference.env None)
    "eyJtZW1iZXJfaWQiOiJNMDQyIn0.TDC2kKFmkAsWvbsT0dMouhig7QA" = Ok (member_payload "M042")
  /\ dict_get "member_id" [("member_id"%string, Some "M042"%string)] = Some (Some "M042"%string)
  /\ (App.secure_login (Reference.env None)
        "eyJtZW1iZXJfaWQiOiJNMDQyIn0.TDC2kKFmkAsWvbsT0dMouhig7QA" get_page
        (sample_world admin_session)).1
     = render_template (login_html (user_dict "M042" (sample_row "secret1")) None) 200
  /\ (App.secure_login (Reference.env None)
        "eyJtZW1iZXJfaWQiOiJNMDQyIn0.TDC2kKFmkAsWvbsT0dMouhig7QA" get_page
        (with_users_of ∅ (sample_world ∅))).1
     = render_template (error_html "User not found! Please check your QR code.") 404.
Proof.
  assert (Hloads : App.serializer_loads (Reference.env None)
                     "eyJtZW1iZXJfaWQiOiJNMDQyIn0.TDC2kKFmkAsWvbsT0dMouhig7QA"
                   = Ok (member_payload "M042")) by (vm_compute; reflexivity).
  split; [exact Hloads|]. split; [reflexivity|]. split.
  - apply (secure_login_valid_token (Reference.env None) _ _ "M042" get_page
             (sample_world admin_session) Hloads eq_refl); vm_compute; reflexivity.
  - apply (secure_login_valid_token (Reference.env None) _ _ "M042" get_page
             (with_users_of ∅ (sample_world ∅)) Hloads eq_refl); vm_compute; reflexivity.
Defined.

(** C10 on the token of the empty dictionary under the default secret. *)
Lemma secure_login_payload_without_member_id_witness :
  App.serializer_dumps (Reference.env None) (PDict []) = "e30.K1jatRUkaSHel-T6Nvaj-Ry4JAQ"%string
  /\ App.serializer_loads (Reference.env None) "e30.K1jatRUkaSHel-T6Nvaj-Ry4JAQ" = Ok (PDict [])
  /\ dict_get "member_id" (@nil (string * option string)) = None
  /\ App.secure_login (Reference.env None) "e30.K1jatRUkaSHel-T6Nvaj-Ry4JAQ" get_page
       (sample_world ∅)
     = (render_template (error_html "User not found! Please check your QR code.") 404,
        {| db := db (sample_world ∅); session := session (sample_world ∅);
           calls := calls (sample_world ∅) ++ [call_get_user_by_id None] |}).
Proof.
  assert (Hloads : App.serializer_loads (Reference.env None) "e30.K1jatRUkaSHel-T6Nvaj-Ry4JAQ"
                   = Ok (PDict [])) by (vm_compute; reflexivity).
  split; [vm_compute; reflexivity|]. split; [exact Hloads|].
  split; [reflexivity|].
  exact (proj1 (secure_login_payload_without_member_id (Reference.env None)
                  "e30.K1jatRUkaSHel-T6Nvaj-Ry4JAQ" [] get_page (sample_world ∅)
                  Hloads eq_refl)).
Defined.

(* ===================================================================== *)
(** * The login page                                                       *)
(* ===================================================================== *)

Lemma new_calls_app (w : world) (d : database) (s : gmap string sval) (cs : list db_call) :
  new_calls w {| db := d; session := s; calls := calls w ++ cs |} = cs.
Proof. unfold new_calls. cbn. apply drop_app_length. Qed.

Lemma log_login_attempt_existing (m : string) (r : user_row) (ok : bool) (w : world) :
  users (db w) !! m = Some r ->
  UserDB.log_login_attempt (Some m) ok w
  = (Some tt, {| db := log_attempt (Some m) ok (db w); session := session w;
                 calls := calls w ++ [call_log_login_attempt (Some m) ok] |}).
Proof.
  intros Hm. unfold UserDB.log_login_attempt, bind, ret, called, get_db, put_db. cbn.
  rewrite bool_decide_eq_true_2; [reflexivity|].
  right. rewrite Hm. eexists; reflexivity.
Qed.

Lemma verify_password_existing (m : string) (r : user_row) (pw : string) (w : world) :
  users (db w) !! m = Some r ->
  UserDB.verify_password (Some m) pw w
  = (bool_decide (password r = Some pw),
     {| db := log_attempt (Some m) (bool_decide (password r = Some pw)) (db w);
        session := session w;
        calls := calls w ++ [call_verify_password (Some m) pw;
                             call_log_login_attempt (Some m)
                               (bool_decide (password r = Some pw))] |}).
Proof.
  intros Hm. unfold UserDB.verify_password, bind, ret, called, get_db.
  cbn -[UserDB.log_login_attempt]. rewrite Hm.
  destruct (bool_decide (password r = Some pw));
    rewrite (log_login_attempt_existing m r) by exact Hm; cbn;
    rewrite <- app_assoc; reflexivity.
Qed.

Lemma login_post_empty (m : string) (r : user_row) (req : request) (w : world) :
  users (db w) !! m = Some r -> method req = POST ->
  default ""%string (form_get "password" req) = ""%string ->
  App.login (Some m) req w
  = (render_template (login_html (user_dict m r) (Some "❌ Password is required!"%string)) 200,
     {| db := db w; session := ∅; calls := calls w ++ [call_get_user_by_id (Some m)] |}).
Proof.
  intros Hm Hpost Hpw.
  unfold App.login, UserDB.get_user_by_id, bind, ret, called, get_db, session_clear,
    with_session. cbn.
  rewrite Hm, Hpost, Hpw. reflexivity.
Qed.

Lemma login_post (m : string) (r : user_row) (pw : string) (req : request) (w : world) :
  users (db w) !! m = Some r -> method req = POST ->
  form_get "password" req = Some pw -> pw <> ""%string ->
  App.login (Some m) req w
  = if bool_decide (password r = Some pw) then
      (redirect (ep_user_profile m),
       {| db := log_attempt (Some m) true (db w); session := member_session m;
          calls := calls w ++ [call_get_user_by_id (Some m); call_verify_password (Some m) pw;
                               call_log_login_attempt (Some m) true] |})
    else
      (render_template
         (login_html (user_dict m r) (Some "❌ Invalid password! Please try again."%string)) 200,
       {| db := log_attempt (Some m) false (db w); session := ∅;
          calls := calls w ++ [call_get_user_by_id (Some m); call_verify_password (Some m) pw;
                               call_log_login_attempt (Some m) false] |}).
Proof.
  intros Hm Hpost Hpw Hne.
  unfold App.login, UserDB.get_user_by_id, bind, ret, called, get_db, session_clear,
    with_session.
  cbn -[UserDB.verify_password]. rewrite Hm, Hpost, Hpw.
  cbn -[UserDB.verify_password].
  apply String.eqb_neq in Hne. rewrite Hne.
  rewrite (verify_password_existing m r pw) by exact Hm. cbn.
  destruct (bool_decide (password r = Some pw)); cbn; rewrite <- app_assoc; reflexivity.
Qed.

(** C9.  For an existing member, [login] drops the whole session before it
    shows the form or checks a password: the outcome does not depend on the
    session the request came with, and what is left is either the empty
    session or the fresh session of that member, so an admin session or
    another member's session does not survive opening the page. *)
Theorem login_clears_session (m : string) (r : user_row) (req : request) (w : world) :
  users (db w) !! m = Some r ->
  App.login (Some m) req w = App.login (Some m) req (with_session_of ∅ w)
  /\ (session (App.login (Some m) req w).2 = ∅
      \/ session (App.login (Some m) req w).2 = member_session m)
  /\ session (App.login (Some m) req w).2 !! "is_admin"%string = None
  /\ session (App.login (Some m) req w).2 !! "admin_username"%string = None
  /\ (method req = GET ->
      App.login (Some m) req w
      = (render_template (login_html (user_dict m r) None) 200,
         {| db := db w; session := ∅; calls := calls w ++ [call_get_user_by_id (Some m)] |})).
Proof.
  intros Hm.
  assert (Hcases : session (App.login (Some m) req w).2 = ∅
                   \/ session (App.login (Some m) req w).2 = member_session m).
  { destruct (method req) eqn:Hmeth.
    - rewrite (login_get m r req w Hm Hmeth). left; reflexivity.
    - destruct (form_get "password" req) as [pw|] eqn:Hpw.
      + destruct (decide (pw = ""%string)) as [->|Hne].
        * rewrite (login_post_empty m r req w Hm Hmeth) by (rewrite Hpw; reflexivity).
          left; reflexivity.
        * rewrite (login_post m r pw req w Hm Hmeth Hpw Hne).
          destruct (bool_decide _); [right|left]; reflexivity.
      + rewrite (login_post_empty m r req w Hm Hmeth) by (rewrite Hpw; reflexivity).
        left; reflexivity. }
  split.
  { assert (Hm' : users (db (with_session_of ∅ w)) !! m = Some r) by exact Hm.
    destruct (method req) eqn:Hmeth.
    - rewrite (login_get m r req w Hm Hmeth), (login_get m r req _ Hm' Hmeth). reflexivity.
    - destruct (form_get "password" req) as [pw|] eqn:Hpw.
      + destruct (decide (pw = ""%string)) as [->|Hne].
        * rewrite (login_post_empty m r req w Hm Hmeth),
            (login_post_empty m r req _ Hm' Hmeth) by (rewrite Hpw; reflexivity).
          reflexivity.
        * rewrite (login_post m r pw req w Hm Hmeth Hpw Hne),
            (login_post m r pw req _ Hm' Hmeth Hpw Hne). reflexivity.
      + rewrite (login_post_empty m r req w Hm Hmeth),
          (login_post_empty m r req _ Hm' Hmeth) by (rewrite Hpw; reflexivity).
        reflexivity. }
  split; [exact Hcases|].
  split; [|split].
  - destruct Hcases as [-> | ->]; reflexivity.
  - destruct Hcases as [-> | ->]; reflexivity.
  - intros Hget. apply login_get; assumption.
Qed.

(** C9 on the login page of M042 opened under an admin session. *)
Lemma login_clears_session_witness :
  users (db (sample_world admin_session)) !! "M042"%string = Some (sample_row "secret1")
  /\ session (sample_world admin_session) !! "is_admin"%string = Some (VBool true)
  /\ session (App.login (Some "M042"%string) get_page (sample_world admin_session)).2 = ∅.
Proof.
  split; [vm_compute; reflexivity|]. split; [vm_compute; reflexivity|].
  destruct (login_clears_session "M042" (sample_row "secret1") get_page
              (sample_world admin_session))
    as (_ & _ & _ & _ & Hget); [vm_compute; reflexivity|].
  rewrite Hget; reflexivity.
Defined.

(** C6, as amended.  A POST to the login page of an existing member with a
    non-empty password calls [verify_password] once, which appends one row to
    [login_logs] carrying the outcome; a password equal to the stored one
    redirects to the profile with the member's session set, any other shows
    the form again with an empty session. *)
Theorem login_password_submission (m : string) (r : user_row) (pw : string)
    (req : request) (w : world) :
  users (db w) !! m = Some r -> method req = POST ->
  form_get "password" req = Some pw -> pw <> ""%string ->
  new_calls w (App.login (Some m) req w).2
    = [call_get_user_by_id (Some m); call_verify_password (Some m) pw;
       call_log_login_attempt (Some m) (bool_decide (password r = Some pw))]
  /\ db (App.login (Some m) req w).2
     = log_attempt (Some m) (bool_decide (password r = Some pw)) (db w)
  /\ (password r = Some pw ->
      (App.login (Some m) req w).1 = redirect (ep_user_profile m)
      /\ session (App.login (Some m) req w).2 = member_session m)
  /\ (password r <> Some pw ->
      (App.login (Some m) req w).1
      = render_template
          (login_html (user_dict m r) (Some "❌ Invalid password! Please try again."%string)) 200
      /\ session (App.login (Some m) req w).2 = ∅).
Proof.
  intros Hm Hpost Hpw Hne.
  rewrite (login_post m r pw req w Hm Hpost Hpw Hne).
  destruct (bool_decide (password r = Some pw)) eqn:E.
  - apply bool_decide_eq_true_1 in E. cbn [fst snd].
    rewrite new_calls_app. repeat split; try reflexivity; intros; contradiction.
  - apply bool_decide_eq_false_1 in E. cbn [fst snd].
    rewrite new_calls_app. repeat split; try reflexivity; intros; contradiction.
Qed.

(** C6, as amended, on a wrong guess for M042: verified once, logged as a
    failure, no session. *)
Lemma login_password_submission_witness :
  users (db (sample_world ∅)) !! "M042"%string = Some (sample_row "secret1")
  /\ form_get "password" (password_form "guess") = Some "guess"%string
  /\ new_calls (sample_world ∅)
       (App.login (Some "M042"%string) (password_form "guess") (sample_world ∅)).2
     = [call_get_user_by_id (Some "M042"%string);
        call_verify_password (Some "M042"%string) "guess";
        call_log_login_attempt (Some "M042"%string) false]
  /\ login_logs (db (App.login (Some "M042"%string) (password_form "guess") (sample_world ∅)).2)
     = [{| log_member_id := Some "M042"%string; login_time := "2025-06-01 12:00:00";
           success := false |}]
  /\ session (App.login (Some "M042"%string) (password_form "guess") (sample_world ∅)).2 = ∅.
Proof.
  split; [vm_compute; reflexivity|]. split; [reflexivity|].
  destruct (login_password_submission "M042" (sample_row "secret1") "guess"
              (password_form "guess") (sample_world ∅))
    as (Hcalls & Hdb & _ & Hbad); try (vm_compute; reflexivity); [discriminate|].
  destruct Hbad as [_ Hs]; [discriminate|].
  split; [exact Hcalls|]. split; [rewrite Hdb; reflexivity | exact Hs].
Defined.

(** C6 as stated fails on the empty submission, which [login] turns away
    before the credential store is asked: nothing is verified and nothing is
    logged. *)
Lemma empty_password_not_verified :
  users sample_db !! "M042"%string = Some (sample_row "secret1")
  /\ (App.login (Some "M042"%string) (password_form "") (sample_world ∅)).1
     = render_template
         (login_html (user_dict "M042" (sample_row "secret1"))
            (Some "❌ Password is required!"%string)) 200
  /\ new_calls (sample_world ∅)
       (App.login (Some "M042"%string) (password_form "") (sample_world ∅)).2
     = [call_get_user_by_id (Some "M042"%string)]
  /\ login_logs (db (App.login (Some "M042"%string) (password_form "") (sample_world ∅)).2) = [].
Proof. repeat split; vm_compute; reflexivity. Qed.

(* ===================================================================== *)
(** * The admin view of a profile                                          *)
(* ===================================================================== *)

Lemma get_user_by_id_existing (m : string) (r : user_row) (w : world) :
  users (db w) !! m = Some r ->
  UserDB.get_user_by_id (Some m) w
  = (Some (user_dict m r),
     {| db := db w; session := session w;
        calls := calls w ++ [call_get_user_by_id (Some m)] |}).
Proof.
  intros Hm. unfold UserDB.get_user_by_id, bind, ret, called, get_db. cbn.
  rewrite Hm. reflexivity.
Qed.

(** [show_profile] renders the page of the record it is given and touches
    neither the tables nor the session; the only call it may make into the
    store converts the image link. *)
Lemma show_profile_spec (env : environment) (m : string) (r : user_row) (req : request)
    (is_admin_view : bool) (w : world) :
  exists qr url img,
    App.show_profile env m (user_dict m r) req is_admin_view w
    = (render_template (user_profile_html (user_dict m r) qr url img is_admin_view) 200,
       {| db := db w; session := session w;
          calls := calls w ++
            (if nonempty (image_path r)
             then [call_convert_google_drive_url (image_path r)] else []) |}).
Proof.
  unfold App.show_profile, bind, ret. cbn -[App.generate_qr_code UserDB.convert_google_drive_url].
  destruct (nonempty (image_path r)).
  - unfold UserDB.convert_google_drive_url, bind, ret, called.
    cbn -[App.generate_qr_code].
    destruct (App.generate_qr_code env m (host_url req)) as [qr url].
    eexists _, _, _. reflexivity.
  - destruct (App.generate_qr_code env m (host_url req)) as [qr url].
    eexists _, _, _. rewrite app_nil_r. destruct w; reflexivity.
Qed.

Lemma show_profile_response (env : environment) (m : string) (user : dict (option string))
    (req : request) (is_admin_view : bool) (w1 w2 : world) :
  (App.show_profile env m user req is_admin_view w1).1
  = (App.show_profile env m user req is_admin_view w2).1.
Proof.
  unfold App.show_profile, bind, ret.
  cbn -[App.generate_qr_code UserDB.convert_google_drive_url].
  destruct (nonempty (mjoin (dict_get "image_path" user))).
  - unfold UserDB.convert_google_drive_url, bind, ret, called.
    cbn -[App.generate_qr_code].
    destruct (App.generate_qr_code env m (host_url req)). reflexivity.
  - destruct (App.generate_qr_code env m (host_url req)). reflexivity.
Qed.

(** C5.  With an admin session, [admin_view_profile] renders the profile of
    any existing member: the tables and the session are left as they were,
    the history gains the lookup (and the image-link conversion) but no
    [verify_password], and the page is the same whatever password is stored
    for the member. *)
Theorem admin_view_profile_without_password (env : environment) (m : string)
    (r : user_row) (req : request) (w : world) :
  truthy (session w !! "is_admin"%string) = true ->
  users (db w) !! m = Some r ->
  (exists qr url img,
     (App.admin_view_profile env m req w).1
     = render_template (user_profile_html (user_dict m r) qr url img true) 200)
  /\ db (App.admin_view_profile env m req w).2 = db w
  /\ session (App.admin_view_profile env m req w).2 = session w
  /\ new_calls w (App.admin_view_profile env m req w).2
     = call_get_user_by_id (Some m) ::
       (if nonempty (image_path r) then [call_convert_google_drive_url (image_path r)] else [])
  /\ forallb (fun c => negb (is_verify_password c))
       (new_calls w (App.admin_view_profile env m req w).2) = true
  /\ (forall p u,
        (App.admin_view_profile env m req
           (with_users_of (<[m := set_password p u r]> (users (db w))) w)).1
        = (App.admin_view_profile env m req w).1).
Proof.
  intros Hadmin Hm.
  assert (Hrun : forall w0 r0, session w0 = session w -> users (db w0) !! m = Some r0 ->
            App.admin_view_profile env m req w0
            = App.show_profile env m (user_dict m r0) req true
                {| db := db w0; session := session w0;
                   calls := calls w0 ++ [call_get_user_by_id (Some m)] |}).
  { intros w0 r0 Hs Hr0. unfold App.admin_view_profile, App.admin_required, bind, session_get.
    rewrite Hs, Hadmin, <- Hs. rewrite (get_user_by_id_existing m r0 w0 Hr0). reflexivity. }
  assert (Hsame : forall p u,
            (App.admin_view_profile env m req
               (with_users_of (<[m := set_password p u r]> (users (db w))) w)).1
            = (App.admin_view_profile env m req w).1).
  { intros p u.
    rewrite (Hrun (with_users_of (<[m := set_password p u r]> (users (db w))) w)
               (set_password p u r) eq_refl) by (cbn; apply lookup_insert_eq).
    rewrite (Hrun w r eq_refl Hm).
    change (user_dict m (set_password p u r)) with (user_dict m r).
    apply show_profile_response. }
  revert Hsame. rewrite (Hrun w r eq_refl Hm).
  destruct (show_profile_spec env m r req true
              {| db := db w; session := session w;
                 calls := calls w ++ [call_get_user_by_id (Some m)] |})
    as (qr & url & img & Hshow).
  rewrite Hshow. cbn [fst snd db session calls]. intros Hsame.
  split; [eexists _, _, _; reflexivity|].
  split; [reflexivity|]. split; [reflexivity|].
  assert (Hcalls : new_calls w
            {| db := db w; session := session w;
               calls := (calls w ++ [call_get_user_by_id (Some m)]) ++
                 (if nonempty (image_path r)
                  then [call_convert_google_drive_url (image_path r)] else []) |}
          = call_get_user_by_id (Some m) ::
            (if nonempty (image_path r)
             then [call_convert_google_drive_url (image_path r)] else [])).
  { rewrite <- app_assoc. apply new_calls_app. }
  rewrite Hcalls. split; [reflexivity|]. split; [|exact Hsame].
  destruct (nonempty (image_path r)); reflexivity.
Qed.

(** C5 on M042's profile opened under an admin session. *)
Lemma admin_view_profile_without_password_witness :
  truthy (session (sample_world admin_session) !! "is_admin"%string) = true
  /\ users (db (sample_world admin_session)) !! "M042"%string = Some (sample_row "secret1")
  /\ new_calls (sample_world admin_session)
       (App.admin_view_profile (Reference.env None) "M042" get_page
          (sample_world admin_session)).2
     = [call_get_user_by_id (Some "M042"%string);
        call_convert_google_drive_url (Some "https://drive.google.com/file/d/1AbC/view"%string)]
  /\ db (App.admin_view_profile (Reference.env None) "M042" get_page
           (sample_world admin_session)).2 = sample_db
  /\ session (App.admin_view_profile (Reference.env None) "M042" get_page
                (sample_world admin_session)).2 = admin_session.
Proof.
  split; [vm_compute; reflexivity|]. split; [vm_compute; reflexivity|].
  destruct (admin_view_profile_without_password (Reference.env None) "M042"
              (sample_row "secret1") get_page (sample_world admin_session))
    as (_ & Hdb & Hs & Hcalls & _); try (vm_compute; reflexivity).
  split; [exact Hcalls|]. split; [exact Hdb | exact Hs].
Defined.

(* ===================================================================== *)
(** * Changing one's own password                                         *)
(* ===================================================================== *)

Lemma db_change_own_password (m : string) (r : user_row) (cur new : string) (w : world) :
  users (db w) !! m = Some r ->
  UserDB.change_own_password (Some m) cur new w
  = if bool_decide (password r = Some cur) then
      ((true, "Password changed successfully!"%string),
       {| db := password_changed m r new (log_attempt (Some m) true (db w));
          session := session w;
          calls := calls w ++ [call_change_own_password (Some m) cur new;
                               call_verify_password (Some m) cur;
                               call_log_login_attempt (Some m) true;
                               call_change_user_password (Some m) new] |})
    else
      ((false, "Current password is incorrect!"%string),
       {| db := log_attempt (Some m) false (db w); session := session w;
          calls := calls w ++ [call_change_own_password (Some m) cur new;
                               call_verify_password (Some m) cur;
                               call_log_login_attempt (Some m) false] |}).
Proof.
  intros Hm. unfold UserDB.change_own_password, bind, called.
  cbn -[UserDB.verify_password UserDB.change_user_password].
  rewrite (verify_password_existing m r cur) by exact Hm.
  destruct (bool_decide (password r = Some cur)).
  - unfold UserDB.change_user_password, bind, ret, called, get_db, put_db. cbn.
    rewrite Hm. cbn. rewrite <- !app_assoc. reflexivity.
  - unfold ret. cbn. rewrite <- !app_assoc. reflexivity.
Qed.

(** Whatever the arguments, the store changes a row only after the current
    password has been found equal to the stored one. *)
Lemma db_change_own_password_only_if_verified (member_id : option string)
    (cur new : string) (w : world) :
  users (db (UserDB.change_own_password member_id cur new w).2) <> users (db w) ->
  exists m r, member_id = Some m /\ users (db w) !! m = Some r /\ password r = Some cur.
Proof.
  destruct member_id as [m|].
  - destruct (users (db w) !! m) as [r|] eqn:Hm.
    + rewrite (db_change_own_password m r cur new w Hm).
      destruct (bool_decide (password r = Some cur)) eqn:E.
      * intros _. exists m, r. apply bool_decide_eq_true_1 in E. auto.
      * cbn. intros H. contradiction H. reflexivity.
    + unfold UserDB.change_own_password, UserDB.verify_password, UserDB.log_login_attempt,
        bind, ret, called, get_db, put_db. cbn. rewrite Hm. cbn.
      rewrite bool_decide_eq_false_2.
      * cbn. intros H. contradiction H. reflexivity.
      * intros [H|[x H]]; [discriminate H|]. rewrite Hm in H. discriminate H.
  - unfold UserDB.change_own_password, UserDB.verify_password, UserDB.log_login_attempt,
      bind, ret, called, get_db, put_db. cbn.
    intros H. contradiction H. reflexivity.
Qed.

Lemma flash_db (message category : string) (w : world) : db (flash message category w).2 = db w.
Proof. reflexivity. Qed.

(** The same for the handler, on any request and any session. *)
Lemma change_own_password_only_if_verified (req : request) (w : world) :
  users (db (App.change_own_password req w).2) <> users (db w) ->
  exists m r cur,
    session w !! "member_id"%string = Some (VStr m) /\ users (db w) !! m = Some r
    /\ form_get "current_password" req = Some cur /\ password r = Some cur.
Proof.
  unfold App.change_own_password, bind, session_get.
  destruct (truthy (session w !! "logged_in"%string)); cbn [negb];
    [|intros H; contradiction H; reflexivity].
  destruct (nonempty (form_get "current_password" req) && nonempty (form_get "new_password" req)
            && nonempty (form_get "confirm_password" req)) eqn:Hall; cbn [negb];
    [|intros H; contradiction H; reflexivity].
  destruct (bool_decide (form_get "new_password" req = form_get "confirm_password" req));
    cbn [negb]; [|intros H; contradiction H; reflexivity].
  destruct (decide _); [intros H; contradiction H; reflexivity|].
  destruct (UserDB.change_own_password (str_of (session w !! "member_id"%string))
              (default ""%string (form_get "current_password" req))
              (default ""%string (form_get "new_password" req)) w) as [[ok msg] w1] eqn:E.
  assert (Hdb : users (db w1) <> users (db w) ->
                exists m r, str_of (session w !! "member_id"%string) = Some m
                            /\ users (db w) !! m = Some r
                            /\ password r = Some (default ""%string (form_get "current_password" req))).
  { intros H. apply (db_change_own_password_only_if_verified _ _
                       (default ""%string (form_get "new_password" req)) w).
    rewrite E. exact H. }
  intros H.
  assert (Hw1 : users (db w1) <> users (db w)).
  { destruct ok; exact H. }
  destruct (Hdb Hw1) as (m & r & Hs & Hm & Hp).
  destruct (form_get "current_password" req) as [cur|] eqn:Hcur; [|discriminate Hall].
  exists m, r, cur. repeat split; try assumption.
  destruct (session w !! "member_id"%string) as [[| |s|]|]; try discriminate Hs.
  injection Hs as ->. reflexivity.
Qed.

Lemma py_len_nonempty (s : string) : (0 < py_len s)%nat -> s <> ""%string.
Proof. intros H ->. cbn in H. lia. Qed.

(** What the handler does with a well-formed form sent under a member's
    session. *)
Lemma change_own_password_run (m : string) (r : user_row) (cur new : string)
    (req : request) (w : world) :
  truthy (session w !! "logged_in"%string) = true ->
  session w !! "member_id"%string = Some (VStr m) ->
  users (db w) !! m = Some r ->
  form_get "current_password" req = Some cur ->
  form_get "new_password" req = Some new ->
  form_get "confirm_password" req = Some new ->
  cur <> ""%string -> (6 <= py_len new)%nat ->
  App.change_own_password req w
  = if bool_decide (password r = Some cur) then
      (redirect (ep_login m),
       {| db := password_changed m r new (log_attempt (Some m) true (db w));
          session := {["_flashes"%string :=
                         VFlashes [("info", "🔒 Please login with your new password")]%string]};
          calls := calls w ++ [call_change_own_password (Some m) cur new;
                               call_verify_password (Some m) cur;
                               call_log_login_attempt (Some m) true;
                               call_change_user_password (Some m) new] |})
    else
      (redirect (ep_user_profile m),
       (flash "❌ Current password is incorrect!" "error"
          {| db := log_attempt (Some m) false (db w); session := session w;
             calls := calls w ++ [call_change_own_password (Some m) cur new;
                                  call_verify_password (Some m) cur;
                                  call_log_login_attempt (Some m) false] |}).2).
Proof.
  intros Hlogged Hsid Hm Hcur Hnew Hconf Hne Hlen.
  assert (Hnew_ne : new <> ""%string) by (apply py_len_nonempty; lia).
  unfold App.change_own_password. cbv beta iota zeta delta [bind session_get].
  rewrite Hlogged. cbv beta iota zeta delta [negb].
  rewrite Hsid, Hcur, Hnew, Hconf. cbn [negb str_of nonempty default].
  apply String.eqb_neq in Hne. apply String.eqb_neq in Hnew_ne.
  rewrite Hne, Hnew_ne. cbn [negb andb].
  rewrite bool_decide_eq_true_2 by reflexivity. cbn [negb].
  unfold id.
  destruct (decide (py_len new < 6)%nat) as [Hlt|_]; [lia|].
  rewrite (db_change_own_password m r cur new w Hm).
  destruct (bool_decide (password r = Some cur)); reflexivity.
Qed.

(** C7, as amended.  Under a member's session, with a well-formed form, the
    change goes through exactly when the current password supplied equals the
    stored one.  On a mismatch the table of users is left as it was.  On
    success the stored password becomes the new one and the session loses
    its login (it only keeps the notice to flash), after which a login with
    the new password succeeds, and a login with the old password fails
    provided the new password differs from it. *)
Theorem change_own_password_spec (m : string) (r : user_row) (cur new : string)
    (req : request) (w : world) :
  truthy (session w !! "logged_in"%string) = true ->
  session w !! "member_id"%string = Some (VStr m) ->
  users (db w) !! m = Some r ->
  form_get "current_password" req = Some cur ->
  form_get "new_password" req = Some new ->
  form_get "confirm_password" req = Some new ->
  cur <> ""%string -> (6 <= py_len new)%nat ->
  ((App.change_own_password req w).1 = redirect (ep_login m) <-> password r = Some cur)
  /\ (password r <> Some cur ->
      (App.change_own_password req w).1 = redirect (ep_user_profile m)
      /\ users (db (App.change_own_password req w).2) = users (db w))
  /\ (password r = Some cur ->
      users (db (App.change_own_password req w).2)
        = <[m := set_password (Some new) (Some (CURRENT_TIMESTAMP (db w))) r]> (users (db w))
      /\ session (App.change_own_password req w).2 !! "logged_in"%string = None
      /\ session (App.change_own_password req w).2 !! "member_id"%string = None
      /\ (forall req', method req' = POST -> form_get "password" req' = Some new ->
            (App.login (Some m) req' (App.change_own_password req w).2).1
            = redirect (ep_user_profile m)
            /\ session (App.login (Some m) req' (App.change_own_password req w).2).2
               = member_session m)
      /\ (cur <> new ->
          forall req', method req' = POST -> form_get "password" req' = Some cur ->
            (App.login (Some m) req' (App.change_own_password req w).2).1
            = render_template
                (login_html (user_dict m r)
                   (Some "❌ Invalid password! Please try again."%string)) 200
            /\ session (App.login (Some m) req' (App.change_own_password req w).2).2 = ∅)).
Proof.
  intros Hlogged Hsid Hm Hcur Hnew Hconf Hne Hlen.
  assert (Hnew_ne : new <> ""%string) by (apply py_len_nonempty; lia).
  rewrite (change_own_password_run m r cur new req w) by assumption.
  destruct (bool_decide (password r = Some cur)) eqn:E.
  - apply bool_decide_eq_true_1 in E. cbn [fst snd].
    split; [split; auto|]. split; [intros H; contradiction|].
    intros _.
    set (w1 := {| db := password_changed m r new (log_attempt (Some m) true (db w));
                  session := _; calls := _ |}).
    assert (Hm1 : users (db w1) !! m
                  = Some (set_password (Some new) (Some (CURRENT_TIMESTAMP (db w))) r)).
    { cbn. apply lookup_insert_eq. }
    split; [reflexivity|]. split; [reflexivity|]. split; [reflexivity|]. split.
    + intros req' Hpost Hpw.
      rewrite (login_post m _ new req' w1 Hm1 Hpost Hpw Hnew_ne).
      rewrite bool_decide_eq_true_2 by reflexivity. split; reflexivity.
    + intros Hdiff req' Hpost Hpw.
      rewrite (login_post m _ cur req' w1 Hm1 Hpost Hpw Hne).
      rewrite bool_decide_eq_false_2.
      * split; reflexivity.
      * cbn. intros [= H]. apply Hdiff. symmetry. exact H.
  - apply bool_decide_eq_false_1 in E. cbn [fst snd].
    split; [split; [discriminate | intros H; contradiction]|].
    split; [intros _; split; reflexivity|].
    intros H; contradiction.
Qed.

(** C7, as amended, for M042 going from secret1 to s3cret-2. *)
Lemma change_own_password_spec_witness :
  truthy (session (sample_world (member_session "M042")) !! "logged_in"%string) = true
  /\ session (sample_world (member_session "M042")) !! "member_id"%string
     = Some (VStr "M042")
  /\ users (db (sample_world (member_session "M042"))) !! "M042"%string
     = Some (sample_row "secret1")
  /\ (6 <= py_len "s3cret-2")%nat
  /\ (App.change_own_password (change_form "secret1" "s3cret-2")
        (sample_world (member_session "M042"))).1 = redirect (ep_login "M042")
  /\ (App.login (Some "M042"%string) (password_form "s3cret-2")
        (App.change_own_password (change_form "secret1" "s3cret-2")
           (sample_world (member_session "M042"))).2).1
     = redirect (ep_user_profile "M042")
  /\ session (App.login (Some "M042"%string) (password_form "secret1")
                (App.change_own_password (change_form "secret1" "s3cret-2")
                   (sample_world (member_session "M042"))).2).2 = ∅.
Proof.
  split; [vm_compute; reflexivity|]. split; [vm_compute; reflexivity|].
  split; [vm_compute; reflexivity|]. split; [vm_compute; lia|].
  destruct (change_own_password_spec "M042" (sample_row "secret1") "secret1" "s3cret-2"
              (change_form "secret1" "s3cret-2") (sample_world (member_session "M042")))
    as (Hiff & _ & Hok); try (vm_compute; reflexivity); [discriminate | vm_compute; lia |].
  destruct (Hok eq_refl) as (_ & _ & _ & Hnew & Hold).
  split; [apply Hiff; reflexivity|]. split.
  - apply (Hnew (password_form "s3cret-2")); reflexivity.
  - apply (Hold ltac:(discriminate) (password_form "secret1")); reflexivity.
Defined.

(** C7 as stated fails when the new password is the old one, which the
    handler accepts: the change succeeds and a login with the old password
    succeeds as well. *)
Lemma same_password_change_keeps_old_login :
  (App.change_own_password (change_form "secret1" "secret1")
     (sample_world (member_session "M042"))).1 = redirect (ep_login "M042")
  /\ (password <$> users (db (App.change_own_password (change_form "secret1" "secret1")
                                (sample_world (member_session "M042"))).2) !! "M042"%string)
     = Some (Some "secret1"%string)
  /\ (App.login (Some "M042"%string) (password_form "secret1")
        (App.change_own_password (change_form "secret1" "secret1")
           (sample_world (member_session "M042"))).2).1
     = redirect (ep_user_profile "M042")
  /\ session (App.login (Some "M042"%string) (password_form "secret1")
                (App.change_own_password (change_form "secret1" "secret1")
                   (sample_world (member_session "M042"))).2).2
     = member_session "M042".
Proof. repeat split; vm_compute; reflexivity. Qed.

(* ===================================================================== *)
(** * Bulk updates                                                         *)
(* ===================================================================== *)

Module BulkFacts.
Section with_datetime.
Context (one_year_later : string -> option string) (numeric_affinity : string -> string).

Lemma set_column_None field v r :
  set_column numeric_affinity field v r = None <-> field = "name"%string /\ v = None.
Proof.
  unfold set_column.
  destruct (String.eqb field "name") eqn:E.
  - apply String.eqb_eq in E. destruct v; split; intros H; try discriminate H; auto.
    destruct H as [_ H]; discriminate H.
  - apply String.eqb_neq in E.
    repeat (destruct (String.eqb field _);
            [split; [discriminate | intros [H _]; contradiction]|]).
    split; [discriminate | intros [H _]; contradiction].
Qed.

Lemma apply_set_clause_None sets r :
  apply_set_clause numeric_affinity sets r = None <-> ("name"%string, None) ∈ sets.
Proof.
  revert r. induction sets as [|[field v] sets IH]; intros r; cbn.
  - split; [discriminate | intros H; inversion H].
  - destruct (set_column numeric_affinity field v r) as [r'|] eqn:E.
    + rewrite IH, elem_of_cons. split; [auto|].
      intros [[= <- <-]|H]; [|exact H].
      assert (set_column numeric_affinity "name" None r = None) by (apply set_column_None; auto).
      congruence.
    + apply set_column_None in E as [-> ->]. split; [intros _; left|reflexivity].
Qed.

Lemma set_clause_null_name d member_id update_data :
  ("name"%string, None) ∈ UserDB.set_clause one_year_later d member_id update_data
  <-> sets_null_name update_data.
Proof.
  unfold UserDB.set_clause, sets_null_name.
  rewrite !elem_of_app, list_elem_of_filter. split.
  - intros [[_ H]|[H|H]]; [exact H| |].
    + destruct (dict_get "membership_type" update_data) as [mt|]; [|inversion H].
      destruct (bool_decide _).
      * apply list_elem_of_singleton in H. discriminate H.
      * destruct (users d !! member_id ≫= membership_joining_date) as [j|]; [|inversion H].
        destruct (String.eqb j ""); [inversion H|].
        destruct (one_year_later j); [|inversion H].
        apply list_elem_of_singleton in H. discriminate H.
    + apply list_elem_of_singleton in H. discriminate H.
  - intros H. left. split; [|exact H].
    apply bool_decide_pack. cbn. unfold UserDB.updatable. apply list_elem_of_here.
Qed.

Lemma update_fails_iff d member_id update_data r :
  apply_set_clause numeric_affinity (UserDB.set_clause one_year_later d member_id update_data) r = None
  <-> sets_null_name update_data.
Proof. rewrite apply_set_clause_None. apply set_clause_null_name. Qed.

(** The SET clause of a record reads the tables only through the record's
    own row and the clock. *)
Lemma set_clause_local d1 d2 member_id update_data :
  users d1 !! member_id = users d2 !! member_id ->
  CURRENT_TIMESTAMP d1 = CURRENT_TIMESTAMP d2 ->
  UserDB.set_clause one_year_later d1 member_id update_data
  = UserDB.set_clause one_year_later d2 member_id update_data.
Proof. intros Hu Ht. unfold UserDB.set_clause. rewrite Hu, Ht. reflexivity. Qed.

(** One turn of the loop. *)
Lemma update_one_spec member_id update_data d n errors :
  let res := UserDB.update_one one_year_later numeric_affinity member_id update_data (d, n, errors) in
  res.1.2 = (n + if decide (matched d (member_id, update_data)) then 1 else 0)%nat
  /\ res.2 = errors ++ (if decide (failing d (member_id, update_data))
                        then [constraint_error member_id] else [])
  /\ login_logs res.1.1 = login_logs d
  /\ CURRENT_TIMESTAMP res.1.1 = CURRENT_TIMESTAMP d
  /\ users res.1.1 !! member_id
     = updated_row one_year_later numeric_affinity d member_id update_data <$> users d !! member_id
  /\ (forall m, m <> member_id -> users res.1.1 !! m = users d !! m).
Proof.
  unfold UserDB.update_one. cbv zeta.
  destruct (users d !! member_id) as [r|] eqn:Hm.
  - unfold updated_row.
    destruct (apply_set_clause _ _ r) as [r'|] eqn:E.
    + assert (Hok : ~ sets_null_name update_data).
      { rewrite <- (update_fails_iff d member_id update_data r), E. discriminate. }
      rewrite decide_True by (split; [cbn; rewrite Hm; eauto | exact Hok]).
      rewrite decide_False by (intros [_ H]; contradiction).
      cbn. rewrite app_nil_r, lookup_insert_eq.
      repeat split; try reflexivity; try lia.
      * rewrite E. reflexivity.
      * intros m Hne. apply lookup_insert_ne. congruence.
    + assert (Hbad : sets_null_name update_data).
      { rewrite <- (update_fails_iff d member_id update_data r). exact E. }
      rewrite decide_False by (intros [_ H]; contradiction).
      rewrite decide_True by (split; [cbn; rewrite Hm; eauto | exact Hbad]).
      cbn. rewrite Hm, E. repeat split; try reflexivity; lia.
  - rewrite decide_False by (intros [[x H] _]; cbn in H; rewrite Hm in H; discriminate H).
    rewrite decide_False by (intros [[x H] _]; cbn in H; rewrite Hm in H; discriminate H).
    cbn. rewrite app_nil_r, Hm. repeat split; try reflexivity; lia.
Qed.

Lemma filter_matched_ext d1 d2 (l : dict (dict (option string))) :
  (forall m, is_Some (users d1 !! m) <-> is_Some (users d2 !! m)) ->
  filter (matched d1) l = filter (matched d2) l
  /\ filter (failing d1) l = filter (failing d2) l.
Proof.
  intros H. split; apply list_filter_iff; intros mu; unfold matched, failing;
    rewrite H; reflexivity.
Qed.

Lemma filter_ext_Forall {A} (P Q : A -> Prop) `{!forall x, Decision (P x)}
    `{!forall x, Decision (Q x)} (l : list A) :
  Forall (fun x => P x <-> Q x) l -> filter P l = filter Q l.
Proof.
  induction 1 as [|x l Hx _ IH]; [reflexivity|].
  rewrite !filter_cons, IH.
  destruct (decide (P x)), (decide (Q x)); tauto.
Qed.

(** The whole loop. *)
Lemma update_all_spec updates : forall d n errors,
  let res := UserDB.update_all one_year_later numeric_affinity updates (d, n, errors) in
  res.1.2 = (n + length (filter (matched d) updates))%nat
  /\ res.2 = errors ++ (constraint_error <$> (filter (failing d) updates).*1)
  /\ login_logs res.1.1 = login_logs d
  /\ CURRENT_TIMESTAMP res.1.1 = CURRENT_TIMESTAMP d
  /\ (forall m, is_Some (users res.1.1 !! m) <-> is_Some (users d !! m))
  /\ (forall m, m ∉ updates.*1 -> users res.1.1 !! m = users d !! m)
  /\ (NoDup updates.*1 -> forall m u, (m, u) ∈ updates ->
        users res.1.1 !! m = updated_row one_year_later numeric_affinity d m u <$> users d !! m).
Proof.
  induction updates as [|[m0 u0] rest IH]; intros d n errors.
  - cbn. rewrite app_nil_r. repeat split; try reflexivity; try lia; auto.
    intros _ m u H. inversion H.
  - cbn [UserDB.update_all].
    destruct (UserDB.update_one one_year_later numeric_affinity m0 u0 (d, n, errors)) as [[d1 n1] errors1] eqn:E1.
    pose proof (update_one_spec m0 u0 d n errors) as H1. rewrite E1 in H1.
    cbn [fst snd] in H1. destruct H1 as (Hn1 & He1 & Hl1 & Ht1 & Hm0 & Hother).
    assert (Hdom1 : forall m, is_Some (users d1 !! m) <-> is_Some (users d !! m)).
    { intros m. destruct (decide (m = m0)) as [->|Hne].
      - rewrite Hm0, fmap_is_Some. reflexivity.
      - rewrite (Hother m Hne). reflexivity. }
    specialize (IH d1 n1 errors1). cbn zeta in IH.
    destruct IH as (Hn & He & Hl & Ht & Hdom & Hout & Hin).
    destruct (filter_matched_ext d1 d rest Hdom1) as [Fm Ff].
    rewrite Fm in Hn. rewrite Ff in He.
    cbn zeta. rewrite !filter_cons.
    split; [|split; [|split; [|split; [|split; [|split]]]]].
    + rewrite Hn, Hn1. destruct (decide (matched d (m0, u0))); cbn; lia.
    + rewrite He, He1. destruct (decide (failing d (m0, u0))); cbn;
        rewrite <- app_assoc; reflexivity.
    + congruence.
    + congruence.
    + intros m. rewrite Hdom. apply Hdom1.
    + intros m Hm. cbn in Hm. apply not_elem_of_cons in Hm as [Hne Hm].
      rewrite (Hout m Hm). apply Hother, Hne.
    + intros Hnd m u Hmu. cbn in Hnd. apply NoDup_cons in Hnd as [Hm0' Hnd].
      apply elem_of_cons in Hmu as [[= -> ->]|Hmu].
      * rewrite (Hout m0 Hm0'). exact Hm0.
      * assert (Hne : m <> m0).
        { intros ->. apply Hm0'. apply list_elem_of_fmap. exists (m0, u). auto. }
        rewrite (Hin Hnd m u Hmu), (Hother m Hne).
        unfold updated_row.
        rewrite (set_clause_local d1 d m u (Hother m Hne) Ht1). reflexivity.
Qed.

End with_datetime.
End BulkFacts.

(** C8, as amended.  [bulk_update_users] treats the records one by one:
    [success_count] is the number of records whose identifier has a row and
    whose UPDATE goes through, [errors] holds one message for each record
    whose UPDATE raises (NULL for the NOT NULL column [name]) and nothing
    else, so an identifier without a row is neither counted nor reported;
    rows of identifiers that are not listed stay as they were, and, the keys
    of the dictionary being distinct, every listed row ends as its own
    record's assignments make it, a failing record leaving its row untouched
    and the others' updates in place; a text assigned to one of the three
    [DATE] columns is stored with the numeric affinity of the column, a text
    assigned to another column as it is.  When no record assigns NULL to [name],
    as when [membership_type] is set to [lifetime], [errors] is empty and
    [success_count] counts the identifiers that have a row. *)
Theorem bulk_update_users_spec (one_year_later : string -> option string)
    (numeric_affinity : string -> string)
    (updates : dict (dict (option string))) (w : world) :
  (UserDB.bulk_update_users one_year_later numeric_affinity updates w).1.1
    = length (filter (matched (db w)) updates)
  /\ (UserDB.bulk_update_users one_year_later numeric_affinity updates w).1.2
     = (constraint_error <$> (filter (failing (db w)) updates).*1)
  /\ (forall m, m ∉ updates.*1 ->
        users (db (UserDB.bulk_update_users one_year_later numeric_affinity updates w).2) !! m
        = users (db w) !! m)
  /\ (NoDup updates.*1 -> forall m u, (m, u) ∈ updates ->
        users (db (UserDB.bulk_update_users one_year_later numeric_affinity updates w).2) !! m
        = updated_row one_year_later numeric_affinity (db w) m u <$> users (db w) !! m)
  /\ (forall m u r, sets_null_name u -> updated_row one_year_later numeric_affinity (db w) m u r = r)
  /\ (forall m v r,
        date_of_birth (updated_row one_year_later numeric_affinity (db w) m
                         [("date_of_birth"%string, Some v)] r)
        = Some (numeric_affinity v)
        /\ membership_joining_date
             (updated_row one_year_later numeric_affinity (db w) m
                [("membership_joining_date"%string, Some v)] r)
           = Some (numeric_affinity v)
        /\ membership_renewal_date
             (updated_row one_year_later numeric_affinity (db w) m
                [("membership_renewal_date"%string, Some v)] r)
           = Some (numeric_affinity v)
        /\ address (updated_row one_year_later numeric_affinity (db w) m
                      [("address"%string, Some v)] r)
           = Some v)
  /\ (Forall (fun mu => ~ sets_null_name mu.2) updates ->
        (UserDB.bulk_update_users one_year_later numeric_affinity updates w).1.2 = []
        /\ (UserDB.bulk_update_users one_year_later numeric_affinity updates w).1.1
           = length (filter (fun mu => is_Some (users (db w) !! mu.1)) updates)).
Proof.
  unfold UserDB.bulk_update_users, bind, ret, called, get_db, put_db. cbn [db session calls].
  pose proof (BulkFacts.update_all_spec one_year_later numeric_affinity updates (db w) 0%nat []) as H.
  cbv zeta in H.
  destruct (UserDB.update_all one_year_later numeric_affinity updates (db w, 0%nat, [])) as [[d' n] errors].
  cbn [fst snd db] in H |- *.
  destruct H as (Hn & He & _ & _ & _ & Hout & Hin).
  split; [exact Hn|]. split; [exact He|]. split; [exact Hout|]. split; [exact Hin|]. split.
  - intros m u r Hnull. unfold updated_row.
    rewrite (proj2 (BulkFacts.update_fails_iff one_year_later numeric_affinity (db w) m u r) Hnull).
    reflexivity.
  - split; [intros m v r; repeat split; reflexivity|].
    intros Hall.
    assert (Hf : filter (failing (db w)) updates = []).
    { rewrite (BulkFacts.filter_ext_Forall (failing (db w)) (fun _ => False)).
      - clear. induction updates as [|x l IH]; [reflexivity|].
        rewrite filter_cons_False by (intros []). exact IH.
      - eapply Forall_impl; [exact Hall|].
        intros mu Hok. unfold failing. cbv beta in *. tauto. }
    split.
    + rewrite He, Hf. reflexivity.
    + rewrite Hn. cbn [Nat.add]. f_equal. apply BulkFacts.filter_ext_Forall.
      eapply Forall_impl; [exact Hall|].
      intros mu Hok. unfold matched. cbv beta in *. tauto.
Qed.

(** C8, as amended, on three records: M042 is updated, the unknown M404 is
    passed over, and M043's record fails without touching its row or M042's
    update. *)
Lemma bulk_update_users_spec_witness :
  NoDup sample_updates.*1
  /\ (UserDB.bulk_update_users Reference.one_year_later Reference.numeric_affinity sample_updates
        (sample_world admin_session)).1
     = (1%nat, ["Error updating M043: NOT NULL constraint failed: users.name"%string])
  /\ (membership_renewal_date <$>
        users (db (UserDB.bulk_update_users Reference.one_year_later Reference.numeric_affinity sample_updates
                     (sample_world admin_session)).2) !! "M042"%string)
     = Some (Some "2099-12-31"%string)
  /\ users (db (UserDB.bulk_update_users Reference.one_year_later Reference.numeric_affinity sample_updates
                  (sample_world admin_session)).2) !! "M043"%string
     = Some (sample_row "123456")
  /\ users (db (UserDB.bulk_update_users Reference.one_year_later Reference.numeric_affinity sample_updates
                  (sample_world admin_session)).2) !! "M404"%string = None.
Proof.
  assert (Hnd : NoDup sample_updates.*1) by (apply (bool_decide_unpack _); vm_compute; exact I).
  destruct (bulk_update_users_spec Reference.one_year_later Reference.numeric_affinity sample_updates
              (sample_world admin_session))
    as (Hn & He & _ & Hin & _).
  split; [exact Hnd|]. split; [|split; [|split]].
  - apply injective_projections; [rewrite Hn | rewrite He]; vm_compute; reflexivity.
  - rewrite (Hin Hnd "M042"%string [("membership_type", Some "lifetime")]%string)
      by (apply (bool_decide_unpack _); vm_compute; exact I).
    vm_compute. reflexivity.
  - rewrite (Hin Hnd "M043"%string [("name", None); ("phone", Some "555-0100")]%string)
      by (apply (bool_decide_unpack _); vm_compute; exact I).
    vm_compute. reflexivity.
  - rewrite (Hin Hnd "M404"%string [("membership_type", Some "lifetime")]%string)
      by (apply (bool_decide_unpack _); vm_compute; exact I).
    vm_compute. reflexivity.
Defined.

(** C8 as stated fails on the identifier that has no row: setting
    [membership_type] to [lifetime] for M042, M043 and the unknown M404
    counts two updates and returns no error at all, and the handler flashes
    the count and nothing else. *)
Lemma unmatched_identifier_not_reported :
  users sample_db !! "M404"%string = None
  /\ (UserDB.bulk_update_users Reference.one_year_later Reference.numeric_affinity (lifetime ["M042"; "M043"; "M404"]%string)
        (sample_world admin_session)).1 = (2%nat, [])
  /\ new_calls (sample_world admin_session)
       (App.admin_bulk_edit (Reference.env None) Reference.numeric_affinity
          Reference.order_by_name
          (bulk_form ["M042"; "M043"; "M404"]%string "membership_type" "lifetime")
          (sample_world admin_session)).2
     = [call_bulk_update_users (lifetime ["M042"; "M043"; "M404"]%string)]
  /\ session (App.admin_bulk_edit (Reference.env None) Reference.numeric_affinity
          Reference.order_by_name
                (bulk_form ["M042"; "M043"; "M404"]%string "membership_type" "lifetime")
                (sample_world admin_session)).2 !! "_flashes"%string
     = Some (VFlashes [("success", "✅ Successfully updated 2 users!")]%string).
Proof. repeat split; vm_compute; reflexivity. Qed.

(* ===================================================================== *)
(** * Properties of user management, the search and the other pages *)


(* ===================================================================== *)
(** * The credential store beyond the logins                               *)
(* ===================================================================== *)

Lemma verify_password_unknown (m : string) (pw : string) (w : world) :
  users (db w) !! m = None ->
  UserDB.verify_password (Some m) pw w
  = (false, {| db := db w; session := session w;
               calls := calls w ++ [call_verify_password (Some m) pw;
                                    call_log_login_attempt (Some m) false] |}).
Proof.
  intros Hm. unfold UserDB.verify_password, UserDB.log_login_attempt,
    bind, ret, called, get_db, put_db.
  cbn. rewrite Hm. cbn.
  rewrite bool_decide_eq_false_2.
  - cbn. rewrite <- app_assoc. reflexivity.
  - intros [H|[x H]]; [discriminate H|]. rewrite Hm in H. discriminate H.
Qed.

Lemma verify_password_null (pw : string) (w : world) :
  UserDB.verify_password None pw w
  = (false, {| db := log_attempt None false (db w); session := session w;
               calls := calls w ++ [call_verify_password None pw;
                                    call_log_login_attempt None false] |}).
Proof.
  unfold UserDB.verify_password, UserDB.log_login_attempt,
    bind, ret, called, get_db, put_db.
  cbn. rewrite <- app_assoc. reflexivity.
Qed.

(** X1.  [verify_password] answers [True] exactly when the identifier has a
    row whose password is the one given; it never changes table [users] or
    the session; and it adds one row to [login_logs], with the answer as its
    flag, except when the identifier is not NULL and has no row: that
    attempt leaves no trace, because the INSERT breaks the foreign key and
    the exception is swallowed. *)
Theorem verify_password_outcomes (member_id : option string) (pw : string) (w : world) :
  ((UserDB.verify_password member_id pw w).1 = true
   <-> exists m r, member_id = Some m /\ users (db w) !! m = Some r /\ password r = Some pw)
  /\ users (db (UserDB.verify_password member_id pw w).2) = users (db w)
  /\ session (UserDB.verify_password member_id pw w).2 = session w
  /\ (member_id = None \/ is_Some (find_user (db w) member_id) ->
      login_logs (db (UserDB.verify_password member_id pw w).2)
      = login_logs (db w) ++
          [{| log_member_id := member_id; login_time := CURRENT_TIMESTAMP (db w);
              success := (UserDB.verify_password member_id pw w).1 |}])
  /\ (forall m, member_id = Some m -> users (db w) !! m = None ->
      (UserDB.verify_password member_id pw w).1 = false
      /\ login_logs (db (UserDB.verify_password member_id pw w).2) = login_logs (db w)).
Proof.
  destruct member_id as [m|]; [destruct (users (db w) !! m) as [r|] eqn:Hm|].
  - rewrite (verify_password_existing m r pw w Hm). cbn [fst snd db users session log_attempt].
    split; [|split; [reflexivity|split; [reflexivity|split]]].
    + rewrite bool_decide_eq_true. split.
      * intros Hp. exists m, r. auto.
      * intros (m' & r' & [= <-] & Hm' & Hp). congruence.
    + intros _. reflexivity.
    + intros m' [= <-] Hm'. congruence.
  - rewrite (verify_password_unknown m pw w Hm). cbn [fst snd db users session].
    split; [|split; [reflexivity|split; [reflexivity|split]]].
    + split; [discriminate|]. intros (m' & r' & [= <-] & Hm' & _). congruence.
    + intros [H|[x H]]; [discriminate H|]. cbn in H. congruence.
    + intros m' _ _. split; reflexivity.
  - rewrite (verify_password_null pw w). cbn [fst snd db users session log_attempt].
    split; [|split; [reflexivity|split; [reflexivity|split]]].
    + split; [discriminate|]. intros (m' & r' & H & _). discriminate H.
    + intros _. reflexivity.
    + intros m' H. discriminate H.
Qed.

(** X1 on the sample tables: a wrong password for M042 is logged, a password
    for the unknown M404 is not. *)
Lemma verify_password_outcomes_witness :
  users (db (sample_world ∅)) !! "M404"%string = None
  /\ (UserDB.verify_password (Some "M404"%string) "123456" (sample_world ∅)).1 = false
  /\ login_logs (db (UserDB.verify_password (Some "M404"%string) "123456" (sample_world ∅)).2)
     = []
  /\ login_logs (db (UserDB.verify_password (Some "M042"%string) "guess" (sample_world ∅)).2)
     = [{| log_member_id := Some "M042"%string; login_time := "2025-06-01 12:00:00";
           success := false |}].
Proof.
  pose proof (verify_password_outcomes (Some "M404"%string) "123456" (sample_world ∅))
    as (_ & _ & _ & _ & H404).
  pose proof (verify_password_outcomes (Some "M042"%string) "guess" (sample_world ∅))
    as (_ & _ & _ & H042 & _).
  split; [vm_compute; reflexivity|].
  destruct (H404 "M404"%string eq_refl ltac:(vm_compute; reflexivity)) as [Hf Hl].
  split; [exact Hf|]. split; [exact Hl|].
  rewrite H042 by (right; vm_compute; eauto). vm_compute. reflexivity.
Defined.

Lemma add_user_run (one_year_later : string -> option string)
    (numeric_affinity : string -> string) (user_data : dict (option string))
    (m nm : string) (w : world) :
  dict_get "member_id" user_data = Some (Some m) ->
  dict_get "name" user_data = Some (Some nm) ->
  users (db w) !! m = None ->
  UserDB.add_user one_year_later numeric_affinity user_data w
  = (Some (true, "User added successfully!"%string),
     with_users_of
       (<[m := UserDB.inserted_row one_year_later numeric_affinity (db w) nm user_data]>
          (users (db w))) w).
Proof.
  intros Hid Hname Hm. unfold UserDB.add_user, bind, ret, get_db, put_db.
  rewrite Hid, Hname, Hm. reflexivity.
Qed.

(** X2.  [add_user] with an identifier that is free and a name stores the
    member and leaves the other rows, the log and the session alone.  The
    new member is found by [get_user_by_id] under the name given, and
    [verify_password] accepts exactly the password given, or [123456] when
    the data have no password.  The renewal date is 2099-12-31 for a lifetime
    membership, and else one year after the joining date when there is one
    that reads as a date. *)
Theorem add_user_new_member (one_year_later : string -> option string)
    (numeric_affinity : string -> string) (user_data : dict (option string))
    (m nm : string) (w : world) :
  dict_get "member_id" user_data = Some (Some m) ->
  dict_get "name" user_data = Some (Some nm) ->
  users (db w) !! m = None ->
  (UserDB.add_user one_year_later numeric_affinity user_data w).1
    = Some (true, "User added successfully!"%string)
  /\ login_logs (db (UserDB.add_user one_year_later numeric_affinity user_data w).2)
     = login_logs (db w)
  /\ session (UserDB.add_user one_year_later numeric_affinity user_data w).2 = session w
  /\ (forall m', m' <> m ->
        users (db (UserDB.add_user one_year_later numeric_affinity user_data w).2) !! m'
        = users (db w) !! m')
  /\ (exists user,
        (UserDB.get_user_by_id (Some m)
           (UserDB.add_user one_year_later numeric_affinity user_data w).2).1 = Some user
        /\ dict_get "member_id" user = Some (Some m)
        /\ dict_get "name" user = Some (Some nm)
        /\ dict_get "membership_type" user
           = Some (UserDB.get_or "membership_type" "annually" user_data))
  /\ (forall pw,
        (UserDB.verify_password (Some m) pw
           (UserDB.add_user one_year_later numeric_affinity user_data w).2).1 = true
        <-> UserDB.get_or "password" "123456" user_data = Some pw)
  /\ (dict_get "membership_type" user_data = Some (Some "lifetime"%string) ->
        membership_renewal_date <$>
          users (db (UserDB.add_user one_year_later numeric_affinity user_data w).2) !! m
        = Some (Some (numeric_affinity "2099-12-31")))
  /\ (forall joining_date renewal,
        dict_get "membership_type" user_data <> Some (Some "lifetime"%string) ->
        dict_get "membership_joining_date" user_data = Some (Some joining_date) ->
        joining_date <> ""%string ->
        one_year_later joining_date = Some renewal ->
        membership_renewal_date <$>
          users (db (UserDB.add_user one_year_later numeric_affinity user_data w).2) !! m
        = Some (Some (numeric_affinity renewal))).
Proof.
  intros Hid Hname Hm.
  rewrite (add_user_run one_year_later numeric_affinity user_data m nm w Hid Hname Hm).
  cbn [fst snd with_users_of db users login_logs session].
  split; [reflexivity|]. split; [reflexivity|]. split; [reflexivity|].
  split; [intros m' Hne; apply lookup_insert_ne; congruence|].
  set (r := UserDB.inserted_row one_year_later numeric_affinity (db w) nm user_data).
  set (w' := with_users_of (<[m:=r]> (users (db w))) w).
  assert (Hr : users (db w') !! m = Some r) by apply lookup_insert_eq.
  split; [|split; [|split]].
  - exists (user_dict m r). rewrite (get_user_by_id_existing m r w' Hr).
    repeat split; reflexivity.
  - intros pw. rewrite (verify_password_existing m r pw w' Hr). cbn [fst].
    rewrite bool_decide_eq_true. reflexivity.
  - intros Hlife. rewrite lookup_insert_eq. cbn. unfold UserDB.renewal_date.
    rewrite bool_decide_eq_true_2 by exact Hlife. reflexivity.
  - intros joining_date renewal Hlife Hjoin Hne Hyear.
    rewrite lookup_insert_eq. cbn. unfold UserDB.renewal_date.
    rewrite bool_decide_eq_false_2 by exact Hlife.
    rewrite Hjoin. cbn. apply String.eqb_neq in Hne. rewrite Hne. cbn.
    rewrite Hyear. reflexivity.
Qed.

(** X2 for M100, added without a password: the member logs in with 123456,
    and the membership runs to 2025-03-01. *)
Lemma add_user_new_member_witness :
  dict_get "member_id" new_member_data = Some (Some "M100"%string)
  /\ dict_get "name" new_member_data = Some (Some "Bo Lin"%string)
  /\ users (db (sample_world ∅)) !! "M100"%string = None
  /\ (UserDB.verify_password (Some "M100"%string) "123456"
        (UserDB.add_user Reference.one_year_later Reference.numeric_affinity
           new_member_data (sample_world ∅)).2).1 = true
  /\ membership_renewal_date <$>
       users (db (UserDB.add_user Reference.one_year_later Reference.numeric_affinity
                    new_member_data (sample_world ∅)).2) !! "M100"%string
     = Some (Some "2025-03-01"%string).
Proof.
  split; [reflexivity|]. split; [reflexivity|]. split; [vm_compute; reflexivity|].
  destruct (add_user_new_member Reference.one_year_later Reference.numeric_affinity
              new_member_data "M100" "Bo Lin" (sample_world ∅) eq_refl eq_refl
              ltac:(vm_compute; reflexivity))
    as (_ & _ & _ & _ & _ & Hpw & _ & Hrenew).
  split.
  - apply Hpw. reflexivity.
  - apply (Hrenew "2024-03-01"%string "2025-03-01"%string);
      [discriminate | reflexivity | discriminate | vm_compute; reflexivity].
Defined.

(** X3.  [add_user] never touches a row that is there, whatever it is given,
    nor the log or the session, and when it reports a failure nothing has
    changed at all.  An identifier that is taken is refused with "Member ID
    already exists!", and so is a NULL name, also when the identifier is
    free. *)
Theorem add_user_refusals (one_year_later : string -> option string)
    (numeric_affinity : string -> string) (user_data : dict (option string)) (w : world) :
  (forall m r, users (db w) !! m = Some r ->
     users (db (UserDB.add_user one_year_later numeric_affinity user_data w).2) !! m = Some r)
  /\ login_logs (db (UserDB.add_user one_year_later numeric_affinity user_data w).2)
     = login_logs (db w)
  /\ session (UserDB.add_user one_year_later numeric_affinity user_data w).2 = session w
  /\ (forall message,
        (UserDB.add_user one_year_later numeric_affinity user_data w).1
        = Some (false, message) ->
        (UserDB.add_user one_year_later numeric_affinity user_data w).2 = w)
  /\ (forall m, dict_get "member_id" user_data = Some (Some m) ->
        is_Some (users (db w) !! m) ->
        dict_get "name" user_data <> None ->
        (UserDB.add_user one_year_later numeric_affinity user_data w).1
        = Some (false, "Member ID already exists!"%string))
  /\ (dict_get "member_id" user_data <> None ->
      dict_get "name" user_data = Some None ->
      (UserDB.add_user one_year_later numeric_affinity user_data w).1
      = Some (false, "Member ID already exists!"%string)).
Proof.
  unfold UserDB.add_user, bind, ret, get_db, put_db.
  destruct (dict_get "member_id" user_data) as [[m|]|] eqn:Hid;
    destruct (dict_get "name" user_data) as [[nm|]|] eqn:Hname;
    try destruct (users (db w) !! m) as [r0|] eqn:Hm;
    cbn [fst snd db users login_logs session];
    (split; [|split; [reflexivity|split; [reflexivity|split; [|split]]]]);
    try (intros m' r' Hr'; exact Hr');
    try (intros message H; first [reflexivity | discriminate H]);
    try (intros m' [= <-] [x Hx] Hn; first [reflexivity | congruence]);
    try (intros m' H; discriminate H);
    try (intros _ H; first [reflexivity | discriminate H]);
    try (intros H; contradiction H; reflexivity).
  - intros m' r' Hr'. rewrite lookup_insert_ne; [exact Hr'|]. congruence.
Qed.

Lemma update_user_run (one_year_later : string -> option string)
    (numeric_affinity : string -> string) (m : string) (user_data : dict (option string))
    (r : user_row) (nm : string) (w : world) :
  users (db w) !! m = Some r ->
  dict_get "name" user_data = Some (Some nm) ->
  UserDB.update_user one_year_later numeric_affinity (Some m) user_data w
  = ((true, "User updated successfully!"%string),
     with_users_of
       (<[m := UserDB.rewritten_row one_year_later numeric_affinity (db w) nm user_data r]>
          (users (db w))) w).
Proof.
  intros Hm Hname. unfold UserDB.update_user, bind, ret, get_db, put_db.
  rewrite Hname. cbn [find_user]. rewrite Hm. reflexivity.
Qed.

(** X4.  [update_user] succeeds exactly when the identifier has a row and
    the data carry a name that is not NULL.  Whatever it is given, it keeps
    every member's password and date of creation, the set of members, the
    log and the session, and it leaves the rows of the other members as they
    were; when it does not succeed nothing changes at all.  An identifier
    without a row is answered "User not found!" even if the name is NULL. *)
Theorem update_user_spec (one_year_later : string -> option string)
    (numeric_affinity : string -> string) (member_id : option string)
    (user_data : dict (option string)) (w : world) :
  ((UserDB.update_user one_year_later numeric_affinity member_id user_data w).1.1 = true
   <-> exists m r nm, member_id = Some m /\ users (db w) !! m = Some r
                      /\ dict_get "name" user_data = Some (Some nm))
  /\ (forall m,
        password <$>
          users (db (UserDB.update_user one_year_later numeric_affinity member_id user_data w).2)
            !! m
        = password <$> users (db w) !! m)
  /\ (forall m,
        created_at <$>
          users (db (UserDB.update_user one_year_later numeric_affinity member_id user_data w).2)
            !! m
        = created_at <$> users (db w) !! m)
  /\ (forall m, member_id <> Some m ->
        users (db (UserDB.update_user one_year_later numeric_affinity member_id user_data w).2)
          !! m
        = users (db w) !! m)
  /\ login_logs (db (UserDB.update_user one_year_later numeric_affinity member_id user_data w).2)
     = login_logs (db w)
  /\ session (UserDB.update_user one_year_later numeric_affinity member_id user_data w).2
     = session w
  /\ ((UserDB.update_user one_year_later numeric_affinity member_id user_data w).1.1 = false ->
      (UserDB.update_user one_year_later numeric_affinity member_id user_data w).2 = w)
  /\ (find_user (db w) member_id = None -> dict_get "name" user_data <> None ->
      (UserDB.update_user one_year_later numeric_affinity member_id user_data w).1
      = (false, "User not found!"%string))
  /\ (forall m r nm, member_id = Some m -> users (db w) !! m = Some r ->
        dict_get "name" user_data = Some (Some nm) ->
        exists user,
          (UserDB.get_user_by_id (Some m)
             (UserDB.update_user one_year_later numeric_affinity member_id user_data w).2).1
          = Some user
          /\ dict_get "name" user = Some (Some nm)
          /\ dict_get "phone" user = Some (UserDB.get_or "phone" "" user_data)
          /\ dict_get "membership_type" user
             = Some (UserDB.get_or "membership_type" "annually" user_data)).
Proof.
  assert (Hcases :
    (exists m r nm, member_id = Some m /\ users (db w) !! m = Some r
                    /\ dict_get "name" user_data = Some (Some nm))
    \/ ((forall m r nm, member_id = Some m -> users (db w) !! m = Some r ->
            dict_get "name" user_data = Some (Some nm) -> False)
        /\ exists msg,
             UserDB.update_user one_year_later numeric_affinity member_id user_data w
             = ((false, msg), w)
             /\ (find_user (db w) member_id = None -> dict_get "name" user_data <> None ->
                 msg = "User not found!"%string))).
  { unfold UserDB.update_user, bind, ret, get_db, put_db.
    destruct (dict_get "name" user_data) as [[nm|]|] eqn:Hname.
    - destruct member_id as [m|]; cbn [find_user];
        [destruct (users (db w) !! m) as [r|] eqn:Hm|].
      + left. exists m, r, nm. auto.
      + right. split; [intros m' r' nm' [= <-] H _; congruence|].
        eexists. split; [reflexivity|]. reflexivity.
      + right. split; [intros m' r' nm' H; discriminate H|].
        eexists. split; [reflexivity|]. reflexivity.
    - right. split; [intros m' r' nm' _ _ H; discriminate H|].
      destruct member_id as [m|]; cbn [find_user];
        [destruct (users (db w) !! m) as [r|] eqn:Hm|];
        eexists; (split; [reflexivity|]); first [reflexivity | intros H; discriminate H].
    - right. split; [intros m' r' nm' _ _ H; discriminate H|].
      eexists. split; [reflexivity|]. intros _ H. contradiction H. reflexivity. }
  destruct Hcases as [(m & r & nm & -> & Hm & Hname)|(Hno & msg & Hrun & Hmsg)].
  - rewrite (update_user_run one_year_later numeric_affinity m user_data r nm w Hm Hname).
    cbn [fst snd with_users_of db users login_logs session].
    split; [split; [intros _; exists m, r, nm; auto | reflexivity]|].
    split.
    { intros m'. destruct (decide (m' = m)) as [->|Hne].
      - rewrite lookup_insert_eq, Hm. reflexivity.
      - rewrite lookup_insert_ne by congruence. reflexivity. }
    split.
    { intros m'. destruct (decide (m' = m)) as [->|Hne].
      - rewrite lookup_insert_eq, Hm. reflexivity.
      - rewrite lookup_insert_ne by congruence. reflexivity. }
    split; [intros m' Hne; apply lookup_insert_ne; congruence|].
    split; [reflexivity|]. split; [reflexivity|].
    split; [discriminate|].
    split; [cbn; rewrite Hm; discriminate|].
    intros m' r' nm' [= <-] _ Hname'. rewrite Hname in Hname'. injection Hname' as <-.
    set (r1 := UserDB.rewritten_row one_year_later numeric_affinity (db w) nm user_data r).
    exists (user_dict m r1).
    rewrite (get_user_by_id_existing m r1) by (cbn; apply lookup_insert_eq).
    repeat split; reflexivity.
  - rewrite Hrun. cbn [fst snd].
    split; [split; [discriminate | intros (m & r & nm & H1 & H2 & H3); destruct (Hno m r nm H1 H2 H3)]|].
    split; [reflexivity|]. split; [reflexivity|]. split; [reflexivity|].
    split; [reflexivity|]. split; [reflexivity|]. split; [reflexivity|].
    split; [intros H1 H2; rewrite (Hmsg H1 H2); reflexivity|].
    intros m r nm H1 H2 H3. destruct (Hno m r nm H1 H2 H3).
Qed.

Lemma delete_user_run (m : string) (w : world) :
  UserDB.delete_user (Some m) w
  = ((bool_decide (is_Some (users (db w) !! m)),
      if bool_decide (is_Some (users (db w) !! m))
      then "User deleted successfully!"%string else "User not found!"%string),
     {| db := {| users := delete m (users (db w));
                 login_logs := filter (fun l => log_member_id l <> Some m) (login_logs (db w));
                 CURRENT_TIMESTAMP := CURRENT_TIMESTAMP (db w) |};
        session := session w; calls := calls w |}).
Proof.
  unfold UserDB.delete_user, bind, ret, get_db, put_db.
  destruct (users (db w) !! m) as [r|] eqn:Hm.
  - rewrite bool_decide_eq_true_2 by eauto. reflexivity.
  - rewrite bool_decide_eq_false_2 by (intros [x H]; discriminate H).
    cbn. rewrite (delete_id (users (db w)) m Hm). reflexivity.
Qed.

Lemma foreign_keys_hold_after_delete (m : string) (d : database) :
  foreign_keys_hold d ->
  foreign_keys_hold
    {| users := delete m (users d);
       login_logs := filter (fun l => log_member_id l <> Some m) (login_logs d);
       CURRENT_TIMESTAMP := CURRENT_TIMESTAMP d |}.
Proof.
  unfold foreign_keys_hold. cbn [login_logs]. rewrite !Forall_forall.
  intros H l Hl. apply list_elem_of_filter in Hl as [Hne Hl].
  destruct (H l Hl) as [Hnull|[r Hr]]; [left; exact Hnull|right].
  destruct (log_member_id l) as [m'|]; [|discriminate Hr].
  cbn in Hr |- *. exists r. rewrite lookup_delete_ne by congruence. exact Hr.
Qed.

(** X5.  [delete_user] reports success exactly when the identifier has a
    row.  Afterwards the member is gone, [get_user_by_id] finds nobody and
    [verify_password] refuses every password for the identifier; the rows of
    [login_logs] that name the member are gone as well and the others are
    kept, so that the foreign key of the log still holds; the other members
    and the session are untouched. *)
Theorem delete_user_spec (m : string) (w : world) :
  ((UserDB.delete_user (Some m) w).1.1 = true <-> is_Some (users (db w) !! m))
  /\ users (db (UserDB.delete_user (Some m) w).2) !! m = None
  /\ (forall m', m' <> m ->
        users (db (UserDB.delete_user (Some m) w).2) !! m' = users (db w) !! m')
  /\ (forall l, l ∈ login_logs (db (UserDB.delete_user (Some m) w).2)
                <-> l ∈ login_logs (db w) /\ log_member_id l <> Some m)
  /\ session (UserDB.delete_user (Some m) w).2 = session w
  /\ (UserDB.get_user_by_id (Some m) (UserDB.delete_user (Some m) w).2).1 = None
  /\ (forall pw, (UserDB.verify_password (Some m) pw (UserDB.delete_user (Some m) w).2).1 = false)
  /\ (foreign_keys_hold (db w) -> foreign_keys_hold (db (UserDB.delete_user (Some m) w).2)).
Proof.
  rewrite delete_user_run. cbn [fst snd db users login_logs session].
  split; [apply bool_decide_eq_true|].
  split; [apply lookup_delete_eq|].
  split; [intros m' Hne; apply lookup_delete_ne; congruence|].
  split; [intros l; rewrite list_elem_of_filter; tauto|].
  split; [reflexivity|].
  split.
  { unfold UserDB.get_user_by_id, bind, ret, called, get_db. cbn.
    rewrite lookup_delete_eq. reflexivity. }
  split.
  { intros pw. rewrite verify_password_unknown by (cbn; apply lookup_delete_eq).
    reflexivity. }
  apply foreign_keys_hold_after_delete.
Qed.

(** The foreign key survives when no member goes away and the log keeps its
    rows or gains rows that name nobody or a member. *)
Lemma foreign_keys_hold_step (d d' : database) (new : list login_log) :
  foreign_keys_hold d ->
  (forall m, is_Some (users d !! m) -> is_Some (users d' !! m)) ->
  login_logs d' = login_logs d ++ new ->
  Forall (fun l => log_member_id l = None \/ is_Some (find_user d' (log_member_id l))) new ->
  foreign_keys_hold d'.
Proof.
  unfold foreign_keys_hold. intros H Hdom -> Hnew. apply Forall_app. split; [|exact Hnew].
  eapply Forall_impl; [exact H|]. intros l [Hl|Hl]; [left; exact Hl|right].
  destruct (log_member_id l) as [m|]; [|destruct Hl as [x Hx]; discriminate Hx].
  apply Hdom, Hl.
Qed.

Lemma foreign_keys_hold_log_login_attempt (member_id : option string) (ok : bool) (w : world) :
  foreign_keys_hold (db w) ->
  foreign_keys_hold (db (UserDB.log_login_attempt member_id ok w).2).
Proof.
  intros H. unfold UserDB.log_login_attempt, bind, ret, called, get_db, put_db.
  cbn [db session calls].
  destruct (bool_decide (member_id = None \/ is_Some (find_user (db w) member_id))) eqn:E.
  - apply bool_decide_eq_true_1 in E. cbn [snd db].
    eapply (foreign_keys_hold_step (db w)); [exact H | auto | reflexivity |].
    constructor; [|constructor]. exact E.
  - exact H.
Qed.

Lemma foreign_keys_hold_verify_password (member_id : option string) (pw : string) (w : world) :
  foreign_keys_hold (db w) ->
  foreign_keys_hold (db (UserDB.verify_password member_id pw w).2).
Proof.
  intros H. destruct member_id as [m|]; [destruct (users (db w) !! m) as [r|] eqn:Hm|].
  - rewrite (verify_password_existing m r pw w Hm). cbn [snd db].
    eapply (foreign_keys_hold_step (db w)); [exact H | auto | reflexivity |].
    constructor; [|constructor]. right. cbn. rewrite Hm. eauto.
  - rewrite (verify_password_unknown m pw w Hm). exact H.
  - rewrite (verify_password_null pw w). cbn [snd db].
    eapply (foreign_keys_hold_step (db w)); [exact H | auto | reflexivity |].
    constructor; [|constructor]. left. reflexivity.
Qed.

Lemma foreign_keys_hold_change_user_password (member_id : option string) (new : string)
    (w : world) :
  foreign_keys_hold (db w) ->
  foreign_keys_hold (db (UserDB.change_user_password member_id new w).2).
Proof.
  intros H. unfold UserDB.change_user_password, bind, ret, called, get_db, put_db.
  cbn [db session calls].
  destruct member_id as [m|]; cbn [find_user]; [|exact H].
  destruct (users (db w) !! m) as [r|] eqn:Hm; [|exact H].
  cbn [snd db].
  eapply (foreign_keys_hold_step (db w) _ []); [exact H | | symmetry; apply app_nil_r | constructor].
  intros m' Hm'. cbn. destruct (decide (m' = m)) as [->|Hne].
  - rewrite lookup_insert_eq. eauto.
  - rewrite lookup_insert_ne by congruence. exact Hm'.
Qed.

(** X6.  The foreign key of [login_logs] (every row names no member or a
    member that exists) is kept by every method of the store that writes. *)
Theorem store_keeps_foreign_keys (one_year_later : string -> option string)
    (numeric_affinity : string -> string) (w : world) :
  foreign_keys_hold (db w) ->
  (forall member_id ok,
     foreign_keys_hold (db (UserDB.log_login_attempt member_id ok w).2))
  /\ (forall member_id pw,
        foreign_keys_hold (db (UserDB.verify_password member_id pw w).2))
  /\ (forall member_id new,
        foreign_keys_hold (db (UserDB.change_user_password member_id new w).2))
  /\ (forall member_id cur new,
        foreign_keys_hold (db (UserDB.change_own_password member_id cur new w).2))
  /\ (forall updates,
        foreign_keys_hold (db (UserDB.bulk_update_users one_year_later numeric_affinity updates w).2))
  /\ (forall user_data,
        foreign_keys_hold (db (UserDB.add_user one_year_later numeric_affinity user_data w).2))
  /\ (forall member_id user_data,
        foreign_keys_hold
          (db (UserDB.update_user one_year_later numeric_affinity member_id user_data w).2))
  /\ (forall member_id, foreign_keys_hold (db (UserDB.delete_user member_id w).2))
  /\ (forall new, foreign_keys_hold (db (UserDB.reset_all_passwords new w).2)).
Proof.
  intros H.
  split; [intros; apply foreign_keys_hold_log_login_attempt, H|].
  split; [intros; apply foreign_keys_hold_verify_password, H|].
  split; [intros; apply foreign_keys_hold_change_user_password, H|].
  split.
  { intros member_id cur new. unfold UserDB.change_own_password, bind, called.
    cbn [db session calls].
    set (w0 := {| db := db w; session := session w; calls := _ |}).
    pose proof (foreign_keys_hold_verify_password member_id cur w0 H) as H1.
    destruct (UserDB.verify_password member_id cur w0) as [[|] w1]; cbn [snd] in H1.
    - apply foreign_keys_hold_change_user_password, H1.
    - exact H1. }
  split.
  { intros updates. unfold UserDB.bulk_update_users, bind, ret, called, get_db, put_db.
    cbn [db session calls].
    pose proof (BulkFacts.update_all_spec one_year_later numeric_affinity updates (db w) 0%nat []) as Hall.
    cbv zeta in Hall.
    destruct (UserDB.update_all one_year_later numeric_affinity updates (db w, 0%nat, [])) as [[d' n] errors].
    cbn [fst snd db] in Hall |- *.
    destruct Hall as (_ & _ & Hlogs & _ & Hdom & _).
    eapply (foreign_keys_hold_step (db w) _ []);
      [exact H | | rewrite app_nil_r; exact Hlogs | constructor].
    intros m Hm. apply Hdom, Hm. }
  split.
  { intros user_data. unfold UserDB.add_user, bind, ret, get_db, put_db.
    destruct (dict_get "member_id" user_data) as [[m|]|];
      destruct (dict_get "name" user_data) as [[nm|]|]; try exact H.
    destruct (users (db w) !! m) as [r|] eqn:Hm; [exact H|].
    cbn [snd db].
    eapply (foreign_keys_hold_step (db w) _ []);
      [exact H | | symmetry; apply app_nil_r | constructor].
    intros m' Hm'. cbn. destruct (decide (m' = m)) as [->|Hne].
    - rewrite lookup_insert_eq. eauto.
    - rewrite lookup_insert_ne by congruence. exact Hm'. }
  split.
  { intros member_id user_data. unfold UserDB.update_user, bind, ret, get_db, put_db.
    destruct (dict_get "name" user_data) as [[nm|]|]; try exact H;
      (destruct member_id as [m|]; cbn [find_user]; [|exact H]);
      (destruct (users (db w) !! m) as [r|] eqn:Hm; [|exact H]); try exact H.
    cbn [snd db].
    eapply (foreign_keys_hold_step (db w) _ []);
      [exact H | | symmetry; apply app_nil_r | constructor].
    intros m' Hm'. cbn. destruct (decide (m' = m)) as [->|Hne].
    - rewrite lookup_insert_eq. eauto.
    - rewrite lookup_insert_ne by congruence. exact Hm'. }
  split.
  { intros [m|]; [|exact H]. rewrite delete_user_run. cbn [snd db].
    apply foreign_keys_hold_after_delete, H. }
  intros new. unfold UserDB.reset_all_passwords, bind, ret, get_db, put_db. cbn [snd db].
  eapply (foreign_keys_hold_step (db w) _ []);
    [exact H | | symmetry; apply app_nil_r | constructor].
  intros m Hm. cbn. rewrite lookup_fmap. apply fmap_is_Some, Hm.
Qed.

(** X6 on the sample tables after a failed login of M042: the log has a row
    for M042, and deleting M042 leaves a log that names no missing member. *)
Lemma store_keeps_foreign_keys_witness :
  foreign_keys_hold
    (db (UserDB.verify_password (Some "M042"%string) "guess" (sample_world ∅)).2)
  /\ foreign_keys_hold
       (db (UserDB.delete_user (Some "M042"%string)
              (UserDB.verify_password (Some "M042"%string) "guess" (sample_world ∅)).2).2).
Proof.
  assert (H : foreign_keys_hold
                (db (UserDB.verify_password (Some "M042"%string) "guess" (sample_world ∅)).2)).
  { apply (bool_decide_unpack _). vm_compute. exact I. }
  split; [exact H|].
  destruct (store_keeps_foreign_keys Reference.one_year_later Reference.numeric_affinity _ H)
    as (_ & _ & _ & _ & _ & _ & _ & Hdel & _).
  apply Hdel.
Defined.

Lemma set_column_keeps (numeric_affinity : string -> string) (field : string) (v : option string) (r r' : user_row) :
  set_column numeric_affinity field v r = Some r' ->
  password r' = password r /\ created_at r' = created_at r.
Proof.
  unfold set_column.
  repeat (destruct (String.eqb field _);
          [first [destruct v; [|discriminate] | idtac]; intros [= <-]; split; reflexivity|]).
  intros [= <-]. split; reflexivity.
Qed.

Lemma apply_set_clause_keeps (numeric_affinity : string -> string)
    (sets : list (string * option string)) (r r' : user_row) :
  apply_set_clause numeric_affinity sets r = Some r' ->
  password r' = password r /\ created_at r' = created_at r.
Proof.
  revert r. induction sets as [|[field v] sets IH]; intros r; cbn.
  - intros [= <-]. split; reflexivity.
  - destruct (set_column numeric_affinity field v r) as [r1|] eqn:E; [|discriminate].
    intros H. destruct (IH r1 H) as [Hp Hc].
    destruct (set_column_keeps numeric_affinity field v r r1 E) as [Hp1 Hc1]. split; congruence.
Qed.

Lemma update_all_keeps (one_year_later : string -> option string)
    (numeric_affinity : string -> string)
    (updates : dict (dict (option string))) :
  forall d n errors m,
    (fun r => (password r, created_at r)) <$>
      users (UserDB.update_all one_year_later numeric_affinity updates (d, n, errors)).1.1 !! m
    = (fun r => (password r, created_at r)) <$> users d !! m.
Proof.
  induction updates as [|[m0 u0] rest IH]; intros d n errors m; [reflexivity|].
  cbn [UserDB.update_all].
  destruct (UserDB.update_one one_year_later numeric_affinity m0 u0 (d, n, errors)) as [[d1 n1] e1] eqn:E1.
  rewrite IH.
  pose proof (BulkFacts.update_one_spec one_year_later numeric_affinity m0 u0 d n errors) as H1.
  rewrite E1 in H1. cbn [fst snd] in H1. destruct H1 as (_ & _ & _ & _ & Hm0 & Hother).
  destruct (decide (m = m0)) as [->|Hne]; [|rewrite (Hother m Hne); reflexivity].
  rewrite Hm0. destruct (users d !! m0) as [r|]; [|reflexivity].
  cbn. unfold updated_row.
  destruct (apply_set_clause _ _ r) as [r'|] eqn:E; [|reflexivity].
  destruct (apply_set_clause_keeps _ _ r r' E) as [Hp Hc]. cbn. rewrite Hp, Hc. reflexivity.
Qed.

Lemma bulk_update_users_keeps (one_year_later : string -> option string)
    (numeric_affinity : string -> string)
    (updates : dict (dict (option string))) (w : world) (m : string) :
  (fun r => (password r, created_at r)) <$>
    users (db (UserDB.bulk_update_users one_year_later numeric_affinity updates w).2) !! m
  = (fun r => (password r, created_at r)) <$> users (db w) !! m.
Proof.
  unfold UserDB.bulk_update_users, bind, ret, called, get_db, put_db.
  cbn [db session calls].
  pose proof (update_all_keeps one_year_later numeric_affinity updates (db w) 0%nat [] m) as H.
  destruct (UserDB.update_all one_year_later numeric_affinity updates (db w, 0%nat, [])) as [[d' n] errors].
  exact H.
Qed.

Lemma bulk_update_users_keeps_passwords (one_year_later : string -> option string)
    (numeric_affinity : string -> string)
    (updates : dict (dict (option string))) (w : world) (m : string) :
  password <$> users (db (UserDB.bulk_update_users one_year_later numeric_affinity updates w).2) !! m
  = password <$> users (db w) !! m.
Proof.
  pose proof (bulk_update_users_keeps one_year_later numeric_affinity updates w m) as Hkeep.
  destruct (users (db (UserDB.bulk_update_users one_year_later numeric_affinity updates w).2) !! m),
    (users (db w) !! m); cbn in Hkeep |- *; congruence.
Qed.

Lemma bulk_update_users_logs (one_year_later : string -> option string)
    (numeric_affinity : string -> string)
    (updates : dict (dict (option string))) (w : world) :
  login_logs (db (UserDB.bulk_update_users one_year_later numeric_affinity updates w).2) = login_logs (db w)
  /\ session (UserDB.bulk_update_users one_year_later numeric_affinity updates w).2 = session w.
Proof.
  unfold UserDB.bulk_update_users, bind, ret, called, get_db, put_db.
  cbn [db session calls].
  pose proof (BulkFacts.update_all_spec one_year_later numeric_affinity updates (db w) 0%nat []) as Hall.
  cbv zeta in Hall.
  destruct (UserDB.update_all one_year_later numeric_affinity updates (db w, 0%nat, [])) as [[d' n] errors].
  cbn [fst snd db] in Hall |- *. split; [apply Hall | reflexivity].
Qed.

(** X7.  Whatever records it is given, [bulk_update_users] changes no
    password and no date of creation, neither adds nor removes a member, and
    leaves the log and the session as they were. *)
Theorem bulk_update_users_frame (one_year_later : string -> option string)
    (numeric_affinity : string -> string)
    (updates : dict (dict (option string))) (w : world) :
  (forall m,
     password <$> users (db (UserDB.bulk_update_users one_year_later numeric_affinity updates w).2) !! m
     = password <$> users (db w) !! m)
  /\ (forall m,
        created_at <$> users (db (UserDB.bulk_update_users one_year_later numeric_affinity updates w).2) !! m
        = created_at <$> users (db w) !! m)
  /\ (forall m,
        is_Some (users (db (UserDB.bulk_update_users one_year_later numeric_affinity updates w).2) !! m)
        <-> is_Some (users (db w) !! m))
  /\ login_logs (db (UserDB.bulk_update_users one_year_later numeric_affinity updates w).2)
     = login_logs (db w)
  /\ session (UserDB.bulk_update_users one_year_later numeric_affinity updates w).2 = session w
  /\ (forall m pw,
        (UserDB.verify_password m pw (UserDB.bulk_update_users one_year_later numeric_affinity updates w).2).1
        = (UserDB.verify_password m pw w).1).
Proof.
  pose proof (bulk_update_users_keeps one_year_later numeric_affinity updates w) as Hkeep.
  pose proof (bulk_update_users_keeps_passwords one_year_later numeric_affinity updates w) as Hpw.
  split; [exact Hpw|]. split.
  { intros m. specialize (Hkeep m).
    destruct (users (db (UserDB.bulk_update_users one_year_later numeric_affinity updates w).2) !! m),
      (users (db w) !! m); cbn in Hkeep |- *; congruence. }
  split.
  { intros m. specialize (Hkeep m).
    destruct (users (db (UserDB.bulk_update_users one_year_later numeric_affinity updates w).2) !! m),
      (users (db w) !! m); cbn in Hkeep; try discriminate Hkeep; split; eauto;
      intros [x Hx]; discriminate Hx. }
  split; [apply bulk_update_users_logs|]. split; [apply bulk_update_users_logs|].
  intros member_id pw.
  set (w' := (UserDB.bulk_update_users one_year_later numeric_affinity updates w).2) in *.
  destruct member_id as [m|]; [|rewrite !verify_password_null; reflexivity].
  specialize (Hpw m).
  destruct (users (db w') !! m) as [r'|] eqn:Hm', (users (db w) !! m) as [r|] eqn:Hm;
    cbn in Hpw; try discriminate Hpw.
  - rewrite (verify_password_existing m r' pw w' Hm'), (verify_password_existing m r pw w Hm).
    cbn. injection Hpw as ->. reflexivity.
  - rewrite (verify_password_unknown m pw w' Hm'), (verify_password_unknown m pw w Hm).
    reflexivity.
Qed.

(* ===================================================================== *)
(** * Sessions: who gets to see what                                       *)
(* ===================================================================== *)

Lemma user_profile_redirects (env : environment) (m : string) (req : request) (w : world) :
  ~ (truthy (session w !! "logged_in"%string) = true
     /\ session w !! "member_id"%string = Some (VStr m)) ->
  App.user_profile env m req w = (redirect (ep_login m), w).
Proof.
  intros Hno. unfold App.user_profile, bind, ret, session_get.
  destruct (truthy (session w !! "logged_in"%string)) eqn:Hl; cbn [negb orb]; [|reflexivity].
  destruct (bool_decide (session w !! "member_id"%string = Some (VStr m))) eqn:Hs;
    cbn [negb]; [|reflexivity].
  apply bool_decide_eq_true_1 in Hs. contradiction Hno. auto.
Qed.

Lemma user_profile_shows (env : environment) (m : string) (r : user_row) (req : request)
    (w : world) :
  truthy (session w !! "logged_in"%string) = true ->
  session w !! "member_id"%string = Some (VStr m) ->
  users (db w) !! m = Some r ->
  App.user_profile env m req w
  = App.show_profile env m (user_dict m r) req false
      {| db := db w; session := session w;
         calls := calls w ++ [call_get_user_by_id (Some m)] |}.
Proof.
  intros Hl Hs Hm. unfold App.user_profile, bind, ret, session_get.
  rewrite Hl, Hs, bool_decide_eq_true_2 by reflexivity. cbn [negb orb].
  rewrite (get_user_by_id_existing m r w Hm). reflexivity.
Qed.

(** X8.  [user_profile] shows the page of a member only to the session that
    is logged in as that member: every other session, a session of another
    member included, is sent to the login page of the profile asked for, and
    nothing is read or written.  After a login of [m'] with the right
    password the profile of [m'] is shown, with the tables and the session
    left as they are and no password checked again, and the profile of any
    other member is refused. *)
Theorem user_profile_needs_own_session (env : environment) (m : string) (req : request)
    (w : world) :
  (~ (truthy (session w !! "logged_in"%string) = true
      /\ session w !! "member_id"%string = Some (VStr m)) ->
   App.user_profile env m req w = (redirect (ep_login m), w))
  /\ (forall m' r pw req',
        users (db w) !! m' = Some r -> password r = Some pw -> pw <> ""%string ->
        method req' = POST -> form_get "password" req' = Some pw ->
        (m <> m' ->
         (App.user_profile env m req (App.login (Some m') req' w).2).1 = redirect (ep_login m))
        /\ (exists qr url img,
              (App.user_profile env m' req (App.login (Some m') req' w).2).1
              = render_template (user_profile_html (user_dict m' r) qr url img false) 200)
        /\ db (App.user_profile env m' req (App.login (Some m') req' w).2).2
           = db (App.login (Some m') req' w).2
        /\ session (App.user_profile env m' req (App.login (Some m') req' w).2).2
           = member_session m'
        /\ forallb (fun c => negb (is_verify_password c))
             (new_calls (App.login (Some m') req' w).2
                (App.user_profile env m' req (App.login (Some m') req' w).2).2) = true).
Proof.
  split; [apply user_profile_redirects|].
  intros m' r pw req' Hm' Hpw Hne Hpost Hform.
  rewrite (login_post m' r pw req' w Hm' Hpost Hform Hne).
  rewrite bool_decide_eq_true_2 by exact Hpw. cbn [snd].
  set (w1 := {| db := log_attempt (Some m') true (db w); session := member_session m';
                calls := _ |}).
  split.
  { intros Hdiff. rewrite user_profile_redirects; [reflexivity|].
    intros [_ Hs]. unfold w1, member_session in Hs. cbn [session] in Hs.
    rewrite !lookup_insert_ne in Hs by discriminate. rewrite lookup_insert_eq in Hs.
    apply Hdiff. congruence. }
  rewrite (user_profile_shows env m' r req w1) by (reflexivity || exact Hm').
  destruct (show_profile_spec env m' r req false
              {| db := db w1; session := session w1;
                 calls := calls w1 ++ [call_get_user_by_id (Some m')] |})
    as (qr & url & img & Hshow).
  rewrite Hshow. cbn [fst snd db session calls].
  split; [eexists _, _, _; reflexivity|]. split; [reflexivity|]. split; [reflexivity|].
  rewrite <- app_assoc.
  rewrite (new_calls_app w1). destruct (nonempty (image_path r)); reflexivity.
Qed.

(** X9.  [logout] empties the whole session, an administrator's keys
    included, and leaves the tables alone.  It answers with a redirect to
    the login page of the member the session named; without a member in the
    session there is no URL to build and the request ends in a 500.  After
    it, no profile and no page of the administration is shown. *)
Theorem logout_spec (w : world) :
  session (App.logout w).2 = ∅
  /\ db (App.logout w).2 = db w
  /\ (forall m, session w !! "member_id"%string = Some (VStr m) ->
        (App.logout w).1 = redirect (ep_login m))
  /\ (session w !! "member_id"%string = None -> (App.logout w).1 = internal_server_error)
  /\ (forall env m req,
        (App.user_profile env m req (App.logout w).2).1 = redirect (ep_login m))
  /\ (forall env m req,
        (App.admin_view_profile env m req (App.logout w).2).1 = redirect ep_admin_login).
Proof.
  unfold App.logout, bind, ret, session_get, session_clear, with_session.
  cbn [fst snd db session].
  split; [reflexivity|]. split; [reflexivity|].
  split; [intros m ->; reflexivity|]. split; [intros ->; reflexivity|].
  split.
  - intros env m req. rewrite user_profile_redirects; [reflexivity|].
    intros [H _]. cbn in H. rewrite lookup_empty in H. discriminate H.
  - intros env m req. unfold App.admin_view_profile, App.admin_required, bind, ret, session_get.
    cbn [session]. rewrite lookup_empty. reflexivity.
Qed.

(** X10.  [admin_logout] takes the two keys of the administrator out of the
    session and queues its notice; every other key stays, so a member who is
    logged in in the same session stays logged in, and the tables are not
    touched.  After it the pages of the administration redirect to the admin
    login. *)
Theorem admin_logout_spec (w : world) :
  (App.admin_logout w).1 = redirect ep_admin_login
  /\ db (App.admin_logout w).2 = db w
  /\ session (App.admin_logout w).2 !! "is_admin"%string = None
  /\ session (App.admin_logout w).2 !! "admin_username"%string = None
  /\ (forall k, k <> "is_admin"%string -> k <> "admin_username"%string ->
        k <> "_flashes"%string ->
        session (App.admin_logout w).2 !! k = session w !! k)
  /\ (forall env m req,
        (App.user_profile env m req (App.admin_logout w).2).1
        = (App.user_profile env m req w).1)
  /\ (forall env m req,
        (App.admin_view_profile env m req (App.admin_logout w).2).1 = redirect ep_admin_login)
  /\ (forall env numeric_affinity order_by_name req,
        (App.admin_bulk_edit env numeric_affinity order_by_name req (App.admin_logout w).2).1
        = redirect ep_admin_login).
Proof.
  assert (Hs : forall k, k <> "_flashes"%string ->
            session (App.admin_logout w).2 !! k
            = delete "admin_username"%string (delete "is_admin"%string (session w)) !! k).
  { intros k Hk. unfold App.admin_logout, bind, ret, session_pop, flash, with_session.
    cbn [fst snd db session calls]. apply lookup_insert_ne. congruence. }
  assert (Hadmin : session (App.admin_logout w).2 !! "is_admin"%string = None).
  { rewrite Hs by discriminate. rewrite lookup_delete_ne by discriminate.
    apply lookup_delete_eq. }
  assert (Hother : forall k, k <> "is_admin"%string -> k <> "admin_username"%string ->
            k <> "_flashes"%string ->
            session (App.admin_logout w).2 !! k = session w !! k).
  { intros k H1 H2 H3. rewrite Hs by exact H3.
    rewrite !lookup_delete_ne by congruence. reflexivity. }
  split; [reflexivity|]. split; [reflexivity|]. split; [exact Hadmin|].
  split; [rewrite Hs by discriminate; apply lookup_delete_eq|].
  split; [exact Hother|].
  split.
  { intros env m req.
    assert (Hl : session (App.admin_logout w).2 !! "logged_in"%string
                 = session w !! "logged_in"%string) by (apply Hother; discriminate).
    assert (Hm : session (App.admin_logout w).2 !! "member_id"%string
                 = session w !! "member_id"%string) by (apply Hother; discriminate).
    destruct (decide (truthy (session w !! "logged_in"%string) = true
                      /\ session w !! "member_id"%string = Some (VStr m))) as [[H1 H2]|Hno].
    - unfold App.user_profile, bind, ret, session_get.
      rewrite Hl, Hm, H1, H2, bool_decide_eq_true_2 by reflexivity. cbn [negb orb].
      unfold UserDB.get_user_by_id, bind, ret, called, get_db. cbn [db session calls fst snd].
      change (db (App.admin_logout w).2) with (db w).
      destruct (users (db w) !! m) as [r|]; cbn [fmap option_fmap option_map];
        [|reflexivity].
      apply show_profile_response.
    - rewrite (user_profile_redirects env m req w Hno).
      rewrite user_profile_redirects; [reflexivity|]. rewrite Hl, Hm. exact Hno. }
  split.
  - intros env m req. unfold App.admin_view_profile, App.admin_required, bind, ret, session_get.
    rewrite Hadmin. reflexivity.
  - intros env numeric_affinity order_by_name req.
    unfold App.admin_bulk_edit, App.admin_required, bind, ret, session_get.
    rewrite Hadmin. reflexivity.
Qed.

(* ===================================================================== *)
(** * The administration                                                   *)
(* ===================================================================== *)

Lemma admin_view_profile_shows (env : environment) (m : string) (r : user_row)
    (req : request) (w : world) :
  truthy (session w !! "is_admin"%string) = true ->
  users (db w) !! m = Some r ->
  exists qr url img,
    (App.admin_view_profile env m req w).1
    = render_template (user_profile_html (user_dict m r) qr url img true) 200.
Proof.
  intros Hadmin Hm. unfold App.admin_view_profile, App.admin_required, bind, session_get.
  rewrite Hadmin, (get_user_by_id_existing m r w Hm).
  destruct (show_profile_spec env m r req true
              {| db := db w; session := session w;
                 calls := calls w ++ [call_get_user_by_id (Some m)] |})
    as (qr & url & img & Hshow).
  rewrite Hshow. eexists _, _, _. reflexivity.
Qed.

Lemma verify_admin_true (admin_users : gmap string string) (req : request) :
  default false (UserDB.verify_admin admin_users (form_get "username" req)
                   (form_get "password" req)) = true
  <-> admin_credentials admin_users req.
Proof.
  unfold UserDB.verify_admin, admin_credentials.
  destruct (form_get "username" req) as [u|]; cbn.
  - destruct (admin_users !! u) as [p|] eqn:Hu; cbn.
    + rewrite bool_decide_eq_true. split.
      * intros Hp. exists u, p. auto.
      * intros (u' & p' & [= <-] & Hp & Hu'). congruence.
    + split; [discriminate|]. intros (u' & p' & [= <-] & _ & Hu'). congruence.
  - split; [discriminate|]. intros (u' & p' & H & _). discriminate H.
Qed.

(** X11.  [admin_login] makes a session an administrator's exactly when the
    form carries the name and the password of a row of [admin_users]: the
    session then holds [is_admin] and the name, the tables are untouched, and
    the profile of every member opens.  With any other form the answer is
    the login page with its error and nothing changes.  A session that is an
    administrator's already is sent on to the dashboard without a look at
    the form. *)
Theorem admin_login_spec (admin_users : gmap string string) (req : request) (w : world) :
  (truthy (session w !! "is_admin"%string) = true ->
   App.admin_login admin_users req w = (go ep_admin_dashboard, w))
  /\ (truthy (session w !! "is_admin"%string) = false -> method req = GET ->
      App.admin_login admin_users req w = (page (admin_login_html None), w))
  /\ (truthy (session w !! "is_admin"%string) = false -> method req = POST ->
      ((App.admin_login admin_users req w).1 = go ep_admin_dashboard
       <-> admin_credentials admin_users req)
      /\ (~ admin_credentials admin_users req ->
          App.admin_login admin_users req w
          = (page (admin_login_html (Some "❌ Invalid admin credentials!"%string)), w))
      /\ (admin_credentials admin_users req ->
          session (App.admin_login admin_users req w).2 !! "is_admin"%string
            = Some (VBool true)
          /\ session (App.admin_login admin_users req w).2 !! "admin_username"%string
             = Some (sval_of (form_get "username" req))
          /\ db (App.admin_login admin_users req w).2 = db w
          /\ (forall env m r req', users (db w) !! m = Some r ->
                exists qr url img,
                  (App.admin_view_profile env m req' (App.admin_login admin_users req w).2).1
                  = render_template (user_profile_html (user_dict m r) qr url img true) 200))).
Proof.
  split; [|split].
  - intros Hadmin. unfold App.admin_login, bind, ret, session_get. rewrite Hadmin.
    reflexivity.
  - intros Hadmin Hget. unfold App.admin_login, bind, ret, session_get.
    rewrite Hadmin, Hget. reflexivity.
  - intros Hadmin Hpost.
    pose proof (verify_admin_true admin_users req) as Hv.
    unfold App.admin_login, bind, ret, session_get. rewrite Hadmin, Hpost.
    destruct (default false (UserDB.verify_admin admin_users (form_get "username" req)
                               (form_get "password" req))) eqn:E.
    + assert (Hc : admin_credentials admin_users req) by (apply Hv; reflexivity).
      unfold session_set, flash, with_session. cbn [fst snd db session calls].
      split; [split; [intros _; exact Hc | reflexivity]|].
      split; [intros Hno; contradiction|]. intros _.
      split; [rewrite lookup_insert_ne by discriminate;
              rewrite lookup_insert_ne by discriminate; apply lookup_insert_eq|].
      split; [rewrite lookup_insert_ne by discriminate; apply lookup_insert_eq|].
      split; [reflexivity|].
      intros env m r req' Hm. apply admin_view_profile_shows; [|exact Hm].
      cbn [session]. rewrite lookup_insert_ne by discriminate.
      rewrite lookup_insert_ne by discriminate. rewrite lookup_insert_eq. reflexivity.
    + assert (Hc : ~ admin_credentials admin_users req).
      { intros Hc. apply Hv in Hc. discriminate Hc. }
      cbn [fst snd].
      split; [split; [discriminate | intros Hc'; contradiction]|].
      split; [intros _; reflexivity|]. intros Hc'; contradiction.
Qed.

(** X11 on the table [init_database] creates: the password it puts in opens
    the administration, another password does not. *)
Lemma admin_login_spec_witness :
  truthy (session (sample_world ∅) !! "is_admin"%string) = false
  /\ admin_credentials Reference.admin_users (login_form "admin" "admin123")
  /\ (App.admin_login Reference.admin_users (login_form "admin" "admin123")
        (sample_world ∅)).1 = go ep_admin_dashboard
  /\ App.admin_login Reference.admin_users (login_form "admin" "letmein") (sample_world ∅)
     = (page (admin_login_html (Some "❌ Invalid admin credentials!"%string)), sample_world ∅).
Proof.
  assert (Hc : admin_credentials Reference.admin_users (login_form "admin" "admin123")).
  { exists "admin"%string, "admin123"%string. repeat split; vm_compute; reflexivity. }
  assert (Hno : ~ admin_credentials Reference.admin_users (login_form "admin" "letmein")).
  { intros (u & p & Hu & Hp & Hrow). vm_compute in Hu, Hp.
    injection Hu as <-. injection Hp as <-. vm_compute in Hrow. discriminate Hrow. }
  split; [vm_compute; reflexivity|]. split; [exact Hc|].
  destruct (admin_login_spec Reference.admin_users (login_form "admin" "admin123")
              (sample_world ∅)) as (_ & _ & Hpost).
  destruct (Hpost ltac:(vm_compute; reflexivity) eq_refl) as (Hiff & _ & _).
  split; [apply Hiff, Hc|].
  destruct (admin_login_spec Reference.admin_users (login_form "admin" "letmein")
              (sample_world ∅)) as (_ & _ & Hpost').
  destruct (Hpost' ltac:(vm_compute; reflexivity) eq_refl) as (_ & Hbad & _).
  exact (Hbad Hno).
Defined.

(** X13.  The token [generate_csrf_token] hands to a page is the one
    [verify_csrf_token] accepts from the form afterwards, and no other text
    nor a missing field is accepted then; a token that is in the session
    stays: a later call draws nothing new and leaves the session alone. *)
Theorem csrf_token_round_trip (token_hex : string) (t : string) (w : world) :
  (App.generate_csrf_token token_hex w).1 = VStr t ->
  (App.verify_csrf_token (Some t) (App.generate_csrf_token token_hex w).2).1 = true
  /\ (forall t', t' <> t ->
        (App.verify_csrf_token (Some t') (App.generate_csrf_token token_hex w).2).1 = false)
  /\ (App.verify_csrf_token None (App.generate_csrf_token token_hex w).2).1 = false
  /\ (forall token_hex',
        App.generate_csrf_token token_hex' (App.generate_csrf_token token_hex w).2
        = (VStr t, (App.generate_csrf_token token_hex w).2))
  /\ db (App.generate_csrf_token token_hex w).2 = db w
  /\ (session w !! "_csrf_token"%string = None -> t = token_hex).
Proof.
  unfold App.generate_csrf_token, App.verify_csrf_token, bind, ret, session_get, session_set,
    with_session.
  destruct (session w !! "_csrf_token"%string) as [v|] eqn:Hv; cbn [fst snd db session].
  - intros ->. rewrite Hv. cbn [default from_option id sval_of fst].
    split; [apply bool_decide_eq_true_2; reflexivity|].
    split; [intros t' Hne; apply bool_decide_eq_false_2; congruence|].
    split; [apply bool_decide_eq_false_2; discriminate|].
    split; [reflexivity|]. split; [reflexivity|]. discriminate.
  - intros [= <-]. rewrite lookup_insert_eq. cbn [default from_option id sval_of fst].
    split; [apply bool_decide_eq_true_2; reflexivity|].
    split; [intros t' Hne; apply bool_decide_eq_false_2; congruence|].
    split; [apply bool_decide_eq_false_2; discriminate|].
    split; [reflexivity|]. split; reflexivity.
Qed.

(** X13 for a first page of a fresh session. *)
Lemma csrf_token_round_trip_witness :
  (App.generate_csrf_token "5f2b0c9d41e87a36b1c4d2e0f9a87b65" (sample_world ∅)).1
    = VStr "5f2b0c9d41e87a36b1c4d2e0f9a87b65"
  /\ (App.verify_csrf_token (Some "5f2b0c9d41e87a36b1c4d2e0f9a87b65"%string)
        (App.generate_csrf_token "5f2b0c9d41e87a36b1c4d2e0f9a87b65" (sample_world ∅)).2).1
     = true
  /\ (App.verify_csrf_token None
        (App.generate_csrf_token "5f2b0c9d41e87a36b1c4d2e0f9a87b65" (sample_world ∅)).2).1
     = false.
Proof.
  assert (H : (App.generate_csrf_token "5f2b0c9d41e87a36b1c4d2e0f9a87b65"
                 (sample_world ∅)).1 = VStr "5f2b0c9d41e87a36b1c4d2e0f9a87b65")
    by (vm_compute; reflexivity).
  split; [exact H|].
  destruct (csrf_token_round_trip "5f2b0c9d41e87a36b1c4d2e0f9a87b65"
              "5f2b0c9d41e87a36b1c4d2e0f9a87b65" (sample_world ∅) H) as (Hok & _ & Hnone & _).
  split; [exact Hok | exact Hnone].
Defined.

Lemma flashes_flash (message category : string) (w : world) :
  flashes (session (flash message category w).2)
  = flashes (session w) ++ [(category, message)].
Proof.
  unfold flashes, flash, with_session. cbn [snd session].
  rewrite lookup_insert_eq. reflexivity.
Qed.

Lemma verify_csrf_token_run (token : option string) (w : world) :
  App.verify_csrf_token token w
  = (bool_decide (sval_of token = default VNone (session w !! "_csrf_token"%string)), w).
Proof. reflexivity. Qed.

(** The reset once the token and the password have passed. *)
Lemma admin_bulk_reset_passwords_run (req : request) (w : world) :
  truthy (session w !! "is_admin"%string) = true ->
  csrf_accepted req w ->
  (4 <= py_len (default "123456"%string (form_get "default_password" req)))%nat ->
  App.admin_bulk_reset_passwords req w
  = (go ep_admin_reset_passwords,
     (flash ("✅ All passwords reset to: " +:+
             default "123456"%string (form_get "default_password" req)) "success"
        {| db := passwords_reset (default "123456"%string (form_get "default_password" req))
                   (db w);
           session := session w; calls := calls w |}).2).
Proof.
  intros Hadmin Hcsrf Hlen.
  unfold App.admin_bulk_reset_passwords, App.admin_area, bind, session_get.
  rewrite Hadmin, verify_csrf_token_run, bool_decide_eq_true_2 by exact Hcsrf.
  cbn [negb].
  assert (Hne : default "123456"%string (form_get "default_password" req) <> ""%string)
    by (apply py_len_nonempty; lia).
  apply String.eqb_neq in Hne. rewrite Hne. cbn [orb].
  destruct (Nat.ltb_spec (py_len (default "123456"%string (form_get "default_password" req))) 4)
    as [Hlt|_]; [lia|].
  reflexivity.
Qed.

Lemma passwords_reset_lookup (new : string) (d : database) (m : string) :
  users (passwords_reset new d) !! m
  = (fun r => set_password (Some new) (updated_at r) r) <$> users d !! m.
Proof. cbn. apply lookup_fmap. Qed.

(** X14.  A POST to [admin_bulk_reset_passwords] under an administrator's
    session goes through when the token of the form is the token of the session and
    the password has at least four characters: then every member's password
    is the new one (123456 when the form names none) and nothing else of a
    row changes, every member logs in with it, and a password that worked
    before and differs from it is refused.  With a token that does not pass,
    or a password that is too short, no row changes. *)
Theorem admin_bulk_reset_passwords_spec (req : request) (w : world) :
  truthy (session w !! "is_admin"%string) = true -> method req = POST ->
  (App.admin_bulk_reset_passwords req w).1 = go ep_admin_reset_passwords
  /\ (~ csrf_accepted req w -> db (App.admin_bulk_reset_passwords req w).2 = db w)
  /\ ((py_len (default "123456"%string (form_get "default_password" req)) < 4)%nat ->
      db (App.admin_bulk_reset_passwords req w).2 = db w)
  /\ (csrf_accepted req w ->
      (4 <= py_len (default "123456"%string (form_get "default_password" req)))%nat ->
      (forall m,
         users (db (App.admin_bulk_reset_passwords req w).2) !! m
         = (fun r => set_password
                       (Some (default "123456"%string (form_get "default_password" req)))
                       (updated_at r) r) <$> users (db w) !! m)
      /\ login_logs (db (App.admin_bulk_reset_passwords req w).2) = login_logs (db w)
      /\ (forall m r req' pw,
            users (db w) !! m = Some r -> method req' = POST ->
            form_get "password" req' = Some pw -> pw <> ""%string ->
            ((App.login (Some m) req' (App.admin_bulk_reset_passwords req w).2).1
             = redirect (ep_user_profile m)
             <-> pw = default "123456"%string (form_get "default_password" req)))).
Proof.
  intros Hadmin _.
  destruct (decide (csrf_accepted req w)) as [Hcsrf|Hcsrf];
    [destruct (le_lt_dec 4 (py_len (default "123456"%string
                                      (form_get "default_password" req)))) as [Hlen|Hlen]|].
  - rewrite (admin_bulk_reset_passwords_run req w Hadmin Hcsrf Hlen).
    cbn [fst snd flash with_session db]. split; [reflexivity|].
    split; [intros H; contradiction|]. split; [intros H; lia|]. intros _ _.
    split; [intros m; apply passwords_reset_lookup|]. split; [reflexivity|].
    intros m r req' pw Hm Hpost Hpw Hne.
    set (new := default "123456"%string (form_get "default_password" req)).
    set (w1 := {| db := passwords_reset new (db w); session := _; calls := _ |}).
    assert (Hm1 : users (db w1) !! m = Some (set_password (Some new) (updated_at r) r)).
    { unfold w1. cbn [db]. rewrite passwords_reset_lookup, Hm. reflexivity. }
    rewrite (login_post m _ pw req' w1 Hm1 Hpost Hpw Hne). cbn [password set_password].
    destruct (bool_decide (Some new = Some pw)) eqn:E.
    + apply bool_decide_eq_true_1 in E. split; [congruence | reflexivity].
    + apply bool_decide_eq_false_1 in E. split; [discriminate | congruence].
  - unfold App.admin_bulk_reset_passwords, App.admin_area, bind, session_get.
    rewrite Hadmin, verify_csrf_token_run, bool_decide_eq_true_2 by exact Hcsrf.
    cbn [negb].
    assert (Hshort : (String.eqb (default "123456"%string (form_get "default_password" req)) ""
                      || Nat.ltb (py_len (default "123456"%string
                                            (form_get "default_password" req))) 4) = true).
    { apply orb_true_iff. right. apply Nat.ltb_lt. exact Hlen. }
    rewrite Hshort. cbn [fst snd flash with_session db ret].
    split; [reflexivity|]. split; [reflexivity|]. split; [reflexivity|]. intros _ H. lia.
  - unfold App.admin_bulk_reset_passwords, App.admin_area, bind, session_get.
    rewrite Hadmin, verify_csrf_token_run, bool_decide_eq_false_2 by exact Hcsrf.
    cbn [negb fst snd flash with_session db ret].
    split; [reflexivity|]. split; [reflexivity|]. split; [reflexivity|].
    intros H. contradiction.
Qed.

(** X14 on the sample tables, the token of the session sent back: M042,
    whose password was secret1, logs in with the new password. *)
Lemma admin_bulk_reset_passwords_spec_witness :
  truthy (session (sample_world (<["_csrf_token"%string := VStr "abc123"]> admin_session))
            !! "is_admin"%string) = true
  /\ (App.login (Some "M042"%string) (password_form "welcome")
        (App.admin_bulk_reset_passwords
           (post_form [("csrf_token", "abc123"); ("default_password", "welcome")]%string)
           (sample_world (<["_csrf_token"%string := VStr "abc123"]> admin_session))).2).1
     = redirect (ep_user_profile "M042").
Proof.
  assert (Hadmin : truthy (session (sample_world (<["_csrf_token"%string := VStr "abc123"]>
                                                    admin_session))
                             !! "is_admin"%string) = true) by (vm_compute; reflexivity).
  split; [exact Hadmin|].
  destruct (admin_bulk_reset_passwords_spec
              (post_form [("csrf_token", "abc123"); ("default_password", "welcome")]%string)
              (sample_world (<["_csrf_token"%string := VStr "abc123"]> admin_session))
              Hadmin eq_refl)
    as (_ & _ & _ & Hok).
  destruct (Hok ltac:(vm_compute; reflexivity) ltac:(vm_compute; lia)) as (_ & _ & Hlogin).
  apply (Hlogin "M042"%string (sample_row "secret1") (password_form "welcome") "welcome"%string);
    [vm_compute; reflexivity | reflexivity | reflexivity | discriminate | reflexivity].
Defined.

(** X15.  The token check lets a request through that carries no token at
    all when the session has none either: under an administrator's session
    that never drew a token, a POST whose form has no field in it resets the
    password of every member to 123456. *)
Theorem bulk_reset_accepts_missing_token (req : request) (w : world) :
  truthy (session w !! "is_admin"%string) = true -> method req = POST ->
  session w !! "_csrf_token"%string = None ->
  form_get "csrf_token" req = None ->
  form_get "default_password" req = None ->
  (forall m, is_Some (users (db w) !! m) ->
     password <$> users (db (App.admin_bulk_reset_passwords req w).2) !! m
     = Some (Some "123456"%string))
  /\ flashes (session (App.admin_bulk_reset_passwords req w).2)
     = flashes (session w) ++ [("success", "✅ All passwords reset to: 123456")]%string.
Proof.
  intros Hadmin _ Hs Hf Hp.
  assert (Hcsrf : csrf_accepted req w).
  { unfold csrf_accepted. rewrite Hs, Hf. reflexivity. }
  rewrite (admin_bulk_reset_passwords_run req w Hadmin Hcsrf)
    by (rewrite Hp; vm_compute; lia).
  rewrite Hp. cbn [default from_option id]. split.
  - intros m [r Hm]. cbn [snd flash with_session db].
    rewrite passwords_reset_lookup, Hm. reflexivity.
  - cbn [snd]. rewrite flashes_flash. reflexivity.
Qed.

(** X15 on the sample tables: an empty POST under an admin session. *)
Lemma bulk_reset_accepts_missing_token_witness :
  truthy (session (sample_world admin_session) !! "is_admin"%string) = true
  /\ session (sample_world admin_session) !! "_csrf_token"%string = None
  /\ form_get "csrf_token" (post_form []) = None
  /\ password <$> users (db (App.admin_bulk_reset_passwords (post_form [])
                               (sample_world admin_session)).2) !! "M042"%string
     = Some (Some "123456"%string).
Proof.
  assert (H1 : truthy (session (sample_world admin_session) !! "is_admin"%string) = true)
    by (vm_compute; reflexivity).
  assert (H2 : session (sample_world admin_session) !! "_csrf_token"%string = None)
    by (vm_compute; reflexivity).
  split; [exact H1|]. split; [exact H2|]. split; [reflexivity|].
  destruct (bulk_reset_accepts_missing_token (post_form []) (sample_world admin_session)
              H1 eq_refl H2 eq_refl eq_refl) as [Hall _].
  apply Hall. vm_compute. eauto.
Defined.

Lemma flash_then {A} (message category : string) (x : A) (w : world) :
  (let '(_, w') := flash message category w in ret x w') = (x, (flash message category w).2).
Proof. reflexivity. Qed.

Lemma change_user_password_run (m : string) (new : string) (w : world) :
  UserDB.change_user_password (Some m) new w
  = match users (db w) !! m with
    | Some r =>
        ((true, "Password changed successfully!"%string),
         {| db := password_changed m r new (db w); session := session w;
            calls := calls w ++ [call_change_user_password (Some m) new] |})
    | None =>
        ((false, "User not found!"%string),
         {| db := db w; session := session w;
            calls := calls w ++ [call_change_user_password (Some m) new] |})
    end.
Proof.
  unfold UserDB.change_user_password, bind, ret, called, get_db, put_db. cbn.
  destruct (users (db w) !! m); reflexivity.
Qed.

(** X16.  On a POST under an administrator's session, with a token that
    passes, a member named and a password of at least four characters,
    [admin_reset_single_password] replaces the password of that member
    without asking for the old one: no other row changes, the log gains
    nothing, and [verify_password] is not called.  For an identifier that
    has no row nothing changes and "User not found!" is flashed. *)
Theorem admin_reset_single_password_spec (req : request) (m new : string) (w : world) :
  truthy (session w !! "is_admin"%string) = true -> method req = POST ->
  csrf_accepted req w ->
  form_get "member_id" req = Some m -> m <> ""%string ->
  form_get "new_password" req = Some new -> (4 <= py_len new)%nat ->
  (App.admin_reset_single_password req w).1 = go ep_admin_reset_passwords
  /\ (forall m', m' <> m ->
        users (db (App.admin_reset_single_password req w).2) !! m' = users (db w) !! m')
  /\ login_logs (db (App.admin_reset_single_password req w).2) = login_logs (db w)
  /\ new_calls w (App.admin_reset_single_password req w).2
     = [call_change_user_password (Some m) new]
  /\ (forall r, users (db w) !! m = Some r ->
        users (db (App.admin_reset_single_password req w).2) !! m
        = Some (set_password (Some new) (Some (CURRENT_TIMESTAMP (db w))) r)
        /\ flashes (session (App.admin_reset_single_password req w).2)
           = flashes (session w) ++ [("success", "✅ Password reset for user " +:+ m)]%string
        /\ (forall pw, (UserDB.verify_password (Some m) pw
                          (App.admin_reset_single_password req w).2).1 = true <-> pw = new))
  /\ (users (db w) !! m = None ->
        db (App.admin_reset_single_password req w).2 = db w
        /\ flashes (session (App.admin_reset_single_password req w).2)
           = flashes (session w) ++ [("error", "❌ User not found!")]%string).
Proof.
  intros Hadmin _ Hcsrf Hm Hmne Hnew Hlen.
  assert (Hnne : new <> ""%string) by (apply py_len_nonempty; lia).
  unfold App.admin_reset_single_password, App.admin_area, bind, session_get.
  rewrite Hadmin, verify_csrf_token_run, bool_decide_eq_true_2 by exact Hcsrf.
  rewrite Hm, Hnew. cbn [negb nonempty default from_option id].
  apply String.eqb_neq in Hmne. apply String.eqb_neq in Hnne.
  rewrite Hmne, Hnne. cbn [negb orb].
  destruct (Nat.ltb_spec (py_len new) 4) as [Hlt|_]; [lia|].
  rewrite change_user_password_run.
  destruct (users (db w) !! m) as [r|] eqn:Hr; cbn [fst snd].
  - set (w1 := {| db := password_changed m r new (db w); session := session w;
                  calls := calls w ++ [call_change_user_password (Some m) new] |}).
    rewrite flash_then. cbn [fst snd].
    split; [reflexivity|].
    split; [intros m' Hne; cbn; apply lookup_insert_ne; congruence|].
    split; [reflexivity|].
    split; [cbn [flash with_session snd]; unfold w1; cbn [calls db session];
            apply new_calls_app|].
    split; [|intros H; discriminate H].
    intros r' [= <-].
    split; [cbn; apply lookup_insert_eq|].
    split; [rewrite flashes_flash; reflexivity|].
    intros pw.
    rewrite (verify_password_existing m (set_password (Some new) (Some (CURRENT_TIMESTAMP (db w))) r))
      by (cbn; apply lookup_insert_eq).
    cbn [fst password set_password]. rewrite bool_decide_eq_true.
    split; congruence.
  - rewrite flash_then. cbn [fst snd].
    split; [reflexivity|]. split; [reflexivity|]. split; [reflexivity|].
    split; [cbn [flash with_session snd calls db session]; apply new_calls_app|].
    split; [intros r H; discriminate H|]. intros _.
    split; [reflexivity|]. rewrite flashes_flash. reflexivity.
Qed.

(** X16 on the sample tables: the administrator gives M042 the password
    abcd, with a form that has no token. *)
Lemma admin_reset_single_password_spec_witness :
  truthy (session (sample_world admin_session) !! "is_admin"%string) = true
  /\ csrf_accepted (post_form [("member_id", "M042"); ("new_password", "abcd")]%string)
       (sample_world admin_session)
  /\ (4 <= py_len "abcd")%nat
  /\ password <$>
       users (db (App.admin_reset_single_password
                    (post_form [("member_id", "M042"); ("new_password", "abcd")]%string)
                    (sample_world admin_session)).2) !! "M042"%string
     = Some (Some "abcd"%string)
  /\ new_calls (sample_world admin_session)
       (App.admin_reset_single_password
          (post_form [("member_id", "M042"); ("new_password", "abcd")]%string)
          (sample_world admin_session)).2
     = [call_change_user_password (Some "M042"%string) "abcd"].
Proof.
  assert (H1 : truthy (session (sample_world admin_session) !! "is_admin"%string) = true)
    by (vm_compute; reflexivity).
  assert (H2 : csrf_accepted (post_form [("member_id", "M042"); ("new_password", "abcd")]%string)
                 (sample_world admin_session)) by (vm_compute; reflexivity).
  assert (H3 : (4 <= py_len "abcd")%nat) by (vm_compute; lia).
  split; [exact H1|]. split; [exact H2|]. split; [exact H3|].
  destruct (admin_reset_single_password_spec
              (post_form [("member_id", "M042"); ("new_password", "abcd")]%string)
              "M042" "abcd" (sample_world admin_session) H1 eq_refl H2 eq_refl
              ltac:(discriminate) eq_refl H3)
    as (_ & _ & _ & Hcalls & Hrow & _).
  split; [|exact Hcalls].
  destruct (Hrow (sample_row "secret1") ltac:(vm_compute; reflexivity)) as (Hset & _).
  rewrite Hset. reflexivity.
Defined.

Lemma secure_login_own_token (env : environment) (m : string) (req : request) (w : world) :
  reads_back (codec env) (member_payload m) ->
  App.secure_login env (App.serializer_dumps env (member_payload m)) req w
  = App.login (Some m) req w.
Proof.
  intros Hcodec. unfold App.secure_login, App.serializer_loads, App.serializer_dumps.
  rewrite (SerializerFacts.loads_dumps (codec env) _ _ Hcodec). reflexivity.
Qed.

(** X17.  Under an administrator's session [admin_delete_user] removes the
    member and the member's rows of the log, flashes the outcome and goes
    back to the list; the other members are untouched.  From then on the
    login page of the member answers 404, and so does the QR code that was
    printed for the member, although its signature is still good. *)
Theorem admin_delete_user_revokes_login (env : environment) (m : string) (w : world) :
  truthy (session w !! "is_admin"%string) = true ->
  (App.admin_delete_user m w).1 = redirect ep_admin_users
  /\ users (db (App.admin_delete_user m w).2) !! m = None
  /\ (forall m', m' <> m ->
        users (db (App.admin_delete_user m w).2) !! m' = users (db w) !! m')
  /\ flashes (session (App.admin_delete_user m w).2)
     = flashes (session w) ++
         [if bool_decide (is_Some (users (db w) !! m))
          then ("success", "✅ User deleted successfully!")
          else ("error", "❌ User not found!")]%string
  /\ (forall req,
        (App.login (Some m) req (App.admin_delete_user m w).2).1
        = render_template (error_html "User not found! Please check your QR code.") 404)
  /\ (reads_back (codec env) (member_payload m) ->
      App.serializer_loads env (App.serializer_dumps env (member_payload m))
        = Ok (member_payload m)
      /\ forall req,
           (App.secure_login env (App.serializer_dumps env (member_payload m)) req
              (App.admin_delete_user m w).2).1
           = render_template (error_html "User not found! Please check your QR code.") 404).
Proof.
  intros Hadmin.
  assert (Hrun : App.admin_delete_user m w
            = (redirect ep_admin_users,
               (flash (if bool_decide (is_Some (users (db w) !! m))
                       then "✅ User deleted successfully!" else "❌ User not found!")%string
                      (if bool_decide (is_Some (users (db w) !! m))
                       then "success" else "error")%string
                  {| db := {| users := delete m (users (db w));
                              login_logs := filter (fun l => log_member_id l <> Some m)
                                              (login_logs (db w));
                              CURRENT_TIMESTAMP := CURRENT_TIMESTAMP (db w) |};
                     session := session w; calls := calls w |}).2)).
  { unfold App.admin_delete_user, App.admin_required, bind, session_get.
    rewrite Hadmin, delete_user_run. cbn [fst snd].
    destruct (bool_decide (is_Some (users (db w) !! m))); reflexivity. }
  rewrite Hrun. cbn [fst snd].
  assert (Hgone : users (db (flash
                    (if bool_decide (is_Some (users (db w) !! m))
                     then "✅ User deleted successfully!" else "❌ User not found!")%string
                    (if bool_decide (is_Some (users (db w) !! m))
                     then "success" else "error")%string
                    {| db := {| users := delete m (users (db w));
                                login_logs := filter (fun l => log_member_id l <> Some m)
                                                (login_logs (db w));
                                CURRENT_TIMESTAMP := CURRENT_TIMESTAMP (db w) |};
                       session := session w; calls := calls w |}).2) !! m = None).
  { cbn. apply lookup_delete_eq. }
  split; [reflexivity|]. split; [exact Hgone|].
  split; [intros m' Hne; cbn; apply lookup_delete_ne; congruence|].
  split.
  { rewrite flashes_flash. destruct (bool_decide (is_Some (users (db w) !! m))); reflexivity. }
  split.
  { intros req. rewrite login_unknown by exact Hgone. reflexivity. }
  intros Hcodec. split; [apply SerializerFacts.loads_dumps; exact Hcodec|].
  intros req. rewrite (secure_login_own_token env m req _ Hcodec).
  rewrite login_unknown by exact Hgone. reflexivity.
Qed.

(** X17 on the sample tables: M042 is deleted, and the token of M042's QR
    code, which still decodes, leads to the 404 page. *)
Lemma admin_delete_user_revokes_login_witness :
  truthy (session (sample_world admin_session) !! "is_admin"%string) = true
  /\ reads_back (codec (Reference.env None)) (member_payload "M042")
  /\ (App.secure_login (Reference.env None)
        (App.serializer_dumps (Reference.env None) (member_payload "M042")) get_page
        (App.admin_delete_user "M042" (sample_world admin_session)).2).1
     = render_template (error_html "User not found! Please check your QR code.") 404.
Proof.
  assert (H1 : truthy (session (sample_world admin_session) !! "is_admin"%string) = true)
    by (vm_compute; reflexivity).
  pose proof (ReferenceFacts.member_payload_reads_back "M042") as H2.
  split; [exact H1|]. split; [exact H2|].
  destruct (admin_delete_user_revokes_login (Reference.env None) "M042"
              (sample_world admin_session) H1) as (_ & _ & _ & _ & _ & Hqr).
  destruct (Hqr H2) as [_ Hsecure]. apply Hsecure.
Defined.

(** X18.  [admin_reload_images] never reloads an image: as soon as one
    member has an image link the store calls a method it does not have and
    the request ends in a 500, with nothing written; when no member has one
    it reports that 0 images were reloaded. *)
Theorem admin_reload_images_spec (w : world) :
  truthy (session w !! "is_admin"%string) = true ->
  ((exists m r, users (db w) !! m = Some r /\ nonempty (image_path r) = true) ->
   App.admin_reload_images w = (internal_server_error, w))
  /\ ((forall m r, users (db w) !! m = Some r -> nonempty (image_path r) = false) ->
      (App.admin_reload_images w).1 = redirect ep_admin_users
      /\ db (App.admin_reload_images w).2 = db w
      /\ flashes (session (App.admin_reload_images w).2)
         = flashes (session w) ++ [("success", "✅ Reloaded 0 user images")]%string).
Proof.
  intros Hadmin.
  unfold App.admin_reload_images, App.admin_required, UserDB.reload_all_images,
    bind, ret, session_get, get_db.
  rewrite Hadmin.
  destruct (filter (fun mr : string * user_row => nonempty (image_path mr.2) = true)
              (map_to_list (users (db w)))) as [|x l] eqn:E.
  - split.
    + intros (m & r & Hm & Himg). exfalso.
      assert (Hin : (m, r) ∈ filter (fun mr : string * user_row =>
                                       nonempty (image_path mr.2) = true)
                                    (map_to_list (users (db w)))).
      { apply list_elem_of_filter. split; [exact Himg|].
        apply elem_of_map_to_list. exact Hm. }
      rewrite E in Hin. inversion Hin.
    + intros _. split; [reflexivity|]. split; [reflexivity|].
      unfold flashes, flash, with_session. cbn [fst snd session].
      rewrite lookup_insert_eq. reflexivity.
  - split; [intros _; reflexivity|].
    intros Hnone. exfalso.
    assert (Hin : x ∈ filter (fun mr : string * user_row => nonempty (image_path mr.2) = true)
                             (map_to_list (users (db w)))).
    { rewrite E. apply list_elem_of_here. }
    destruct x as [m r]. apply list_elem_of_filter in Hin as [Himg Hin].
    apply elem_of_map_to_list in Hin. cbn [snd] in Himg.
    rewrite (Hnone m r Hin) in Himg. discriminate Himg.
Qed.

(** X18 on the sample tables, where M042 has an image link. *)
Lemma admin_reload_images_spec_witness :
  truthy (session (sample_world admin_session) !! "is_admin"%string) = true
  /\ (exists m r, users (db (sample_world admin_session)) !! m = Some r
                  /\ nonempty (image_path r) = true)
  /\ App.admin_reload_images (sample_world admin_session)
     = (internal_server_error, sample_world admin_session).
Proof.
  assert (H1 : truthy (session (sample_world admin_session) !! "is_admin"%string) = true)
    by (vm_compute; reflexivity).
  assert (H2 : exists m r, users (db (sample_world admin_session)) !! m = Some r
                           /\ nonempty (image_path r) = true).
  { exists "M042"%string, (sample_row "secret1"). split; vm_compute; reflexivity. }
  split; [exact H1|]. split; [exact H2|].
  destruct (admin_reload_images_spec (sample_world admin_session) H1) as [Hfail _].
  exact (Hfail H2).
Defined.

Lemma dict_set_Forall {V} (P : string * V -> Prop) (k : string) (v : V) (d : dict V) :
  Forall P d -> P (k, v) -> Forall P (dict_set k v d).
Proof.
  intros Hd Hkv. induction Hd as [|[k' v'] d Hx Hd IH]; cbn.
  - constructor; [exact Hkv | constructor].
  - destruct (String.eqb k' k); constructor; assumption.
Qed.

Lemma dict_set_length {V} (k : string) (v : V) (d : dict V) :
  (length (dict_set k v d) <= S (length d))%nat.
Proof.
  induction d as [|[k' v'] d IH]; cbn; [lia|].
  destruct (String.eqb k' k); cbn; lia.
Qed.

(** The records [admin_bulk_edit] builds: one assignment each, no more
    records than identifiers ticked. *)
Lemma bulk_edit_records (field : string) (value : option string) (member_ids : list string) :
  forall acc : dict (dict (option string)),
    Forall (fun mu => mu.2 = [(field, value)]) acc ->
    Forall (fun mu => mu.2 = [(field, value)])
      (fold_left (fun d member_id => dict_set member_id [(field, value)] d) member_ids acc)
    /\ (length (fold_left (fun d member_id => dict_set member_id [(field, value)] d)
                  member_ids acc)
        <= length acc + length member_ids)%nat.
Proof.
  induction member_ids as [|m ids IH]; intros acc Hacc; cbn [fold_left length].
  - split; [exact Hacc | lia].
  - destruct (IH (dict_set m [(field, value)] acc)) as [H1 H2].
    + apply dict_set_Forall; [exact Hacc | reflexivity].
    + split; [exact H1|]. pose proof (dict_set_length m [(field, value)] acc). lia.
Qed.

Lemma bulk_update_users_result (one_year_later : string -> option string)
    (numeric_affinity : string -> string)
    (updates : dict (dict (option string))) (w : world) :
  Forall (fun mu => ~ sets_null_name mu.2) updates ->
  (UserDB.bulk_update_users one_year_later numeric_affinity updates w).1
  = (length (filter (matched (db w)) updates), []).
Proof.
  intros Hall. unfold UserDB.bulk_update_users, bind, ret, called, get_db, put_db.
  cbn [db session calls].
  pose proof (BulkFacts.update_all_spec one_year_later numeric_affinity updates (db w) 0%nat []) as H.
  cbv zeta in H.
  destruct (UserDB.update_all one_year_later numeric_affinity updates (db w, 0%nat, [])) as [[d' n] errors].
  cbn [fst snd db] in H |- *. destruct H as (Hn & He & _).
  rewrite Hn, He. cbn [Nat.add app]. f_equal.
  rewrite (BulkFacts.filter_ext_Forall (failing (db w)) (fun _ => False)).
  - clear. induction updates as [|x l IH]; [reflexivity|].
    rewrite filter_cons_False by (intros []). exact IH.
  - eapply Forall_impl; [exact Hall|].
    intros mu Hok. unfold failing. cbv beta in *. tauto.
Qed.

(** X19.  A POST to [admin_bulk_edit] under an administrator's session goes
    back to the form and changes no password and no row of the log.  Either
    the form lacks a member, a field or a value, which is flashed with the
    tables untouched; or the update runs, and then the only thing flashed is
    the number of rows updated, if there is one: since the value of the form
    is never NULL no record can fail, and no error is ever shown. *)
Theorem admin_bulk_edit_reports (env : environment) (numeric_affinity : string -> string)
    (order_by_name : gmap string user_row -> list (string * user_row))
    (req : request) (w : world) :
  truthy (session w !! "is_admin"%string) = true ->
  method req = POST ->
  (App.admin_bulk_edit env numeric_affinity order_by_name req w).1 = redirect ep_admin_bulk_edit
  /\ (forall m,
        password <$> users (db (App.admin_bulk_edit env numeric_affinity order_by_name req w).2) !! m
        = password <$> users (db w) !! m)
  /\ login_logs (db (App.admin_bulk_edit env numeric_affinity order_by_name req w).2) = login_logs (db w)
  /\ ((db (App.admin_bulk_edit env numeric_affinity order_by_name req w).2 = db w
       /\ flashes (session (App.admin_bulk_edit env numeric_affinity order_by_name req w).2)
          = flashes (session w) ++
              [("error", "❌ Please select users, field, and provide a value!")]%string)
      \/ flashes (session (App.admin_bulk_edit env numeric_affinity order_by_name req w).2) = flashes (session w)
      \/ exists n, (0 < n <= length (form_getlist "member_ids" req))%nat
                   /\ flashes (session (App.admin_bulk_edit env numeric_affinity order_by_name req w).2)
                      = flashes (session w) ++
                          [("success",
                            "✅ Successfully updated " +:+ pretty n +:+ " users!")]%string).
Proof.
  intros Hadmin Hpost.
  unfold App.admin_bulk_edit, App.admin_required, bind, session_get.
  rewrite Hadmin, Hpost.
  destruct (form_getlist "member_ids" req) as [|m0 ids] eqn:Hids.
  { rewrite flash_then. cbn [fst snd].
    split; [reflexivity|]. split; [reflexivity|]. split; [reflexivity|].
    left. split; [reflexivity|]. apply flashes_flash. }
  destruct (nonempty (form_get "field" req) && nonempty (form_get "value" req)) eqn:Hfv.
  2:{ rewrite flash_then. cbn [fst snd].
      split; [reflexivity|]. split; [reflexivity|]. split; [reflexivity|].
      left. split; [reflexivity|]. apply flashes_flash. }
  apply andb_true_iff in Hfv as [Hf Hv].
  destruct (form_get "value" req) as [v|] eqn:Hval; [|discriminate Hv].
  destruct (bulk_edit_records (default ""%string (form_get "field" req)) (Some v)
              (m0 :: ids) [] ltac:(constructor)) as [Hrec Hlen].
  set (updates := fold_left _ (m0 :: ids) []) in *.
  assert (Hok : Forall (fun mu : string * dict (option string) => ~ sets_null_name mu.2)
                  updates).
  { eapply Forall_impl; [exact Hrec|]. intros mu Hmu. rewrite Hmu.
    unfold sets_null_name. intros H. apply list_elem_of_singleton in H. discriminate H. }
  pose proof (bulk_update_users_result (one_year_later env) numeric_affinity updates w Hok) as Hres.
  pose proof (bulk_update_users_keeps_passwords (one_year_later env) numeric_affinity updates w) as Hpw.
  pose proof (bulk_update_users_logs (one_year_later env) numeric_affinity updates w) as [Hlogs Hsess].
  assert (Hn : (length (filter (matched (db w)) updates) <= length (m0 :: ids))%nat).
  { eapply Nat.le_trans; [apply length_filter|]. exact Hlen. }
  destruct (UserDB.bulk_update_users (one_year_later env) numeric_affinity updates w) as [[n errors] w2].
  cbn [fst snd] in Hres, Hpw, Hlogs, Hsess. injection Hres as -> ->.
  cbn [take fmap list_fmap flash_all length].
  destruct (decide (5 < 0)%nat) as [H50|_]; [lia|].
  destruct (decide (0 < length (filter (matched (db w)) updates))%nat) as [Hpos|Hzero].
  - unfold ret. rewrite (flash_then _ _ (redirect ep_admin_bulk_edit)) || idtac.
    cbn [fst snd flash with_session db].
    split; [reflexivity|]. split; [exact Hpw|]. split; [exact Hlogs|].
    right. right. exists (length (filter (matched (db w)) updates)).
    split; [split; [exact Hpos | exact Hn]|].
    unfold flashes. cbn [session]. rewrite lookup_insert_eq.
    rewrite Hsess. reflexivity.
  - unfold ret. cbn [fst snd].
    split; [reflexivity|]. split; [exact Hpw|]. split; [exact Hlogs|].
    right. left. rewrite Hsess. reflexivity.
Qed.

(** X19 on the sample tables: the name of M042 and M043 is replaced, the
    unknown M404 is passed over, and the count is all that is flashed. *)
Lemma admin_bulk_edit_reports_witness :
  truthy (session (sample_world admin_session) !! "is_admin"%string) = true
  /\ (App.admin_bulk_edit (Reference.env None) Reference.numeric_affinity
          Reference.order_by_name
        (bulk_form ["M042"; "M404"; "M043"]%string "name" "Asha R.")
        (sample_world admin_session)).1 = redirect ep_admin_bulk_edit
  /\ login_logs (db (App.admin_bulk_edit (Reference.env None) Reference.numeric_affinity
          Reference.order_by_name
                       (bulk_form ["M042"; "M404"; "M043"]%string "name" "Asha R.")
                       (sample_world admin_session)).2) = []
  /\ flashes (session (App.admin_bulk_edit (Reference.env None) Reference.numeric_affinity
          Reference.order_by_name
                         (bulk_form ["M042"; "M404"; "M043"]%string "name" "Asha R.")
                         (sample_world admin_session)).2)
     = [("success", "✅ Successfully updated 2 users!")]%string.
Proof.
  assert (H1 : truthy (session (sample_world admin_session) !! "is_admin"%string) = true)
    by (vm_compute; reflexivity).
  split; [exact H1|].
  destruct (admin_bulk_edit_reports (Reference.env None) Reference.numeric_affinity
              Reference.order_by_name
              (bulk_form ["M042"; "M404"; "M043"]%string "name" "Asha R.")
              (sample_world admin_session) H1 eq_refl) as (Hresp & _ & Hlogs & _).
  split; [exact Hresp|]. split; [exact Hlogs|]. vm_compute. reflexivity.
Defined.

(** The data [admin_add_user] and [admin_edit_user] make of a form. *)
Lemma add_user_form_run (env : environment) (numeric_affinity : string -> string)
    (req : request) (m nm : string) (w : world) :
  truthy (session w !! "is_admin"%string) = true -> method req = POST ->
  form_get "member_id" req = Some m -> form_get "name" req = Some nm ->
  App.admin_add_user env numeric_affinity req w
  = match users (db w) !! m with
    | None =>
        (Some (plain (redirect ep_admin_users)),
         (flash "✅ User added successfully!" "success"
            (UserDB.add_user (one_year_later env) numeric_affinity
               [("member_id", form_get "member_id" req);
                ("name", form_get "name" req);
                ("date_of_birth", form_get "date_of_birth" req);
                ("address", form_get "address" req);
                ("blood_group", form_get "blood_group" req);
                ("phone", form_get "phone" req);
                ("image_path", form_get "image_path" req);
                ("membership_type", form_get "membership_type" req);
                ("membership_joining_date", form_get "membership_joining_date" req);
                ("password", Some (default "123456" (form_get "password" req)))]%string
               w).2).2)
    | Some _ =>
        (Some (page admin_add_user_html),
         (flash "❌ Member ID already exists!" "error" w).2)
    end.
Proof.
  intros Hadmin Hpost Hm Hname.
  unfold App.admin_add_user, App.admin_area, bind, session_get.
  rewrite Hadmin, Hpost.
  destruct (users (db w) !! m) as [r|] eqn:Hr.
  - unfold UserDB.add_user, bind, ret, get_db, put_db. cbn [dict_get String.eqb Ascii.eqb Bool.eqb].
    rewrite Hm, Hname, Hr. reflexivity.
  - rewrite (add_user_run (one_year_later env) numeric_affinity _ m nm w);
      [reflexivity | cbn; rewrite Hm; reflexivity | cbn; rewrite Hname; reflexivity | exact Hr].
Qed.

(** X20.  A POST to [admin_add_user] under an administrator's session, with
    an identifier and a name in the form: when the identifier is free the
    member is stored under that name and the list is shown next; the member
    then logs in with the password of the form, or with 123456 when the form
    has no such field, and with no other password.  A password field that is
    sent empty is stored as it is and shuts the member out, since the login
    page refuses an empty password.  When the identifier is taken the form
    comes back with "Member ID already exists!" and nothing is changed. *)
Theorem admin_add_user_spec (env : environment) (numeric_affinity : string -> string)
    (req : request) (m nm : string) (w : world) :
  truthy (session w !! "is_admin"%string) = true -> method req = POST ->
  form_get "member_id" req = Some m -> form_get "name" req = Some nm ->
  (users (db w) !! m = None ->
   (App.admin_add_user env numeric_affinity req w).1 = Some (plain (redirect ep_admin_users))
   /\ flashes (session (App.admin_add_user env numeric_affinity req w).2)
      = flashes (session w) ++ [("success", "✅ User added successfully!")]%string
   /\ (exists r, users (db (App.admin_add_user env numeric_affinity req w).2) !! m = Some r
                 /\ name r = nm
                 /\ password r = Some (default "123456"%string (form_get "password" req)))
   /\ (forall m', m' <> m ->
         users (db (App.admin_add_user env numeric_affinity req w).2) !! m'
         = users (db w) !! m')
   /\ (forall pw req', method req' = POST -> form_get "password" req' = Some pw ->
         pw <> ""%string ->
         ((App.login (Some m) req' (App.admin_add_user env numeric_affinity req w).2).1
          = redirect (ep_user_profile m)
          <-> pw = default "123456"%string (form_get "password" req)))
   /\ (form_get "password" req = Some ""%string ->
       forall req',
         (App.login (Some m) req' (App.admin_add_user env numeric_affinity req w).2).1
         <> redirect (ep_user_profile m)))
  /\ (is_Some (users (db w) !! m) ->
      (App.admin_add_user env numeric_affinity req w).1 = Some (page admin_add_user_html)
      /\ db (App.admin_add_user env numeric_affinity req w).2 = db w
      /\ flashes (session (App.admin_add_user env numeric_affinity req w).2)
         = flashes (session w) ++ [("error", "❌ Member ID already exists!")]%string).
Proof.
  intros Hadmin Hpost Hm Hname.
  rewrite (add_user_form_run env numeric_affinity req m nm w Hadmin Hpost Hm Hname).
  destruct (users (db w) !! m) as [r0|] eqn:Hr.
  - split; [discriminate|]. intros _. cbn [fst snd].
    split; [reflexivity|]. split; [reflexivity|]. apply flashes_flash.
  - split; [|intros [x Hx]; discriminate Hx]. intros _.
    rewrite (add_user_run (one_year_later env) numeric_affinity _ m nm w)
      by (first [exact Hr | cbn; rewrite ?Hm, ?Hname; reflexivity]).
    cbn [fst snd].
    set (r := UserDB.inserted_row (one_year_later env) numeric_affinity (db w) nm _).
    set (w1 := (flash _ _ (with_users_of (<[m:=r]> (users (db w))) w)).2).
    assert (Hr1 : users (db w1) !! m = Some r) by apply lookup_insert_eq.
    assert (Hp : password r = Some (default "123456"%string (form_get "password" req)))
      by reflexivity.
    split; [reflexivity|].
    split; [unfold w1; rewrite flashes_flash; reflexivity|].
    split; [exists r; split; [exact Hr1 | split; [reflexivity | exact Hp]]|].
    split; [intros m' Hne; apply lookup_insert_ne; congruence|].
    split.
    + intros pw req' Hpost' Hpw Hne.
      rewrite (login_post m r pw req' w1 Hr1 Hpost' Hpw Hne). rewrite Hp.
      destruct (bool_decide (Some (default "123456"%string (form_get "password" req))
                             = Some pw)) eqn:E.
      * apply bool_decide_eq_true_1 in E. split; [congruence | reflexivity].
      * apply bool_decide_eq_false_1 in E. split; [discriminate | congruence].
    + intros Hempty req'. rewrite Hempty in Hp. cbn in Hp.
      destruct (method req') eqn:Hmeth.
      * rewrite (login_get m r req' w1 Hr1 Hmeth). discriminate.
      * destruct (form_get "password" req') as [pw|] eqn:Hpw;
          [destruct (String.eqb_spec pw "") as [->|Hne]|].
        -- rewrite (login_post_empty m r req' w1 Hr1 Hmeth) by (rewrite Hpw; reflexivity).
           discriminate.
        -- rewrite (login_post m r pw req' w1 Hr1 Hmeth Hpw Hne).
           rewrite bool_decide_eq_false_2; [discriminate|].
           intros Heq. pose proof (eq_trans (eq_sym Hp) Heq) as H'. congruence.
        -- rewrite (login_post_empty m r req' w1 Hr1 Hmeth) by (rewrite Hpw; reflexivity).
           discriminate.
Qed.

(** X20 on the sample tables: M100 is added without a password and logs in
    with 123456. *)
Lemma admin_add_user_spec_witness :
  truthy (session (sample_world admin_session) !! "is_admin"%string) = true
  /\ users (db (sample_world admin_session)) !! "M100"%string = None
  /\ (App.admin_add_user (Reference.env None) Reference.numeric_affinity add_user_form
        (sample_world admin_session)).1 = Some (plain (redirect ep_admin_users))
  /\ (App.login (Some "M100"%string) (password_form "123456")
        (App.admin_add_user (Reference.env None) Reference.numeric_affinity add_user_form
           (sample_world admin_session)).2).1 = redirect (ep_user_profile "M100").
Proof.
  assert (H1 : truthy (session (sample_world admin_session) !! "is_admin"%string) = true)
    by (vm_compute; reflexivity).
  assert (H2 : users (db (sample_world admin_session)) !! "M100"%string = None)
    by (vm_compute; reflexivity).
  split; [exact H1|]. split; [exact H2|].
  destruct (admin_add_user_spec (Reference.env None) Reference.numeric_affinity add_user_form
              "M100" "Bo Lin" (sample_world admin_session) H1 eq_refl eq_refl eq_refl)
    as [Hnew _].
  destruct (Hnew H2) as (Hresp & _ & _ & _ & Hlogin & _).
  split; [exact Hresp|].
  apply (Hlogin "123456"%string (password_form "123456")); [reflexivity | reflexivity | discriminate | reflexivity].
Defined.

Lemma edit_user_form_run (env : environment) (numeric_affinity : string -> string)
    (m : string) (r : user_row) (req : request) (w : world) :
  truthy (session w !! "is_admin"%string) = true -> method req = POST ->
  users (db w) !! m = Some r ->
  App.admin_edit_user env numeric_affinity m req w
  = match form_get "name" req with
    | Some nm =>
        (plain (redirect ep_admin_users),
         (flash "✅ User updated successfully!" "success"
            {| db := {| users :=
                          <[m := UserDB.rewritten_row (one_year_later env) numeric_affinity
                                   (db w) nm
                                   [("name", form_get "name" req);
                                    ("date_of_birth", form_get "date_of_birth" req);
                                    ("address", form_get "address" req);
                                    ("blood_group", form_get "blood_group" req);
                                    ("phone", form_get "phone" req);
                                    ("image_path", form_get "image_path" req);
                                    ("membership_type", form_get "membership_type" req);
                                    ("membership_joining_date",
                                     form_get "membership_joining_date" req)]%string r]>
                            (users (db w));
                        login_logs := login_logs (db w);
                        CURRENT_TIMESTAMP := CURRENT_TIMESTAMP (db w) |};
               session := session w;
               calls := calls w ++ [call_get_user_by_id (Some m)] |}).2)
    | None =>
        (page (admin_edit_user_html (user_dict m r)),
         (flash "❌ Error updating user: NOT NULL constraint failed: users.name" "error"
            {| db := db w; session := session w;
               calls := calls w ++ [call_get_user_by_id (Some m)] |}).2)
    end.
Proof.
  intros Hadmin Hpost Hm.
  unfold App.admin_edit_user, App.admin_area, bind, session_get.
  rewrite Hadmin, (get_user_by_id_existing m r w Hm), Hpost.
  unfold UserDB.update_user, bind, ret, get_db, put_db.
  cbn [dict_get String.eqb Ascii.eqb Bool.eqb find_user db].
  rewrite Hm. destruct (form_get "name" req) as [nm|]; reflexivity.
Qed.

(** X21.  [admin_edit_user] under an administrator's session.  An
    identifier without a row is answered with "User not found!" and the
    list.  A POST for a member that exists and with a name in the form
    rewrites the row from the form: the eight columns of the form take the
    values of its fields, a field that is missing making its column NULL,
    while the password and the date of creation stay, so the member's
    password still works; the other rows are untouched.  A POST without a
    name changes nothing and shows the form again with the error of the
    constraint.  A GET shows the form and changes nothing. *)
Theorem admin_edit_user_spec (env : environment) (numeric_affinity : string -> string)
    (m : string) (req : request) (w : world) :
  truthy (session w !! "is_admin"%string) = true ->
  (users (db w) !! m = None ->
   (App.admin_edit_user env numeric_affinity m req w).1 = plain (redirect ep_admin_users)
   /\ db (App.admin_edit_user env numeric_affinity m req w).2 = db w
   /\ flashes (session (App.admin_edit_user env numeric_affinity m req w).2)
      = flashes (session w) ++ [("error", "❌ User not found!")]%string)
  /\ (forall r, users (db w) !! m = Some r -> method req = GET ->
        (App.admin_edit_user env numeric_affinity m req w).1
          = page (admin_edit_user_html (user_dict m r))
        /\ db (App.admin_edit_user env numeric_affinity m req w).2 = db w)
  /\ (forall r nm, users (db w) !! m = Some r -> method req = POST ->
        form_get "name" req = Some nm ->
        (App.admin_edit_user env numeric_affinity m req w).1 = plain (redirect ep_admin_users)
        /\ (exists r',
              users (db (App.admin_edit_user env numeric_affinity m req w).2) !! m = Some r'
              /\ name r' = nm
              /\ address r' = form_get "address" req
              /\ blood_group r' = form_get "blood_group" req
              /\ phone r' = form_get "phone" req
              /\ image_path r' = form_get "image_path" req
              /\ membership_type r' = form_get "membership_type" req
              /\ password r' = password r
              /\ created_at r' = created_at r)
        /\ (forall m', m' <> m ->
              users (db (App.admin_edit_user env numeric_affinity m req w).2) !! m'
              = users (db w) !! m')
        /\ (forall pw,
              (UserDB.verify_password (Some m) pw
                 (App.admin_edit_user env numeric_affinity m req w).2).1
              = (UserDB.verify_password (Some m) pw w).1))
  /\ (forall r, users (db w) !! m = Some r -> method req = POST ->
        form_get "name" req = None ->
        (App.admin_edit_user env numeric_affinity m req w).1
          = page (admin_edit_user_html (user_dict m r))
        /\ db (App.admin_edit_user env numeric_affinity m req w).2 = db w
        /\ flashes (session (App.admin_edit_user env numeric_affinity m req w).2)
           = flashes (session w) ++
               [("error",
                 "❌ Error updating user: NOT NULL constraint failed: users.name")]%string).
Proof.
  intros Hadmin. split; [|split; [|split]].
  - intros Hm. unfold App.admin_edit_user, App.admin_area, bind, session_get.
    rewrite Hadmin. unfold UserDB.get_user_by_id, bind, ret, called, get_db.
    cbn [db session calls fst snd]. rewrite Hm. cbn [fmap option_fmap option_map].
    split; [reflexivity|]. split; [reflexivity|].
    unfold flashes, flash, with_session. cbn [fst snd session].
    rewrite lookup_insert_eq. reflexivity.
  - intros r Hm Hget. unfold App.admin_edit_user, App.admin_area, bind, session_get.
    rewrite Hadmin, (get_user_by_id_existing m r w Hm), Hget. split; reflexivity.
  - intros r nm Hm Hpost Hname.
    rewrite (edit_user_form_run env numeric_affinity m r req w Hadmin Hpost Hm), Hname.
    cbn [fst snd].
    set (r1 := UserDB.rewritten_row (one_year_later env) numeric_affinity (db w) nm _ r).
    split; [reflexivity|].
    split.
    { exists r1. split; [cbn; apply lookup_insert_eq|]. repeat split; reflexivity. }
    split; [intros m' Hne; cbn; apply lookup_insert_ne; congruence|].
    intros pw.
    rewrite (verify_password_existing m r1) by (cbn; apply lookup_insert_eq).
    rewrite (verify_password_existing m r pw w Hm). reflexivity.
  - intros r Hm Hpost Hname.
    rewrite (edit_user_form_run env numeric_affinity m r req w Hadmin Hpost Hm), Hname.
    cbn [fst snd].
    split; [reflexivity|]. split; [reflexivity|]. rewrite flashes_flash. reflexivity.
Qed.

(** X21 on the sample tables: M042 is renamed by a form that carries a name
    only; the blood group, which the form does not mention, becomes NULL,
    and the password stays. *)
Lemma admin_edit_user_spec_witness :
  truthy (session (sample_world admin_session) !! "is_admin"%string) = true
  /\ users (db (sample_world admin_session)) !! "M042"%string = Some (sample_row "secret1")
  /\ (fun r => (name r, blood_group r, password r)) <$>
       users (db (App.admin_edit_user (Reference.env None) Reference.numeric_affinity "M042"
                    (rename_form "Asha R.") (sample_world admin_session)).2) !! "M042"%string
     = Some ("Asha R."%string, None, Some "secret1"%string).
Proof.
  assert (H1 : truthy (session (sample_world admin_session) !! "is_admin"%string) = true)
    by (vm_compute; reflexivity).
  assert (H2 : users (db (sample_world admin_session)) !! "M042"%string
               = Some (sample_row "secret1")) by (vm_compute; reflexivity).
  split; [exact H1|]. split; [exact H2|].
  destruct (admin_edit_user_spec (Reference.env None) Reference.numeric_affinity "M042"
              (rename_form "Asha R.") (sample_world admin_session) H1) as (_ & _ & Hpost & _).
  destruct (Hpost (sample_row "secret1") "Asha R."%string H2 eq_refl eq_refl)
    as (_ & (r' & Hr' & Hn & _ & Hb & _ & _ & _ & Hp & _) & _).
  rewrite Hr'. cbn. rewrite Hn, Hb, Hp. reflexivity.
Defined.

(* ===================================================================== *)
(** * The text of a token, and the page of QR codes                        *)
(* ===================================================================== *)

Lemma digit_in_alphabet (v : list bool) :
  length v = 6%nat -> Base64.digit v ∈ Base64.alphabet.
Proof.
  intros Hv.
  destruct v as [|b1 [|b2 [|b3 [|b4 [|b5 [|b6 [|]]]]]]]; try discriminate Hv.
  destruct b1, b2, b3, b4, b5, b6; apply (bool_decide_unpack _); vm_compute; exact I.
Qed.

Lemma base64_encode_alphabet (s : bytes) :
  Forall (fun c => c ∈ Base64.alphabet) (Signer.base64_encode s).
Proof.
  induction s as [| x | x y | x y z s IH] using Base64Facts.list_ind3.
  - constructor.
  - destruct x as [x0 x1 x2 x3 x4 x5 x6 x7]. unfold Signer.base64_encode.
    cbn [Base64.urlsafe_b64encode Base64.bits_of_byte app take drop].
    rewrite !Base64Facts.rstrip_digit by reflexivity.
    repeat (constructor; [apply digit_in_alphabet; reflexivity|]). constructor.
  - destruct x as [x0 x1 x2 x3 x4 x5 x6 x7], y as [y0 y1 y2 y3 y4 y5 y6 y7].
    unfold Signer.base64_encode.
    cbn [Base64.urlsafe_b64encode Base64.bits_of_byte app take drop].
    rewrite !Base64Facts.rstrip_digit by reflexivity.
    repeat (constructor; [apply digit_in_alphabet; reflexivity|]). constructor.
  - rewrite Base64Facts.base64_encode_group, Base64Facts.base64_encode_3.
    apply Forall_app. split; [|exact IH].
    destruct x as [x0 x1 x2 x3 x4 x5 x6 x7], y as [y0 y1 y2 y3 y4 y5 y6 y7],
      z as [z0 z1 z2 z3 z4 z5 z6 z7].
    cbn [Base64.urlsafe_b64encode Base64.bits_of_byte app take drop].
    repeat (constructor; [apply digit_in_alphabet; reflexivity|]). constructor.
Qed.

(** X22.  Whatever the object, the codec and the secret, a token is made of
    letters, digits, [-], [_] and [.] only.  It holds none of the characters
    that would end or split a segment of a URL, so the address on a QR code,
    the base URL followed by [secure-login/] and the token, reaches
    [secure_login] with the whole token. *)
Theorem token_is_url_safe (env : environment) (obj : payload) :
  Forall url_safe (b (App.serializer_dumps env obj))
  /\ (forall c, url_safe c ->
        c ∉ ["/"; "?"; "#"; "%"; "&"; "="; "+"; " "; "034"; "<"; ">"; "\"]%char)
  /\ (forall m base_url qr login_url,
        App.generate_qr_code env m base_url = (Some qr, Some login_url) ->
        exists token,
          login_url = (base_url +:+ "secure-login/" +:+ token)%string
          /\ token = App.serializer_dumps env (member_payload m)
          /\ Forall url_safe (b token)).
Proof.
  assert (Hsafe : forall obj', Forall url_safe (b (App.serializer_dumps env obj'))).
  { intros obj'. unfold App.serializer_dumps, URLSafeSerializer.dumps.
    rewrite SerializerFacts.b_string_of_list. unfold Signer.sign, Signer.get_signature.
    assert (Henc : forall s, Forall url_safe (Signer.base64_encode s)).
    { intros s. eapply Forall_impl; [apply base64_encode_alphabet|].
      intros c Hc. left. exact Hc. }
    apply Forall_app. split.
    - unfold URLSafeSerializer.dump_payload. destruct (decide _).
      + constructor; [right; reflexivity | apply Henc].
      + apply Henc.
    - constructor; [right; reflexivity | apply Henc]. }
  split; [apply Hsafe|]. split.
  - intros c [Hc| ->].
    + assert (Hall : Forall (fun c => c ∉ ["/"; "?"; "#"; "%"; "&"; "="; "+"; " "; "034";
                                           "<"; ">"; "\"]%char) Base64.alphabet).
      { apply (bool_decide_unpack _). vm_compute. exact I. }
      rewrite Forall_forall in Hall. apply Hall, Hc.
    + apply (bool_decide_unpack _). vm_compute. exact I.
  - intros m base_url qr login_url. unfold App.generate_qr_code.
    destruct (String.eqb m ""); [discriminate|].
    fold (member_payload m).
    destruct (qr_png_base64 env _); [|discriminate].
    intros [= _ <-]. eexists. split; [reflexivity|]. split; [reflexivity|]. apply Hsafe.
Qed.

(* ===================================================================== *)
(** * Image links                                                          *)
(* ===================================================================== *)

Lemma append_cons (c : ascii) (s t : string) : (String c s +:+ t = String c (s +:+ t))%string.
Proof. reflexivity. Qed.

Lemma append_nil (t : string) : ("" +:+ t = t)%string.
Proof. reflexivity. Qed.

Lemma substring_whole (s : string) : String.substring 0 (String.length s) s = s.
Proof. induction s as [|c s IH]; cbn; [reflexivity|]. rewrite IH. reflexivity. Qed.

Lemma substring_left (s t : string) :
  String.substring 0 (String.length s) (s +:+ t) = s.
Proof.
  induction s as [|c s IH].
  - rewrite append_nil. destruct t; reflexivity.
  - rewrite append_cons. cbn [String.length String.substring]. rewrite IH. reflexivity.
Qed.

(** The first occurrence of a character that the text before it lacks. *)
Lemma index_char_app (c : ascii) (s t : string) :
  String.index 0 (String c "") s = None ->
  String.index 0 (String c "") (s +:+ String c t) = Some (String.length s).
Proof.
  induction s as [|x s IH].
  - intros _. rewrite append_nil. cbn.
    destruct (ascii_dec c c) as [_|Hne]; [|contradiction Hne; reflexivity].
    destruct t; reflexivity.
  - rewrite append_cons. cbn [String.index String.prefix String.length].
    destruct (ascii_dec c x) as [_|Hne].
    + destruct s; discriminate.
    + destruct (String.index 0 (String c "") s) eqn:E; [discriminate|].
      intros _. rewrite IH by reflexivity. reflexivity.
Qed.

Lemma split_0_char_app (c : ascii) (s t : string) :
  UserDB.contains (String c "") s = false ->
  UserDB.split_0 (String c "") (s +:+ String c t) = s.
Proof.
  unfold UserDB.contains, UserDB.split_0. intros H.
  rewrite index_char_app by (destruct (String.index 0 (String c "") s); [discriminate H|reflexivity]).
  apply substring_left.
Qed.

Lemma split_0_absent (sep s : string) :
  UserDB.contains sep s = false -> UserDB.split_0 sep s = s.
Proof.
  unfold UserDB.contains, UserDB.split_0.
  destruct (String.index 0 sep s); [discriminate | reflexivity].
Qed.

Lemma split_0_cons (sep : string) (c : ascii) (t : string) :
  UserDB.split_0 sep (String c t)
  = if String.prefix sep (String c t) then ""%string else String c (UserDB.split_0 sep t).
Proof.
  unfold UserDB.split_0. cbn [String.index].
  destruct (String.prefix sep (String c t)); [reflexivity|].
  destruct (String.index 0 sep t); reflexivity.
Qed.

(** The text before the first [/] is not changed by cutting the text at a
    separator that begins with [/]. *)
Lemma split_0_slash (sep' t : string) :
  UserDB.split_0 "/" (UserDB.split_0 (String "/" sep') t) = UserDB.split_0 "/" t.
Proof.
  induction t as [|c t IH]; [reflexivity|].
  rewrite (split_0_cons (String "/" sep')), (split_0_cons "/" c t).
  cbn [String.prefix].
  destruct (ascii_dec "/" c) as [<-|Hne].
  - destruct (String.prefix sep' t); [destruct t; reflexivity|].
    rewrite split_0_cons. cbn [String.prefix].
    destruct (ascii_dec "/" "/") as [_|H]; [|contradiction H; reflexivity].
    destruct (UserDB.split_0 (String "/" sep') t), t; reflexivity.
  - rewrite split_0_cons. cbn [String.prefix].
    destruct (ascii_dec "/" c) as [E|_]; [contradiction|].
    rewrite IH. reflexivity.
Qed.

(** What follows the first [/file/d/] of a share link. *)
Lemma share_link_tail (tail : string) :
  String.index 0 "/file/d/" ("https://drive.google.com/file/d/" +:+ tail) = Some 24%nat
  /\ String.substring 32 (String.length ("https://drive.google.com/file/d/" +:+ tail) - 32)
       ("https://drive.google.com/file/d/" +:+ tail) = tail.
Proof.
  split; [destruct tail; reflexivity|].
  rewrite !append_cons, append_nil.
  cbn [String.length Nat.sub String.substring].
  rewrite Nat.sub_0_r. apply substring_whole.
Qed.

Lemma convert_share_link (tail : string) (w : world) :
  (UserDB.convert_google_drive_url (Some ("https://drive.google.com/file/d/" +:+ tail)%string)
     w).1
  = if String.eqb (UserDB.split_0 "/" tail) ""
    then Some ("https://drive.google.com/file/d/" +:+ tail)%string
    else Some ("https://drive.google.com/thumbnail?id=" +:+ UserDB.split_0 "/" tail
               +:+ "&sz=w400")%string.
Proof.
  destruct (share_link_tail tail) as [Hidx Hsub].
  unfold UserDB.convert_google_drive_url, bind, ret, called. cbn [fst].
  assert (Hne : String.eqb ("https://drive.google.com/file/d/" +:+ tail) "" = false)
    by reflexivity.
  rewrite Hne. unfold UserDB.contains at 1. rewrite Hidx.
  unfold UserDB.split_1. rewrite Hidx.
  change (24 + String.length "/file/d/")%nat with 32%nat. rewrite Hsub.
  rewrite (split_0_slash "file/d/" tail). reflexivity.
Qed.

(** X23.  A share link of Google Drive,
    [https://drive.google.com/file/d/<id>] with or without a path after the
    identifier, is turned into the thumbnail link of the same identifier;
    with an empty identifier the link is given back as it is.  Neither the
    tables nor the session are touched. *)
Theorem drive_share_link_becomes_thumbnail (file_id rest : string) (w : world) :
  UserDB.contains "/" file_id = false ->
  (file_id <> ""%string ->
   (UserDB.convert_google_drive_url
      (Some ("https://drive.google.com/file/d/" +:+ file_id +:+ "/" +:+ rest)%string) w).1
   = Some ("https://drive.google.com/thumbnail?id=" +:+ file_id +:+ "&sz=w400")%string
   /\ (UserDB.convert_google_drive_url
         (Some ("https://drive.google.com/file/d/" +:+ file_id)%string) w).1
      = Some ("https://drive.google.com/thumbnail?id=" +:+ file_id +:+ "&sz=w400")%string)
  /\ (UserDB.convert_google_drive_url
        (Some ("https://drive.google.com/file/d/" +:+ "/" +:+ rest)%string) w).1
     = Some ("https://drive.google.com/file/d/" +:+ "/" +:+ rest)%string
  /\ db (UserDB.convert_google_drive_url
           (Some ("https://drive.google.com/file/d/" +:+ file_id +:+ "/" +:+ rest)%string) w).2
     = db w
  /\ session (UserDB.convert_google_drive_url
                (Some ("https://drive.google.com/file/d/" +:+ file_id +:+ "/" +:+ rest)%string)
                w).2
     = session w.
Proof.
  intros Hslash. split; [|split; [|split; reflexivity]].
  - intros Hne. apply String.eqb_neq in Hne. split.
    + rewrite convert_share_link.
      change ("/" +:+ rest)%string with (String "/" rest).
      rewrite (split_0_char_app "/" file_id rest Hslash), Hne. reflexivity.
    + rewrite convert_share_link, (split_0_absent "/" file_id Hslash), Hne. reflexivity.
  - rewrite convert_share_link.
    change ("/" +:+ rest)%string with ("" +:+ String "/" rest)%string.
    rewrite (split_0_char_app "/" "" rest eq_refl). reflexivity.
Qed.

(** X23 on the link of the sample row. *)
Lemma drive_share_link_becomes_thumbnail_witness :
  UserDB.contains "/" "1AbC" = false
  /\ (UserDB.convert_google_drive_url
        (Some "https://drive.google.com/file/d/1AbC/view"%string) (sample_world ∅)).1
     = Some "https://drive.google.com/thumbnail?id=1AbC&sz=w400"%string.
Proof.
  split; [reflexivity|].
  destruct (drive_share_link_becomes_thumbnail "1AbC" "view" (sample_world ∅) eq_refl)
    as [Hlink _].
  destruct (Hlink ltac:(discriminate)) as [H _]. exact H.
Defined.

Lemma substring_nil (n m : nat) : String.substring n m "" = ""%string.
Proof. destruct n, m; reflexivity. Qed.

Lemma substring_prefix (s : string) : forall k l n,
  (k + l <= n)%nat ->
  String.substring k l (String.substring 0 n s) = String.substring k l s.
Proof.
  induction s as [|c s IH]; intros k l n Hle.
  - rewrite !substring_nil. reflexivity.
  - destruct n as [|n].
    + assert (k = 0%nat) by lia. assert (l = 0%nat) by lia. subst. reflexivity.
    + cbn [String.substring]. destruct k as [|k].
      * destruct l as [|l]; [reflexivity|]. cbn [String.substring].
        rewrite (IH 0%nat l n) by lia. reflexivity.
      * cbn [String.substring]. apply IH. lia.
Qed.

Lemma substring_substring (s : string) : forall i k l n,
  (k + l <= n)%nat ->
  String.substring k l (String.substring i n s) = String.substring (i + k) l s.
Proof.
  induction s as [|c s IH]; intros i k l n Hle.
  - rewrite !substring_nil. reflexivity.
  - destruct i as [|i].
    + apply substring_prefix, Hle.
    + cbn [String.substring Nat.add]. apply IH, Hle.
Qed.

(** A text that holds [/open?id=] holds [id=]. *)
Lemma open_id_has_id (url : string) :
  UserDB.contains "/open?id=" url = true -> UserDB.contains "id=" url = true.
Proof.
  unfold UserDB.contains.
  destruct (String.index 0 "/open?id=" url) as [i|] eqn:Hopen; [|discriminate].
  intros _. destruct (String.index 0 "id=" url) as [j|] eqn:Hid; [reflexivity|].
  exfalso. apply String.index_correct1 in Hopen. cbn [String.length] in Hopen.
  apply (String.index_correct3 0 (i + 6) "id=" url Hid); [discriminate | lia |].
  cbn [String.length].
  rewrite <- (substring_substring url i 6 3 9) by lia. rewrite Hopen. reflexivity.
Qed.

(** X24.  [convert_google_drive_url] answers [None] to no link and to the
    empty link only, and gives back unchanged a link that holds neither
    [/file/d/] nor [id=].  Its third case, for links with [/open?id=], is
    never reached: such a link holds [id=] and is taken by the second case,
    and the function computes what it would compute without the third. *)
Theorem convert_google_drive_url_cases (url : string) (w : world) :
  (UserDB.convert_google_drive_url None w).1 = None
  /\ (UserDB.convert_google_drive_url (Some ""%string) w).1 = None
  /\ (url <> ""%string -> is_Some (UserDB.convert_google_drive_url (Some url) w).1)
  /\ (url <> ""%string -> UserDB.contains "/file/d/" url = false ->
      UserDB.contains "id=" url = false ->
      (UserDB.convert_google_drive_url (Some url) w).1 = Some url)
  /\ (UserDB.contains "/open?id=" url = true -> UserDB.contains "id=" url = true)
  /\ (UserDB.convert_google_drive_url (Some url) w).1
     = (if String.eqb url "" then None
        else
          match (if UserDB.contains "/file/d/" url
                 then Some (UserDB.split_0 "/" (UserDB.split_1 "/file/d/" url))
                 else if UserDB.contains "id=" url
                      then Some (UserDB.split_0 "&" (UserDB.split_1 "id=" url))
                      else None) with
          | Some f =>
              if String.eqb f "" then Some url
              else Some ("https://drive.google.com/thumbnail?id=" +:+ f +:+ "&sz=w400")%string
          | None => Some url
          end).
Proof.
  pose proof (open_id_has_id url) as Hdead.
  unfold UserDB.convert_google_drive_url, bind, ret, called. cbn [fst].
  split; [reflexivity|]. split; [reflexivity|]. split; [|split; [|split]].
  - intros Hne. apply String.eqb_neq in Hne. rewrite Hne.
    repeat match goal with |- context [if ?c then _ else _] => destruct c end;
      eexists; reflexivity.
  - intros Hne H1 H2. apply String.eqb_neq in Hne. rewrite Hne, H1, H2.
    destruct (UserDB.contains "/open?id=" url) eqn:H3; [|reflexivity].
    pose proof (Hdead eq_refl) as H. congruence.
  - exact Hdead.
  - destruct (String.eqb url ""); [reflexivity|].
    destruct (UserDB.contains "/file/d/" url); [reflexivity|].
    destruct (UserDB.contains "id=" url) eqn:H2; [reflexivity|].
    destruct (UserDB.contains "/open?id=" url) eqn:H3; [|reflexivity].
    pose proof (Hdead eq_refl) as H. congruence.
Qed.

Lemma reference_lists_by_name : lists_by_name Reference.order_by_name.
Proof.
  intros u. unfold Reference.order_by_name. split.
  - apply merge_sort_Permutation.
  - apply Sorted_merge_sort. intros x y. unfold by_name. apply String.leb_total.
Qed.

(** The users a page lists are rows of the table, each at most once. *)
Lemma listed_users_rows (order_by_name : gmap string user_row -> list (string * user_row))
    (search_term : string) (w : world) (us : list (dict (option string))) :
  lists_by_name order_by_name ->
  (App.listed_users order_by_name search_term w).1 = Some us ->
  (App.listed_users order_by_name search_term w).2 = w
  /\ exists rows, us = (fun mr => user_dict mr.1 mr.2) <$> rows
                  /\ NoDup rows.*1
                  /\ Forall (fun mr => users (db w) !! mr.1 = Some mr.2) rows.
Proof.
  intros Hobn. destruct (Hobn (users (db w))) as [Hperm _].
  assert (Hall : NoDup (order_by_name (users (db w))).*1
                 /\ Forall (fun mr => users (db w) !! mr.1 = Some mr.2)
                      (order_by_name (users (db w)))).
  { split.
    - rewrite Hperm. apply NoDup_fst_map_to_list.
    - apply Forall_forall. intros [m r] Hin. rewrite Hperm in Hin.
      apply elem_of_map_to_list in Hin. exact Hin. }
  destruct Hall as [Hnd Hrows].
  unfold App.listed_users, UserDB.get_all_users, UserDB.search_users, bind, ret, get_db.
  destruct (String.eqb search_term ""); cbn [fst snd].
  - intros [= <-]. split; [reflexivity|]. eexists. split; [reflexivity|]. split; assumption.
  - destruct (order_by_name (users (db w))) as [|x rows] eqn:E.
    + intros [= <-]. split; [reflexivity|]. exists []. repeat split; constructor.
    + destruct (bool_decide _); cbn [fst snd]; [discriminate|].
      intros [= <-]. split; [reflexivity|]. eexists. split; [reflexivity|]. split.
      * eapply sublist_NoDup; [exact Hnd | apply fmap_sublist, sublist_filter].
      * apply Forall_forall. intros mr Hin. apply list_elem_of_filter in Hin as [_ Hin].
        rewrite Forall_forall in Hrows. apply Hrows, Hin.
Qed.

(** The entries the page of QR codes makes of rows of the table. *)
Lemma qr_entries (env : environment) (base_url blood_filter membership_filter : string)
    (d : database) (rows : dict user_row) :
  Forall (fun mr => users d !! mr.1 = Some mr.2) rows ->
  Forall (fun e =>
       exists m r,
         entry_of env base_url d e m r
         /\ (blood_filter <> ""%string -> blood_group r = Some blood_filter)
         /\ (membership_filter <> ""%string -> membership_type r = Some membership_filter))
    (omap
       (fun user : dict (option string) =>
          let '(qr_code_data, login_url) :=
            App.generate_qr_code env (default ""%string (mjoin (dict_get "member_id" user)))
              base_url in
          if nonempty qr_code_data
          then Some {| qr_member_id := mjoin (dict_get "member_id" user);
                       qr_name := mjoin (dict_get "name" user);
                       qr_code := default ""%string qr_code_data;
                       qr_login_url := login_url |}
          else None)
       (filter
          (fun user : dict (option string) =>
             (String.eqb blood_filter ""
              || bool_decide (mjoin (dict_get "blood_group" user) = Some blood_filter))
             && (String.eqb membership_filter ""
                 || bool_decide (mjoin (dict_get "membership_type" user)
                                 = Some membership_filter)) = true)
          ((fun mr : string * user_row => user_dict mr.1 mr.2) <$> rows)))
  /\ (qr_member_id <$>
        omap
          (fun user : dict (option string) =>
             let '(qr_code_data, login_url) :=
               App.generate_qr_code env (default ""%string (mjoin (dict_get "member_id" user)))
                 base_url in
             if nonempty qr_code_data
             then Some {| qr_member_id := mjoin (dict_get "member_id" user);
                          qr_name := mjoin (dict_get "name" user);
                          qr_code := default ""%string qr_code_data;
                          qr_login_url := login_url |}
             else None)
          (filter
             (fun user : dict (option string) =>
                (String.eqb blood_filter ""
                 || bool_decide (mjoin (dict_get "blood_group" user) = Some blood_filter))
                && (String.eqb membership_filter ""
                    || bool_decide (mjoin (dict_get "membership_type" user)
                                    = Some membership_filter)) = true)
             ((fun mr : string * user_row => user_dict mr.1 mr.2) <$> rows)))
     `sublist_of` (Some <$> rows.*1).
Proof.
  induction 1 as [|[m r] rows Hm _ [IH1 IH2]]; [split; constructor|].
  cbn [fmap list_fmap fst snd]. rewrite filter_cons.
  destruct (decide _) as [Hpass|_]; [|split; [exact IH1 | apply sublist_cons, IH2]].
  cbn [omap list_omap]. cbn [dict_get user_dict String.eqb Ascii.eqb Bool.eqb mjoin
                             option_join default from_option id] in Hpass |- *.
  destruct (App.generate_qr_code env m base_url) as [qr url] eqn:Eg.
  destruct (nonempty qr) eqn:Hqr; cbn [fmap list_fmap];
    [|split; [exact IH1 | apply sublist_cons, IH2]].
  assert (Hurl : url = Some (base_url +:+ "secure-login/" +:+
                             App.serializer_dumps env (member_payload m))%string).
  { unfold App.generate_qr_code in Eg. fold (member_payload m) in Eg.
    destruct (String.eqb m ""); [injection Eg as <- <-; discriminate Hqr|].
    destruct (qr_png_base64 env _); injection Eg as <- <-; [reflexivity | discriminate Hqr]. }
  split; [|apply sublist_skip, IH2].
  constructor; [|exact IH1].
  exists m, r. split; [repeat split; try reflexivity; [exact Hm | exact Hurl]|].
  apply andb_true_iff in Hpass as [Hb Hmt].
  split.
  - intros Hne. apply String.eqb_neq in Hne. rewrite Hne in Hb.
    apply bool_decide_eq_true_1 in Hb. exact Hb.
  - intros Hne. apply String.eqb_neq in Hne. rewrite Hne in Hmt.
    apply bool_decide_eq_true_1 in Hmt. exact Hmt.
Qed.

(** X25.  [generate_qr_codes] asks for no session.  Every entry of the page
    it shows belongs to a member of the table, each member at most once: the
    entry carries the member's name and the address made of the base URL,
    [secure-login/] and the member's own token, so that the QR code opens
    the login page of that member and of nobody else; with a filter on the
    blood group or on the kind of membership, the member's row has the value
    asked for.  Nothing is written. *)
Theorem generate_qr_codes_entries (env : environment)
    (order_by_name : gmap string user_row -> list (string * user_row))
    (req : request) (w : world) (qr_codes : list qr_code_entry) (error : option string)
    (search_term blood_filter membership_filter : string) :
  lists_by_name order_by_name ->
  (App.generate_qr_codes env order_by_name req w).1
    = page (generate_qr_html qr_codes error search_term blood_filter membership_filter) ->
  (App.generate_qr_codes env order_by_name req w).2 = w
  /\ Forall (fun e =>
       exists m r,
         entry_of env (host_url req) (db w) e m r
         /\ (blood_filter <> ""%string -> blood_group r = Some blood_filter)
         /\ (membership_filter <> ""%string -> membership_type r = Some membership_filter))
       qr_codes
  /\ NoDup (qr_member_id <$> qr_codes)
  /\ (forall e m r req' w',
        e ∈ qr_codes -> entry_of env (host_url req) (db w) e m r ->
        reads_back (codec env) (member_payload m) ->
        App.secure_login env (App.serializer_dumps env (member_payload m)) req' w'
        = App.login (Some m) req' w').
Proof.
  intros Hobn. unfold App.generate_qr_codes, bind.
  destruct (App.listed_users order_by_name (default ""%string (dict_get "search" (args req))) w)
    as [[us|] w1] eqn:El; [|discriminate].
  pose proof (listed_users_rows order_by_name
                (default ""%string (dict_get "search" (args req))) w us Hobn) as H.
  rewrite El in H.
  destruct (H eq_refl) as [Hw (rows & -> & Hnd & Hrows)]. cbn [snd] in Hw. subst w1.
  clear H. cbv zeta.
  destruct (qr_entries env (host_url req) (default ""%string (dict_get "blood_group" (args req)))
              (default ""%string (dict_get "membership_type" (args req))) (db w) rows Hrows)
    as [Hentries Hsub].
  assert (Hlast : forall e m r req' w', entry_of env (host_url req) (db w) e m r ->
            reads_back (codec env) (member_payload m) ->
            App.secure_login env (App.serializer_dumps env (member_payload m)) req' w'
            = App.login (Some m) req' w').
  { intros e m r req' w' _ Hcodec. apply secure_login_own_token, Hcodec. }
  destruct (filter _ ((fun mr : string * user_row => user_dict mr.1 mr.2) <$> rows))
    as [|u us] eqn:Ef; unfold ret; cbn [fst snd].
  - intros [= <- <- <- <- <-].
    split; [reflexivity|]. split; [constructor|]. split; [constructor|].
    intros e m r req' w' He. inversion He.
  - intros [= <- <- <- <- <-].
    split; [reflexivity|]. split; [exact Hentries|]. split.
    + eapply sublist_NoDup; [|exact Hsub].
      apply (NoDup_fmap_2 Some). exact Hnd.
    + intros e m r req' w' _. apply Hlast.
Qed.

(** X25 on the sample tables, for a visitor without a session who asks for
    the members of blood group O+. *)
Lemma generate_qr_codes_entries_witness :
  lists_by_name Reference.order_by_name
  /\ (exists qr_codes,
        (App.generate_qr_codes (Reference.env None) Reference.order_by_name
           {| method := GET; form := []; args := [("blood_group", "O+")]%string;
              host_url := "http://localhost:8080/" |} (sample_world ∅)).1
        = page (generate_qr_html qr_codes None "" "O+" "")
        /\ qr_member_id <$> qr_codes = [Some "M043"; Some "M042"]%string
        /\ NoDup (qr_member_id <$> qr_codes)).
Proof.
  split; [exact reference_lists_by_name|].
  eexists. split; [vm_compute; reflexivity|]. split; [vm_compute; reflexivity|].
  eapply (generate_qr_codes_entries (Reference.env None) Reference.order_by_name
            {| method := GET; form := []; args := [("blood_group", "O+")]%string;
               host_url := "http://localhost:8080/" |} (sample_world ∅));
    [exact reference_lists_by_name | vm_compute; reflexivity].
Defined.

(* ===================================================================== *)
(** * Searching the members                                                *)
(* ===================================================================== *)
























